(** * ITA Platform: a shallow embedding of the Django models and helpers

    The platform is a Django project with five applications (accounts,
    courses, enrollments, payments, certifications).  This development
    embeds the model methods, signal handlers, serializer validators and
    payment utilities that carry the platform's business rules, and proves
    properties of them.

    Conventions of the embedding:
    - a database table is an explicit value (a finite map from primary key
      to row, or the list of its rows) threaded through every operation;
    - a Python exception is a value of [exn]; a call that may raise returns
      an [outcome];
    - the clock ([timezone.now()]) and fresh identifiers ([uuid.uuid4()])
      are arguments of the operations that read them;
    - money columns are [DecimalField(max_digits=10, decimal_places=2)] and
      are counted in hundredths, as integers; the arithmetic of Python's
      [decimal] module is embedded separately where a function divides;
    - date attributes hold dates, as rows loaded from the database and
      fields validated by a serializer do; an instance left at the field
      default [timezone.now] holds a [datetime] until it is reloaded and is
      not a value of the record types here. *)

From Stdlib Require Import ZArith List Bool Lia.
From Stdlib Require Import Strings.Ascii Strings.String.
From stdpp Require Import base option list gmap strings.

Local Open Scope string_scope.
Local Open Scope Z_scope.

(** ** Python runtime: exceptions, dates, string formatting *)

Module Py.

(** The exceptions the embedded code raises.  [ValidationError] carries the
    field key of Django's dictionary form ([None] for the plain-message
    form) and the message. *)
Inductive exn : Type :=
  | ValidationError (field : option string) (message : string)
  | IntegrityError (constraint : string)
  | RelatedObjectDoesNotExist (relation : string)
  | KeyError (key : string)
  | ValueError (message : string)
  | InvalidOperation
  | MultipleObjectsReturned.

Inductive outcome (A : Type) : Type :=
  | Return (a : A)
  | Raise (e : exn).
Arguments Return {A} a.
Arguments Raise {A} e.

Definition bind {A B : Type} (m : outcome A) (k : A -> outcome B) : outcome B :=
  match m with
  | Return a => k a
  | Raise e => Raise e
  end.

Definition is_validation_error {A : Type} (m : outcome A) : bool :=
  match m with
  | Raise (ValidationError _ _) => true
  | _ => false
  end.

Definition raises {A : Type} (m : outcome A) : bool :=
  match m with
  | Raise _ => true
  | Return _ => false
  end.

(** [datetime.date]: ordered lexicographically on (year, month, day). *)
Record date : Type := Date { year : Z; month : Z; day : Z }.

Definition date_ltb (a b : date) : bool :=
  (year a <? year b)
  || ((year a =? year b)
      && ((month a <? month b)
          || ((month a =? month b) && (day a <? day b)))).

(** [needle in haystack] on strings. *)
Fixpoint contains (needle haystack : string) : bool :=
  String.prefix needle haystack
  || match haystack with
     | EmptyString => false
     | String _ rest => contains needle rest
     end.

(** Decimal digits of a non-negative integer, most significant first.  The
    fuel is the number of digits at most needed. *)
Definition digit_char (d : Z) : ascii :=
  ascii_of_nat (48 + Z.to_nat d).

Fixpoint digits_fuel (fuel : nat) (n : Z) (acc : string) : string :=
  match fuel with
  | O => acc
  | S fuel' =>
      let acc' := String (digit_char (n mod 10)) acc in
      if n <? 10 then acc' else digits_fuel fuel' (n / 10) acc'
  end.

Definition digits (n : Z) : string :=
  digits_fuel (S (Z.to_nat (Z.log2 n))) n EmptyString.

Fixpoint zeros (k : nat) : string :=
  match k with
  | O => EmptyString
  | S k' => String "0"%char (zeros k')
  end.

(** [format(n, "0{width}d")]: the sign, then the digits padded on the left
    with zeros up to [width] characters in all. *)
Definition format_d (width : nat) (n : Z) : string :=
  let body := digits (Z.abs n) in
  let sign := if n <? 0 then "-" else "" in
  let used := (String.length sign + String.length body)%nat in
  sign +:+ zeros (width - used) +:+ body.

(** [str(n)] for an integer. *)
Definition str_int (n : Z) : string := format_d 0 n.

End Py.

Notation "'try!' x ':=' m 'in' k" := (Py.bind m (fun x => k))
  (at level 10, x pattern, m at level 100, k at level 200).

(** ** accounts: the user model and the [post_save] signal *)

Module Accounts.

(** The columns of [User] that the role logic reads or writes.  [pk] is
    [None] for an instance that was never saved. *)
Record User : Type := mkUser {
  pk : option Z;
  username : string;
  role : string;
  is_active : bool;
  is_staff : bool
}.

Definition with_pk (k : Z) (u : User) : User :=
  mkUser (Some k) (username u) (role u) (is_active u) (is_staff u).

Definition with_is_staff (b : bool) (u : User) : User :=
  mkUser (pk u) (username u) (role u) (is_active u) b.

(** The table [accounts_user], by primary key. *)
Abbreviation table := (gmap Z User).

(** [User.is_staff_member]. *)
Definition staff_roles : list string :=
  ["ADMIN"; "REGISTRAR"; "ACADEMIC"; "FINANCE"].

Definition is_staff_member (u : User) : bool :=
  bool_decide (role u ∈ staff_roles).

(** [Model.save]: an unsaved instance gets the next key of the table and is
    inserted, a saved one overwrites its row; every column is written. *)
Definition next_pk (t : table) : Z := fresh (dom t).

Definition base_save (u : User) (t : table) : User * table :=
  let k := match pk u with Some k => k | None => next_pk t end in
  let u' := with_pk k u in
  (u', <[k := u']> t).

(** [QuerySet.filter(pk=...).update(is_staff=...)]: writes the column of the
    stored row; no signal is sent and no instance in memory changes. *)
Definition update_is_staff (k : option Z) (b : bool) (t : table) : table :=
  match k with
  | Some k => alter (with_is_staff b) k t
  | None => t
  end.

(** The [post_save] receiver [set_staff_status]. *)
Definition set_staff_status (instance : User) (t : table) : table :=
  let should_be_staff := bool_decide (role instance ∈ staff_roles) in
  if negb (Bool.eqb (is_staff instance) should_be_staff)
  then update_is_staff (pk instance) should_be_staff t
  else t.

(** The receivers connected to [post_save] of [User].  [@receiver] connects
    a function when the module that holds it is imported, and no module of
    the project imports [accounts.signals]: the accounts application has no
    [apps.py], and the [ready] methods of the other applications keep
    their imports commented out.  The signal reaches no receiver. *)
Definition post_save_receivers : list (User -> table -> table) := [].

(** [post_save.send]: every connected receiver in turn, each on the table
    the one before has left. *)
Definition send (receivers : list (User -> table -> table))
    (instance : User) (t : table) : table :=
  fold_left (fun t1 receive => receive instance t1) receivers t.

(** [user.save()]: the write, then the signal. *)
Definition save (u : User) (t : table) : User * table :=
  let '(u', t1) := base_save u t in
  (u', send post_save_receivers u' t1).

End Accounts.

(** ** courses: prerequisite validation of the two course serializers *)

Module Courses.

Record Course : Type := mkCourse {
  id : Z;
  title : string;
  price : Z;
  is_active : bool
}.

(** The through-table of [Course.prerequisites]: a row [(c, p)] says that
    course [c] lists course [p] as a prerequisite. *)
Abbreviation prerequisites := (list (Z * Z)).

(** [Course.is_prerequisite_for]:
    [course.prerequisites.filter(id=self.id).exists()]. *)
Definition is_prerequisite_for (m : prerequisites) (self course : Course) : bool :=
  existsb (fun row => (fst row =? id course) && (snd row =? id self)) m.

Definition own_prerequisite_message : string :=
  "A course cannot be its own prerequisite.".

(** The two serializers differ only in the text of the circular error. *)
Definition circular_message_full (prereq instance : Course) : string :=
  "Circular dependency: '" +:+ title prereq +:+ "' already has '"
    +:+ title instance +:+ "' as a prerequisite.".

Definition circular_message_short (prereq instance : Course) : string :=
  "Circular dependency detected with '" +:+ title prereq +:+ "'.".

(** The loop [for prereq in value: ...] of both validators. *)
Fixpoint check_each (circular : Course -> Course -> string)
    (m : prerequisites) (instance : Course) (value : list Course)
    : Py.outcome unit :=
  match value with
  | [] => Py.Return tt
  | prereq :: rest =>
      if id prereq =? id instance then
        Py.Raise (Py.ValidationError None own_prerequisite_message)
      else if is_prerequisite_for m instance prereq then
        Py.Raise (Py.ValidationError None (circular prereq instance))
      else check_each circular m instance rest
  end.

(** [self.instance] is [None] while a course is being created. *)
Definition validate_with (circular : Course -> Course -> string)
    (m : prerequisites) (instance : option Course) (value : list Course)
    : Py.outcome (list Course) :=
  match instance with
  | Some instance =>
      try! _ := check_each circular m instance value in
      Py.Return value
  | None => Py.Return value
  end.

(** [CourseSerializer.validate_prerequisites]. *)
Definition CourseSerializer_validate_prerequisites :=
  validate_with circular_message_full.

(** [CourseCreateUpdateSerializer.validate_prerequisites]. *)
Definition CourseCreateUpdateSerializer_validate_prerequisites :=
  validate_with circular_message_short.

(** A submitted prerequisite the validators reject for the course [c]. *)
Definition offending (m : prerequisites) (c p : Course) : bool :=
  (id p =? id c) || is_prerequisite_for m c p.

Definition rejection (circular : Course -> Course -> string)
    (c p : Course) : Py.exn :=
  Py.ValidationError None
    (if id p =? id c then own_prerequisite_message else circular p c).

(** An error names a course when its message holds the course's title. *)
Definition names_course (p : Course) (e : Py.exn) : bool :=
  match e with
  | Py.ValidationError _ message => Py.contains (title p) message
  | _ => false
  end.

End Courses.

(** ** enrollments: validation, storage constraint and completion *)

Module Enrollments.

(** An enrollment whose date attributes hold dates: a row of the table, an
    instance loaded from it, or an instance built with an explicit
    [enrollment_date].  (An instance built without one holds the
    [datetime] of the field default [timezone.now] until it is reloaded;
    such an instance is not a value of this type.) *)
Record Enrollment : Type := mkEnrollment {
  pk : option Z;
  student : Accounts.User;
  course : Courses.Course;
  enrollment_date : Py.date;
  completion_date : option Py.date;
  status : string;
  verified_by : option Accounts.User;
  notes : string
}.

Definition with_pk (k : Z) (e : Enrollment) : Enrollment :=
  mkEnrollment (Some k) (student e) (course e) (enrollment_date e)
    (completion_date e) (status e) (verified_by e) (notes e).

(** The assignments of [mark_completed] to the instance. *)
Definition completed_by (verifier : option Accounts.User) (today : Py.date)
    (e : Enrollment) : Enrollment :=
  mkEnrollment (pk e) (student e) (course e) (enrollment_date e)
    (Some today) "COMPLETED"
    (match verifier with Some v => Some v | None => verified_by e end)
    (notes e).

(** The rows of [enrollments_enrollment], oldest first. *)
Abbreviation table := (list Enrollment).

(** The same [student] and [course] keys. *)
Definition same_pair (a b : Enrollment) : bool :=
  bool_decide (Accounts.pk (student a) = Accounts.pk (student b))
  && (Courses.id (course a) =? Courses.id (course b)).

Definition has_pk (k : Z) (e : Enrollment) : bool :=
  bool_decide (pk e = Some k).

(** [Enrollment.clean]. *)
Definition clean (self : Enrollment) (t : table) : Py.outcome unit :=
  if negb (String.eqb (Accounts.role (student self)) "STUDENT") then
    Py.Raise (Py.ValidationError (Some "student")
      "Only users with STUDENT role can be enrolled.")
  else if negb (bool_decide (is_Some (pk self)))
          && existsb (fun r => same_pair r self
                               && negb (String.eqb (status r) "CANCELLED")) t then
    Py.Raise (Py.ValidationError (Some "course")
      "Student is already enrolled in this course.")
  else if String.eqb (status self) "COMPLETED"
          && negb (bool_decide (is_Some (completion_date self))) then
    Py.Raise (Py.ValidationError (Some "completion_date")
      "Completion date is required for completed enrollments.")
  else
    match completion_date self with
    | Some d =>
        if Py.date_ltb d (enrollment_date self) then
          Py.Raise (Py.ValidationError (Some "completion_date")
            "Completion date cannot be before enrollment date.")
        else Py.Return tt
    | None => Py.Return tt
    end.

(** [Meta.unique_together = ['student', 'course']]: the storage refuses a
    row whose pair is held by another row, whatever the status of either. *)
Definition violates_unique_together (self : Enrollment) (t : table) : bool :=
  existsb (fun r => same_pair r self && negb (bool_decide (pk r = pk self))) t.

Definition next_pk (t : table) : Z :=
  1 + fold_right Z.max 0 (omap pk t).

(** [Model.save]: insert with the next key, or overwrite the row of the
    instance's key (insert it when no row has that key). *)
Definition write (self : Enrollment) (t : table) : Enrollment * table :=
  match pk self with
  | Some k =>
      if existsb (has_pk k) t
      then (self, map (fun r => if has_pk k r then self else r) t)
      else (self, (t ++ [self])%list)
  | None =>
      let self' := with_pk (next_pk t) self in
      (self', (t ++ [self'])%list)
  end.

Definition base_save (self : Enrollment) (t : table)
    : Py.outcome Enrollment * table :=
  if violates_unique_together self t then
    (Py.Raise (Py.IntegrityError "unique_together (student, course)"), t)
  else
    let '(self', t') := write self t in (Py.Return self', t').

(** [Enrollment.save]: [self.clean()] and then the write. *)
Definition save (self : Enrollment) (t : table)
    : Py.outcome Enrollment * table :=
  match clean self t with
  | Py.Raise e => (Py.Raise e, t)
  | Py.Return _ => base_save self t
  end.

(** [Enrollment.mark_completed]. *)
Definition mark_completed (self : Enrollment)
    (verifier : option Accounts.User) (today : Py.date) (t : table)
    : Py.outcome Enrollment * table :=
  if String.eqb (status self) "COMPLETED" then
    (Py.Raise (Py.ValidationError None "Enrollment is already completed."), t)
  else if String.eqb (status self) "CANCELLED" then
    (Py.Raise (Py.ValidationError None
       "Cannot complete a cancelled enrollment."), t)
  else save (completed_by verifier today self) t.

(** [Enrollment.mark_cancelled]. *)
Definition mark_cancelled (self : Enrollment) (t : table)
    : Py.outcome Enrollment * table :=
  if String.eqb (status self) "COMPLETED" then
    (Py.Raise (Py.ValidationError None
       "Cannot cancel a completed enrollment."), t)
  else
    save (mkEnrollment (pk self) (student self) (course self)
            (enrollment_date self) (completion_date self) "CANCELLED"
            (verified_by self) (notes self)) t.

End Enrollments.

(** ** certifications: issuance and public verification *)

Module Certifications.

Record Certificate : Type := mkCertificate {
  pk : option Z;
  enrollment : Enrollments.Enrollment;
  certificate_number : string;
  verification_code : string;
  issue_date : Py.date;
  is_public : bool;
  certificate_file : option string;
  issued_by : option Accounts.User
}.

Definition with_pk (k : Z) (c : Certificate) : Certificate :=
  mkCertificate (Some k) (enrollment c) (certificate_number c)
    (verification_code c) (issue_date c) (is_public c)
    (certificate_file c) (issued_by c).

Definition with_numbers (number code : string) (c : Certificate) : Certificate :=
  mkCertificate (pk c) (enrollment c) number code (issue_date c)
    (is_public c) (certificate_file c) (issued_by c).

Definition with_file (f : option string) (c : Certificate) : Certificate :=
  mkCertificate (pk c) (enrollment c) (certificate_number c)
    (verification_code c) (issue_date c) (is_public c) f (issued_by c).

(** The rows of [certifications_certificate]. *)
Abbreviation table := (list Certificate).

Definition has_pk (k : Z) (c : Certificate) : bool :=
  bool_decide (pk c = Some k).

Definition for_enrollment (e : Enrollments.Enrollment) (c : Certificate) : bool :=
  bool_decide (Enrollments.pk (enrollment c) = Enrollments.pk e).

(** [Certificate.clean]. *)
Definition clean (self : Certificate) (t : table) : Py.outcome unit :=
  if negb (String.eqb (Enrollments.status (enrollment self)) "COMPLETED") then
    Py.Raise (Py.ValidationError (Some "enrollment")
      "Certificate can only be issued for completed enrollments.")
  else
    match Enrollments.completion_date (enrollment self) with
    | None =>
        Py.Raise (Py.ValidationError (Some "enrollment")
          "Enrollment must have a completion date before issuing certificate.")
    | Some completed =>
        if Py.date_ltb (issue_date self) completed then
          Py.Raise (Py.ValidationError (Some "issue_date")
            "Issue date cannot be before completion date.")
        else if negb (bool_decide (is_Some (pk self)))
                && existsb (for_enrollment (enrollment self)) t then
          Py.Raise (Py.ValidationError (Some "enrollment")
            "A certificate already exists for this enrollment.")
        else Py.Return tt
    end.

(** The number and code an unsaved certificate receives in [save]:
    [CERT-{year}-{count:06d}] from the certificates issued in the clock's
    year, and the fresh UUID [uuid]; values already set are kept. *)
Definition issued_in (y : Z) (c : Certificate) : bool :=
  Py.year (issue_date c) =? y.

Definition numbered (now : Py.date) (uuid : string) (self : Certificate)
    (t : table) : Certificate :=
  let number :=
    if String.eqb (certificate_number self) "" then
      let count := Z.of_nat (length (List.filter (issued_in (Py.year now)) t)) + 1 in
      "CERT-" +:+ Py.str_int (Py.year now) +:+ "-" +:+ Py.format_d 6 count
    else certificate_number self in
  let code :=
    if String.eqb (verification_code self) "" then uuid
    else verification_code self in
  with_numbers number code self.

(** The storage constraints: the one-to-one enrollment and the two unique
    columns. *)
Definition violates_unique (self : Certificate) (t : table) : bool :=
  existsb (fun r =>
    negb (bool_decide (pk r = pk self))
    && (for_enrollment (enrollment self) r
        || String.eqb (certificate_number r) (certificate_number self)
        || String.eqb (verification_code r) (verification_code self))) t.

Definition next_pk (t : table) : Z :=
  1 + fold_right Z.max 0 (omap pk t).

Definition write (self : Certificate) (t : table) : Certificate * table :=
  match pk self with
  | Some k =>
      if existsb (has_pk k) t
      then (self, map (fun r => if has_pk k r then self else r) t)
      else (self, (t ++ [self])%list)
  | None =>
      let self' := with_pk (next_pk t) self in
      (self', (t ++ [self'])%list)
  end.

(** [Certificate.save].  [pdf] is the result of rendering the PDF: [None]
    when the renderer raised, which [_generate_and_attach_pdf] logs and
    swallows. *)
Definition save (self : Certificate) (now : Py.date) (uuid : string)
    (pdf : option string) (t : table) : Py.outcome Certificate * table :=
  let is_new := negb (bool_decide (is_Some (pk self))) in
  let self1 := if is_new then numbered now uuid self t else self in
  match clean self1 t with
  | Py.Raise e => (Py.Raise e, t)
  | Py.Return _ =>
      if violates_unique self1 t then
        (Py.Raise (Py.IntegrityError "certifications_certificate unique"), t)
      else
        let '(self2, t2) := write self1 t in
        if is_new && negb (bool_decide (is_Some (certificate_file self2))) then
          match pdf with
          | Some f =>
              let '(self3, t3) := write (with_file (Some f) self2) t2 in
              (Py.Return self3, t3)
          | None => (Py.Return self2, t2)
          end
        else (Py.Return self2, t2)
  end.

(** [Certificate.verify_certificate]: [objects.get(verification_code=...,
    is_public=True)], with [DoesNotExist] turned into [None]. *)
Definition matches (code : string) (c : Certificate) : bool :=
  String.eqb (verification_code c) code && is_public c.

Definition verify_certificate (code : string) (t : table)
    : Py.outcome (option Certificate) :=
  match List.filter (matches code) t with
  | [] => Py.Return None
  | [certificate] => Py.Return (Some certificate)
  | _ :: _ :: _ => Py.Raise Py.MultipleObjectsReturned
  end.

End Certifications.

(** ** payments: the payment model *)

Module Payments.

(** [amount] is in hundredths.  [enrollment_id] is the foreign key column;
    [receipt_number] is nullable. *)
Record Payment : Type := mkPayment {
  pk : option Z;
  enrollment_id : option Z;
  amount : Z;
  payment_date : Py.date;
  payment_method : string;
  receipt_number : option string;
  received_by : option Accounts.User;
  notes : string
}.

Definition with_pk (k : Z) (p : Payment) : Payment :=
  mkPayment (Some k) (enrollment_id p) (amount p) (payment_date p)
    (payment_method p) (receipt_number p) (received_by p) (notes p).

Definition with_receipt_number (r : string) (p : Payment) : Payment :=
  mkPayment (pk p) (enrollment_id p) (amount p) (payment_date p)
    (payment_method p) (Some r) (received_by p) (notes p).

(** The database as the payment code reads it: the enrollment rows (each
    with its course) and the payment rows. *)
Record state : Type := mkState {
  enrollments : Enrollments.table;
  payments : list Payment
}.

Definition has_pk (k : Z) (p : Payment) : bool :=
  bool_decide (pk p = Some k).

(** [self.enrollment]: the related row.  The descriptor raises when the key
    is unset or dangling, so the test [if not self.enrollment] of [clean]
    never sees a false value. *)
Definition related_enrollment (self : Payment) (st : state)
    : Py.outcome Enrollments.Enrollment :=
  match enrollment_id self with
  | None => Py.Raise (Py.RelatedObjectDoesNotExist "enrollment")
  | Some k =>
      match find (Enrollments.has_pk k) (enrollments st) with
      | Some e => Py.Return e
      | None => Py.Raise (Py.RelatedObjectDoesNotExist "enrollment")
      end
  end.

(** [sum(p.amount for p in rows)]. *)
Definition total (rows : list Payment) : Z :=
  fold_right Z.add 0 (map amount rows).

(** [Payment.objects.filter(enrollment=e)]. *)
Definition of_enrollment (k : option Z) (p : Payment) : bool :=
  bool_decide (enrollment_id p = k).

(** [... .exclude(pk=self.pk)]. *)
Definition other_than (self : Payment) (p : Payment) : bool :=
  negb (bool_decide (is_Some (pk self) /\ pk p = pk self)).

Definition existing_payments (self : Payment) (e : Enrollments.Enrollment)
    (st : state) : list Payment :=
  List.filter (other_than self)
    (List.filter (of_enrollment (Enrollments.pk e)) (payments st)).

(** [str] of a money amount: the units, a point and two digits. *)
Definition str_money (cents : Z) : string :=
  (if cents <? 0 then "-" else "")
  +:+ Py.str_int (Z.abs cents / 100) +:+ "."
  +:+ Py.format_d 2 (Z.abs cents mod 100).

(** [Payment.clean]. *)
Definition clean (self : Payment) (today : Py.date) (st : state)
    : Py.outcome unit :=
  try! e := related_enrollment self st in
  if amount self <=? 0 then
    Py.Raise (Py.ValidationError (Some "amount")
      "Payment amount must be greater than zero.")
  else
    let total_paid := total (existing_payments self e st) + amount self in
    let course_price := Courses.price (Enrollments.course e) in
    if course_price <? total_paid then
      Py.Raise (Py.ValidationError (Some "amount")
        ("Total payments ($" +:+ str_money total_paid
         +:+ ") cannot exceed course price ($" +:+ str_money course_price
         +:+ ")."))
    else if Py.date_ltb (payment_date self) (Enrollments.enrollment_date e) then
      Py.Raise (Py.ValidationError (Some "payment_date")
        "Payment date cannot be before enrollment date.")
    else if Py.date_ltb today (payment_date self) then
      Py.Raise (Py.ValidationError (Some "payment_date")
        "Payment date cannot be in the future.")
    else Py.Return tt.

(** [Payment.generate_receipt_number]: the year and month are the clock's. *)
Definition in_month (y m : Z) (p : Payment) : bool :=
  (Py.year (payment_date p) =? y) && (Py.month (payment_date p) =? m).

Definition generate_receipt_number (now : Py.date) (st : state) : string :=
  let year := Py.year now in
  let month := Py.month now in
  let count := Z.of_nat (length (List.filter (in_month year month) (payments st))) + 1 in
  "RCP-" +:+ Py.str_int year +:+ Py.format_d 2 month +:+ "-"
    +:+ Py.format_d 5 count.

(** [unique=True] on [receipt_number]: nulls never collide. *)
Definition violates_unique (self : Payment) (st : state) : bool :=
  match receipt_number self with
  | None => false
  | Some r =>
      existsb (fun p => negb (bool_decide (pk p = pk self))
                        && bool_decide (receipt_number p = Some r))
        (payments st)
  end.

Definition next_pk (rows : list Payment) : Z :=
  1 + fold_right Z.max 0 (omap pk rows).

Definition write (self : Payment) (rows : list Payment)
    : Payment * list Payment :=
  match pk self with
  | Some k =>
      if existsb (has_pk k) rows
      then (self, map (fun r => if has_pk k r then self else r) rows)
      else (self, (rows ++ [self])%list)
  | None =>
      let self' := with_pk (next_pk rows) self in
      (self', (rows ++ [self'])%list)
  end.

(** [not self.receipt_number]: null or empty. *)
Definition lacks_receipt_number (self : Payment) : bool :=
  match receipt_number self with
  | None => true
  | Some r => String.eqb r ""
  end.

(** [Payment.save]. *)
Definition save (self : Payment) (now : Py.date) (st : state)
    : Py.outcome Payment * state :=
  let self1 :=
    if negb (bool_decide (is_Some (pk self))) && lacks_receipt_number self
    then with_receipt_number (generate_receipt_number now st) self
    else self in
  match clean self1 now st with
  | Py.Raise e => (Py.Raise e, st)
  | Py.Return _ =>
      if violates_unique self1 st then
        (Py.Raise (Py.IntegrityError "payments_payment.receipt_number"), st)
      else
        let '(self2, rows) := write self1 (payments st) in
        (Py.Return self2, mkState (enrollments st) rows)
  end.

(** A run of saves, each with the clock at its time; a save that raises
    leaves the state to the next one. *)
Fixpoint save_all (ops : list (Payment * Py.date)) (st : state) : state :=
  match ops with
  | [] => st
  | (self, now) :: rest => save_all rest (snd (save self now st))
  end.

(** What is paid towards the enrollment of key [k]. *)
Definition paid (k : Z) (rows : list Payment) : Z :=
  total (List.filter (of_enrollment (Some k)) rows).

(** The balance invariant of a database state: payment rows have distinct
    keys and positive amounts, and for every enrollment the amounts paid
    towards it add up to at most the price of its course. *)
Definition within_price (st : state) : Prop :=
  List.NoDup (map pk (payments st))
  /\ Forall (fun p => 0 < amount p) (payments st)
  /\ forall k e,
       find (Enrollments.has_pk k) (enrollments st) = Some e ->
       paid k (payments st) <= Courses.price (Enrollments.course e).


(** [Payment.get_total_paid_for_enrollment] and
    [Payment.get_outstanding_balance]. *)
Definition get_total_paid_for_enrollment (e : Enrollments.Enrollment)
    (st : state) : Z :=
  total (List.filter (of_enrollment (Enrollments.pk e)) (payments st)).

Definition get_outstanding_balance (e : Enrollments.Enrollment)
    (st : state) : Z :=
  Courses.price (Enrollments.course e) - get_total_paid_for_enrollment e st.

(** [PaymentCreateSerializer.validate]: the cross-field check the API runs
    on the deserialized fields before [Payment.objects.create], which calls
    [save]. *)
Record attrs : Type := mkAttrs {
  attrs_enrollment : Enrollments.Enrollment;
  attrs_amount : Z;
  attrs_payment_date : Py.date
}.

Definition PaymentCreateSerializer_validate (a : attrs) (st : state)
    : Py.outcome attrs :=
  let enrollment := attrs_enrollment a in
  let amount := attrs_amount a in
  let payment_date := attrs_payment_date a in
  if Py.date_ltb payment_date (Enrollments.enrollment_date enrollment) then
    Py.Raise (Py.ValidationError (Some "payment_date")
      "Payment date cannot be before enrollment date.")
  else
    let existing_total := get_total_paid_for_enrollment enrollment st in
    let new_total := existing_total + amount in
    let price := Courses.price (Enrollments.course enrollment) in
    if price <? new_total then
      Py.Raise (Py.ValidationError (Some "amount")
        ("Total payments ($" +:+ str_money new_total
         +:+ ") would exceed course price ($" +:+ str_money price
         +:+ "). Outstanding balance: $"
         +:+ str_money (price - existing_total)))
    else Py.Return a.

End Payments.

(** ** Python's [decimal] arithmetic in the default context

    A finite [Decimal] is a signed coefficient and an exponent, standing for
    [coefficient * 10 ^ exponent].  The default context has a precision of
    28 significant digits and rounds half to even; every operation computes
    its result and then rounds it to the precision ([_fix]).  The exponent
    limits of the context (999999 either way) are out of reach of the
    amounts handled here and are left out. *)

Module Decimal.

Record t : Type := mk { coefficient : Z; exponent : Z }.

Definition prec : Z := 28.

Definition of_int (n : Z) : t := mk n 0.

(** Money in hundredths as the [Decimal] a price column holds. *)
Definition of_cents (c : Z) : t := mk c (-2).

(** [len(str(n))] for [n >= 0]. *)
Definition ndigits (n : Z) : Z := Z.of_nat (String.length (Py.digits n)).

Definition is_zero (d : t) : bool := coefficient d =? 0.

(** [Decimal._fix]: round to [prec] digits, half to even; when rounding up
    overflows to one more digit, the last digit is dropped. *)
Definition fix_ (d : t) : t :=
  let c := Z.abs (coefficient d) in
  let n := ndigits c in
  if n <=? prec then d
  else
    let k := n - prec in
    let q := c / 10 ^ k in
    let r := c mod 10 ^ k in
    let half := 5 * 10 ^ (k - 1) in
    let q1 := if (half <? r) || ((r =? half) && Z.odd q) then q + 1 else q in
    if prec <? ndigits q1
    then mk (Z.sgn (coefficient d) * (q1 / 10)) (exponent d + k + 1)
    else mk (Z.sgn (coefficient d) * q1) (exponent d + k).

(** The exact sum, on the smaller exponent. *)
Definition add_exact (a b : t) : t :=
  let e := Z.min (exponent a) (exponent b) in
  mk (coefficient a * 10 ^ (exponent a - e)
      + coefficient b * 10 ^ (exponent b - e)) e.

(** [Decimal.__add__] and [Decimal.__sub__]. *)
Definition add (a b : t) : t := fix_ (add_exact a b).

Definition neg (a : t) : t := mk (- coefficient a) (exponent a).

Definition sub (a b : t) : t := add a (neg b).

(** The loop of [__truediv__] that brings an exact quotient back towards
    the ideal exponent by dropping trailing zeros. *)
Fixpoint strip_zeros (fuel : nat) (coeff exp ideal : Z) : Z * Z :=
  match fuel with
  | O => (coeff, exp)
  | S fuel' =>
      if (exp <? ideal) && (coeff mod 10 =? 0)
      then strip_zeros fuel' (coeff / 10) (exp + 1) ideal
      else (coeff, exp)
  end.

(** [Decimal.__truediv__] for a non-zero divisor: one digit more than the
    precision is computed, and an inexact quotient whose last digit is 0 or
    5 is bumped so that the rounding of [_fix] sees the remainder. *)
Definition div (a b : t) : t :=
  let sign := Z.sgn (coefficient a) * Z.sgn (coefficient b) in
  let ca := Z.abs (coefficient a) in
  let cb := Z.abs (coefficient b) in
  if ca =? 0 then fix_ (mk 0 (exponent a - exponent b))
  else
    let shift := ndigits cb - ndigits ca + prec + 1 in
    let exp := exponent a - exponent b - shift in
    let num := if 0 <=? shift then ca * 10 ^ shift else ca in
    let den := if 0 <=? shift then cb else cb * 10 ^ (- shift) in
    let coeff := num / den in
    let remainder := num mod den in
    if remainder =? 0 then
      let '(coeff', exp') :=
        strip_zeros (Z.to_nat (Z.abs shift)) coeff exp
          (exponent a - exponent b) in
      fix_ (mk (sign * coeff') exp')
    else
      let coeff' := if coeff mod 5 =? 0 then coeff + 1 else coeff in
      fix_ (mk (sign * coeff') exp).

(** [a == b]: equality of the values, whatever the exponents. *)
Definition eqb (a b : t) : bool :=
  let e := Z.min (exponent a) (exponent b) in
  coefficient a * 10 ^ (exponent a - e)
  =? coefficient b * 10 ^ (exponent b - e).

(** The builtin [sum]: it starts from the integer 0 and adds in order, each
    step rounded. *)
Definition sum (l : list t) : t := fold_left add l (of_int 0).

(** The sum of the values as numbers, with no rounding. *)
Definition exact_sum (l : list t) : t := fold_left add_exact l (of_int 0).

End Decimal.

(** ** payments: utility functions *)

Module PaymentUtils.

(** [calculate_payment_plan].  The list [[x] * n] is [repeat x n]; the
    assignment [installments[-1] += difference] rebinds the last entry. *)
Fixpoint add_to_last (difference : Decimal.t) (installments : list Decimal.t)
    : list Decimal.t :=
  match installments with
  | [] => []
  | [x] => [Decimal.add x difference]
  | x :: rest => x :: add_to_last difference rest
  end.

Definition calculate_payment_plan (course_price : Decimal.t)
    (num_installments : Z) : list Decimal.t :=
  if num_installments <=? 0 then []
  else
    let installment_amount :=
      Decimal.div course_price (Decimal.of_int num_installments) in
    let installments := repeat installment_amount (Z.to_nat num_installments) in
    let total_calculated := Decimal.sum installments in
    let difference := Decimal.sub course_price total_calculated in
    if negb (Decimal.is_zero difference)
    then add_to_last difference installments
    else installments.

(** The values found in a payment-record dictionary: an integer, the text
    of a money amount with two decimals (such as ['12.50'], here in
    hundredths), or text that [Decimal] does not read as a number.  Text
    that [Decimal] reads in another form (more decimals, an exponent,
    ['Infinity'], ['NaN']) is not among these values. *)
Inductive pyval : Type :=
  | PyInt (n : Z)
  | PyMoney (cents : Z)
  | PyText (s : string).

Abbreviation payment_data := (gmap string pyval).

Record error_entry : Type := mkError { index : Z; error : string }.

Definition str (v : pyval) : string :=
  match v with
  | PyInt n => Py.str_int n
  | PyMoney c => Payments.str_money c
  | PyText s => s
  end.

(** [payment_data[key]]. *)
Definition subscript (payment_data : payment_data) (key : string)
    : Py.outcome pyval :=
  match payment_data !! key with
  | Some v => Py.Return v
  | None => Py.Raise (Py.KeyError key)
  end.

(** [Enrollment.objects.get(id=v)]; [Return None] stands for
    [Enrollment.DoesNotExist], the one exception the caller catches.  Text
    that is not an integer makes the lookup raise [ValueError]. *)
Definition get_enrollment (v : pyval) (st : Payments.state)
    : Py.outcome (option Enrollments.Enrollment) :=
  match v with
  | PyInt k => Py.Return (find (Enrollments.has_pk k) (Payments.enrollments st))
  | _ => Py.Raise (Py.ValueError "Field 'id' expected a number")
  end.

(** [Decimal(str(v))], in hundredths.  Text that is not a number raises
    [decimal.InvalidOperation], an [ArithmeticError], which the clause
    [except (ValueError, TypeError)] does not catch. *)
Definition to_decimal (v : pyval) : Py.outcome Z :=
  match v with
  | PyInt n => Py.Return (100 * n)
  | PyMoney c => Py.Return c
  | PyText _ => Py.Raise Py.InvalidOperation
  end.

Definition required_fields : list string :=
  ["enrollment_id"; "amount"; "payment_method"].

(** The inner loop over [required_fields]: its [continue] resumes that loop
    and not the one over the records. *)
Fixpoint missing_fields (i : Z) (payment_data : payment_data)
    (fields : list string) : list error_entry :=
  match fields with
  | [] => []
  | field :: rest =>
      if bool_decide (is_Some (payment_data !! field))
      then missing_fields i payment_data rest
      else mkError i ("Missing required field: " +:+ field)
           :: missing_fields i payment_data rest
  end.

(** One turn of the loop over the records: the entries it appends. *)
Definition validate_record (i : Z) (payment_data : payment_data)
    (st : Payments.state) : Py.outcome (list error_entry) :=
  let errors := missing_fields i payment_data required_fields in
  try! key := subscript payment_data "enrollment_id" in
  try! found := get_enrollment key st in
  match found with
  | None =>
      Py.Return (errors ++ [mkError i
        ("Enrollment " +:+ str key +:+ " does not exist")])%list
  | Some enrollment =>
      try! raw := subscript payment_data "amount" in
      try! amount := to_decimal raw in
      if amount <=? 0 then
        Py.Return (errors ++ [mkError i
          "Payment amount must be greater than zero"])%list
      else
        let outstanding := Payments.get_outstanding_balance enrollment st in
        if outstanding <? amount then
          Py.Return (errors ++ [mkError i
            ("Amount $" +:+ str raw +:+ " exceeds outstanding balance $"
             +:+ Payments.str_money outstanding)])%list
        else Py.Return errors
  end.

Fixpoint validate_from (i : Z) (payment_data_list : list payment_data)
    (st : Payments.state) (errors : list error_entry)
    : Py.outcome (list error_entry) :=
  match payment_data_list with
  | [] => Py.Return errors
  | payment_data :: rest =>
      try! appended := validate_record i payment_data st in
      validate_from (i + 1) rest st (errors ++ appended)%list
  end.

(** [bulk_payment_validation]. *)
Definition bulk_payment_validation (payment_data_list : list payment_data)
    (st : Payments.state) : Py.outcome (bool * list error_entry) :=
  try! errors := validate_from 0 payment_data_list st [] in
  Py.Return (Nat.eqb (length errors) 0, errors).

End PaymentUtils.

(** ** accounts: role helpers and the group function *)

Module Permissions.

Definition has_role (roles : list string) (u : Accounts.User) : bool :=
  bool_decide (Accounts.role u ∈ roles).

(** The helper methods [User.can_...]. *)
Definition can_create_users : Accounts.User -> bool :=
  has_role ["ADMIN"; "REGISTRAR"].

Definition can_manage_courses : Accounts.User -> bool :=
  has_role ["ADMIN"; "ACADEMIC"].

Definition can_verify_completion : Accounts.User -> bool :=
  has_role ["ADMIN"; "ACADEMIC"].

Definition can_issue_certificates : Accounts.User -> bool :=
  has_role ["ADMIN"; "ACADEMIC"].

Definition can_record_payments : Accounts.User -> bool :=
  has_role ["ADMIN"; "REGISTRAR"; "FINANCE"].

Definition can_view_financial_reports : Accounts.User -> bool :=
  has_role ["ADMIN"; "FINANCE"].

Definition is_student (u : Accounts.User) : bool :=
  String.eqb (Accounts.role u) "STUDENT".

Definition is_tutor (u : Accounts.User) : bool :=
  String.eqb (Accounts.role u) "TUTOR".

End Permissions.

Module Groups.

(** Django's groups as the receiver uses them: the names of the groups that
    exist, and for each user key the groups the user is in. *)
Record auth : Type := mkAuth {
  groups : gset string;
  membership : gmap Z (gset string)
}.

Definition role_group_mapping : list (string * string) :=
  [("ADMIN", "Admin"); ("REGISTRAR", "Registrar");
   ("ACADEMIC", "Academic Staff"); ("FINANCE", "Finance Staff");
   ("STUDENT", "Student"); ("TUTOR", "Tutor")].

(** [role_group_mapping.get(role)]. *)
Fixpoint mapping_get (role : string) (mapping : list (string * string))
    : option string :=
  match mapping with
  | [] => None
  | (r, g) :: rest => if String.eqb r role then Some g else mapping_get role rest
  end.

(** The function [add_user_to_group] of [accounts/signals.py], as it runs
    when it is called: [instance.groups.clear()], then [get_or_create] of
    the role's group and [instance.groups.add].  The related manager of an
    instance without a key raises [ValueError] (Django's message also
    carries the instance's representation).  Like [set_staff_status], the
    function is connected to no signal ([Accounts.post_save_receivers]). *)
Definition add_user_to_group (instance : Accounts.User) (created : bool)
    (a : auth) : Py.outcome auth :=
  if created || negb (String.eqb (Accounts.role instance) "") then
    match Accounts.pk instance with
    | None =>
        Py.Raise (Py.ValueError
          "needs to have a value for field id before this many-to-many relationship can be used.")
    | Some k =>
        let cleared := <[k := ∅]> (membership a) in
        match mapping_get (Accounts.role instance) role_group_mapping with
        | Some group_name =>
            Py.Return (mkAuth ({[group_name]} ∪ groups a)
                         (<[k := {[group_name]}]> cleared))
        | None => Py.Return (mkAuth (groups a) cleared)
        end
    end
  else Py.Return a.

(** The groups of a user: none when the user was never given any. *)
Definition groups_of (k : Z) (a : auth) : gset string :=
  default ∅ (membership a !! k).

End Groups.

(** ** courses: writing the prerequisites of a course *)

Module CourseUpdates.

(** The catalog: the course rows, in the model's default ordering, and the
    through-table of [prerequisites]. *)
Record catalog : Type := mkCatalog {
  courses : list Courses.Course;
  links : Courses.prerequisites
}.

Definition ids (value : list Courses.Course) : list Z :=
  map Courses.id value.

(** [instance.prerequisites.set(objs)]: the rows of the course whose target
    is not among [objs] are removed, and a row is added for every object
    that has none yet (once per object).  Rows of other courses stay. *)
Definition set_prerequisites (c : Z) (objs : list Courses.Course)
    (m : Courses.prerequisites) : Courses.prerequisites :=
  let kept :=
    List.filter (fun row => negb (fst row =? c)
                            || bool_decide (snd row ∈ ids objs)) m in
  let old_ids := map snd (List.filter (fun row => fst row =? c) m) in
  let new_ids :=
    List.filter (fun t => negb (bool_decide (t ∈ old_ids)))
      (List.nodup Z.eq_dec (ids objs)) in
  (kept ++ map (fun t => (c, t)) new_ids)%list.

(** [instance.save()] of a course: the row of its key is overwritten. *)
Definition write_course (data : Courses.Course) (rows : list Courses.Course)
    : list Courses.Course :=
  map (fun r => if Courses.id r =? Courses.id data then data else r) rows.

(** An update through [CourseCreateUpdateSerializer]: the submitted
    prerequisites, when the request carries any, are validated against the
    instance; [update] then saves the columns and sets the prerequisites.
    [data] holds the columns after the [setattr] loop. *)
Definition update (instance data : Courses.Course)
    (prerequisites : option (list Courses.Course)) (cat : catalog)
    : Py.outcome catalog :=
  match prerequisites with
  | None => Py.Return (mkCatalog (write_course data (courses cat)) (links cat))
  | Some value =>
      try! validated :=
        Courses.CourseCreateUpdateSerializer_validate_prerequisites
          (links cat) (Some instance) value in
      Py.Return (mkCatalog (write_course data (courses cat))
                   (set_prerequisites (Courses.id instance) validated
                      (links cat)))
  end.

(** The prerequisite relation has no course requiring itself and no two
    courses requiring each other. *)
Definition no_short_cycle (m : Courses.prerequisites) : Prop :=
  forall a b, In (a, b) m -> a <> b /\ ~ In (b, a) m.

(** [course.prerequisites.all()]. *)
Definition prerequisites_of (c : Courses.Course) (cat : catalog)
    : list Courses.Course :=
  List.filter (fun p => Courses.is_prerequisite_for (links cat) p c)
    (courses cat).

End CourseUpdates.

(** ** enrollments: the prerequisite check and the create serializer *)

Module EnrollmentChecks.

Definition same_student (u : Accounts.User) (r : Enrollments.Enrollment) : bool :=
  bool_decide (Accounts.pk (Enrollments.student r) = Accounts.pk u).

(** [Enrollment.objects.filter(student=..., status='COMPLETED')
    .values_list('course_id', flat=True)]. *)
Definition completed_courses (u : Accounts.User) (t : Enrollments.table)
    : list Z :=
  map (fun r => Courses.id (Enrollments.course r))
    (List.filter (fun r => same_student u r
                           && String.eqb (Enrollments.status r) "COMPLETED") t).

(** A student has completed a course when a stored enrollment of the
    student in that course has status COMPLETED. *)
Definition completed (u : Accounts.User) (t : Enrollments.table)
    (p : Courses.Course) : Prop :=
  exists r, In r t
            /\ Accounts.pk (Enrollments.student r) = Accounts.pk u
            /\ Enrollments.status r = "COMPLETED"
            /\ Courses.id (Enrollments.course r) = Courses.id p.

(** The loop collecting the prerequisites that are not completed. *)
Definition missing_among (completed : list Z)
    (prerequisites : list Courses.Course) : list Courses.Course :=
  List.filter (fun prereq => negb (bool_decide (Courses.id prereq ∈ completed)))
    prerequisites.

(** [Enrollment.check_prerequisites]. *)
Definition check_prerequisites (self : Enrollments.Enrollment)
    (cat : CourseUpdates.catalog) (t : Enrollments.table)
    : bool * list Courses.Course :=
  let prerequisites :=
    CourseUpdates.prerequisites_of (Enrollments.course self) cat in
  match prerequisites with
  | [] => (true, [])
  | _ :: _ =>
      let completed := completed_courses (Enrollments.student self) t in
      let missing_prerequisites := missing_among completed prerequisites in
      (Nat.eqb (length missing_prerequisites) 0, missing_prerequisites)
  end.

(** [', '.join(titles)]. *)
Fixpoint join (titles : list string) : string :=
  match titles with
  | [] => ""
  | [t] => t
  | t :: rest => t +:+ ", " +:+ join rest
  end.

(** The validated fields of [EnrollmentCreateSerializer]. *)
Record attrs : Type := mkAttrs {
  student : Accounts.User;
  course : Courses.Course;
  enrollment_date : Py.date;
  notes : string
}.

(** [EnrollmentCreateSerializer.validate_student]. *)
Definition validate_student (value : Accounts.User) : Py.outcome Accounts.User :=
  if negb (String.eqb (Accounts.role value) "STUDENT") then
    Py.Raise (Py.ValidationError None
      "Only users with STUDENT role can be enrolled.")
  else if negb (Accounts.is_active value) then
    Py.Raise (Py.ValidationError None
      "Cannot enroll inactive students.")
  else Py.Return value.

(** [EnrollmentCreateSerializer.validate]. *)
Definition active_duplicate (a : attrs) (t : Enrollments.table) : bool :=
  existsb (fun r => same_student (student a) r
                    && (Courses.id (Enrollments.course r) =? Courses.id (course a))
                    && negb (String.eqb (Enrollments.status r) "CANCELLED")) t.

Definition validate (a : attrs) (cat : CourseUpdates.catalog)
    (t : Enrollments.table) : Py.outcome attrs :=
  if active_duplicate a t then
    Py.Raise (Py.ValidationError (Some "course")
      "Student is already enrolled in this course.")
  else
    match CourseUpdates.prerequisites_of (course a) cat with
    | [] => Py.Return a
    | prerequisites =>
        let completed := completed_courses (student a) t in
        let missing_prerequisites :=
          map Courses.title (missing_among completed prerequisites) in
        match missing_prerequisites with
        | [] => Py.Return a
        | _ :: _ =>
            Py.Raise (Py.ValidationError (Some "course")
              ("Missing prerequisites: " +:+ join missing_prerequisites))
        end
    end.

(** The enrollment the serializer creates from its validated fields. *)
Definition to_enrollment (a : attrs) : Enrollments.Enrollment :=
  Enrollments.mkEnrollment None (student a) (course a) (enrollment_date a)
    None "IN_PROGRESS" None (notes a).

End EnrollmentChecks.

(** ** payments: balances, summaries and reports *)

Module PaymentQueries.

Definition date_leb (a b : Py.date) : bool := negb (Py.date_ltb b a).

(** [Payment.get_remaining_balance]: the price less what was paid up to
    the date of this payment. *)
Definition get_remaining_balance (self : Payments.Payment)
    (st : Payments.state) : Py.outcome Z :=
  try! e := Payments.related_enrollment self st in
  let total_paid :=
    Payments.total
      (List.filter (fun p => Payments.of_enrollment (Enrollments.pk e) p
                             && date_leb (Payments.payment_date p)
                                  (Payments.payment_date self))
         (Payments.payments st)) in
  Py.Return (Courses.price (Enrollments.course e) - total_paid).

(** [Payment.is_enrollment_fully_paid]. *)
Definition is_enrollment_fully_paid (e : Enrollments.Enrollment)
    (st : Payments.state) : bool :=
  Payments.get_outstanding_balance e st <=? 0.

(** [Enrollment.get_payment_summary]. *)
Record payment_summary : Type := mkSummary {
  course_price : Z;
  total_paid : Z;
  outstanding_balance : Z;
  is_fully_paid : bool;
  payment_count : nat
}.

Definition get_payment_summary (self : Enrollments.Enrollment)
    (st : Payments.state) : payment_summary :=
  let payments :=
    List.filter (Payments.of_enrollment (Enrollments.pk self))
      (Payments.payments st) in
  let total_paid := Payments.total payments in
  let outstanding := Courses.price (Enrollments.course self) - total_paid in
  mkSummary (Courses.price (Enrollments.course self)) total_paid
    (Z.max outstanding 0) (outstanding <=? 0) (length payments).

(** [Payment.PAYMENT_METHOD_CHOICES] and [get_payment_method_display]. *)
Definition PAYMENT_METHOD_CHOICES : list (string * string) :=
  [("CASH", "Cash"); ("BANK_TRANSFER", "Bank Transfer");
   ("CARD", "Credit/Debit Card"); ("MOBILE_MONEY", "Mobile Money");
   ("CHEQUE", "Cheque"); ("OTHER", "Other")].

Definition has_method (method : string) (p : Payments.Payment) : bool :=
  String.eqb (Payments.payment_method p) method.

(** [Payment.get_revenue_summary].  [by_method] is the dictionary in the
    order its keys are inserted. *)
Record revenue_summary : Type := mkRevenue {
  total_revenue : Z;
  revenue_payment_count : nat;
  by_method : list (string * Z)
}.

Definition in_range (start_date end_date : option Py.date)
    (p : Payments.Payment) : bool :=
  match start_date with
  | Some d => date_leb d (Payments.payment_date p)
  | None => true
  end
  && match end_date with
     | Some d => date_leb (Payments.payment_date p) d
     | None => true
     end.

Fixpoint method_totals (choices : list (string * string))
    (queryset : list Payments.Payment) : list (string * Z) :=
  match choices with
  | [] => []
  | (method, _) :: rest =>
      let method_total :=
        Payments.total (List.filter (has_method method) queryset) in
      if 0 <? method_total
      then (method, method_total) :: method_totals rest queryset
      else method_totals rest queryset
  end.

Definition get_revenue_summary (start_date end_date : option Py.date)
    (st : Payments.state) : revenue_summary :=
  let queryset :=
    List.filter (in_range start_date end_date) (Payments.payments st) in
  mkRevenue (Payments.total queryset) (length queryset)
    (method_totals PAYMENT_METHOD_CHOICES queryset).

(** [get_student_payment_summary]. *)
Record student_summary : Type := mkStudentSummary {
  total_enrollments : nat;
  total_course_fees : Z;
  student_total_paid : Z;
  total_outstanding : Z;
  fully_paid_enrollments : nat;
  partially_paid_enrollments : nat;
  unpaid_enrollments : nat
}.

(** The loop over the student's enrollments, with its five accumulators. *)
Fixpoint tally (enrollments : list Enrollments.Enrollment)
    (st : Payments.state) (fees paid : Z) (full partial unpaid : nat)
    : Z * Z * nat * nat * nat :=
  match enrollments with
  | [] => (fees, paid, full, partial, unpaid)
  | enrollment :: rest =>
      let course_price := Courses.price (Enrollments.course enrollment) in
      let p := Payments.get_total_paid_for_enrollment enrollment st in
      if course_price <=? p then
        tally rest st (fees + course_price) (paid + p) (S full) partial unpaid
      else if 0 <? p then
        tally rest st (fees + course_price) (paid + p) full (S partial) unpaid
      else
        tally rest st (fees + course_price) (paid + p) full partial (S unpaid)
  end.

Definition get_student_payment_summary (student : Accounts.User)
    (st : Payments.state) : student_summary :=
  let enrollments :=
    List.filter (EnrollmentChecks.same_student student)
      (Payments.enrollments st) in
  let '(fees, paid, full, partial, unpaid) :=
    tally enrollments st 0 0 0%nat 0%nat 0%nat in
  mkStudentSummary (length enrollments) fees paid (fees - paid)
    full partial unpaid.

(** The sum of the values of a dictionary of amounts. *)
Definition sum_values (d : list (string * Z)) : Z :=
  fold_right Z.add 0 (map snd d).

(** The sum of a quantity over enrollments. *)
Definition sum_over (f : Enrollments.Enrollment -> Z)
    (es : list Enrollments.Enrollment) : Z :=
  fold_right Z.add 0 (map f es).

End PaymentQueries.

(** ** payments: reconciliation and the create serializer *)

Module PaymentReports.

(** [order_by('payment_date')]: ascending.  The database leaves the order
    of rows of one date open; they are kept in table order here, and
    nothing proved below depends on that choice. *)
Fixpoint insert_by_date (p : Payments.Payment) (sorted : list Payments.Payment)
    : list Payments.Payment :=
  match sorted with
  | [] => [p]
  | q :: rest =>
      if Py.date_ltb (Payments.payment_date p) (Payments.payment_date q)
      then p :: q :: rest
      else q :: insert_by_date p rest
  end.

Definition order_by_payment_date (rows : list Payments.Payment)
    : list Payments.Payment :=
  fold_left (fun sorted p => insert_by_date p sorted) rows [].

(** [get_payment_method_display]: the label of the choice, or the stored
    value when it is none of the choices. *)
Fixpoint display (choices : list (string * string)) (method : string) : string :=
  match choices with
  | [] => method
  | (code, label) :: rest =>
      if String.eqb code method then label else display rest method
  end.

Record payment_detail : Type := mkDetail {
  detail_receipt_number : option string;
  detail_date : Py.date;
  detail_amount : Z;
  detail_method : string;
  balance_after : Z
}.

(** The loop of [reconcile_enrollment_payments]: the details appended and
    the running balance it ends with. *)
Fixpoint replay (payments : list Payments.Payment) (running_balance : Z)
    : list payment_detail * Z :=
  match payments with
  | [] => ([], running_balance)
  | payment :: rest =>
      let running_balance := running_balance - Payments.amount payment in
      let '(details, final) := replay rest running_balance in
      (mkDetail (Payments.receipt_number payment)
         (Payments.payment_date payment) (Payments.amount payment)
         (display PaymentQueries.PAYMENT_METHOD_CHOICES
            (Payments.payment_method payment))
         running_balance :: details, final)
  end.

(** [reconcile_enrollment_payments].  The student's name is left out of
    the report: the name columns are not part of [Accounts.User]. *)
Record reconciliation : Type := mkReconciliation {
  report_enrollment_id : option Z;
  report_course : string;
  report_course_price : Z;
  report_total_paid : Z;
  report_outstanding : Z;
  report_payment_count : nat;
  report_payments : list payment_detail;
  is_reconciled : bool;
  discrepancy : Z
}.

Definition reconcile_enrollment_payments (enrollment : Enrollments.Enrollment)
    (st : Payments.state) : reconciliation :=
  let payments :=
    order_by_payment_date
      (List.filter (Payments.of_enrollment (Enrollments.pk enrollment))
         (Payments.payments st)) in
  let course_price := Courses.price (Enrollments.course enrollment) in
  let total_paid := Payments.total payments in
  let outstanding := course_price - total_paid in
  let '(payment_details, running_balance) := replay payments course_price in
  let is_reconciled := Z.abs (outstanding - running_balance) <? 1 in
  mkReconciliation (Enrollments.pk enrollment)
    (Courses.title (Enrollments.course enrollment)) course_price total_paid
    outstanding (length payments) payment_details is_reconciled
    (if is_reconciled then 0 else outstanding - running_balance).

(** [PaymentCreateSerializer.validate_amount] and [validate_payment_date]. *)
Definition validate_amount (value : Z) : Py.outcome Z :=
  if value <=? 0 then
    Py.Raise (Py.ValidationError None
      "Payment amount must be greater than zero.")
  else Py.Return value.

Definition validate_payment_date (value today : Py.date) : Py.outcome Py.date :=
  if Py.date_ltb today value then
    Py.Raise (Py.ValidationError None
      "Payment date cannot be in the future.")
  else Py.Return value.

(** The payment [PaymentCreateSerializer.create] hands to
    [Payment.objects.create]. *)
Definition to_payment (a : Payments.attrs) (payment_method notes : string)
    (received_by : option Accounts.User) : Payments.Payment :=
  Payments.mkPayment None (Enrollments.pk (Payments.attrs_enrollment a))
    (Payments.attrs_amount a) (Payments.attrs_payment_date a)
    payment_method None received_by notes.

End PaymentReports.

(** ** certifications: visibility toggle and pending certificates *)

Module CertificateOps.

Definition with_public (b : bool) (c : Certifications.Certificate)
    : Certifications.Certificate :=
  Certifications.mkCertificate (Certifications.pk c)
    (Certifications.enrollment c) (Certifications.certificate_number c)
    (Certifications.verification_code c) (Certifications.issue_date c) b
    (Certifications.certificate_file c) (Certifications.issued_by c).

(** [Certificate.toggle_public]: flip the flag, [save], return the flag. *)
Definition toggle_public (self : Certifications.Certificate) (now : Py.date)
    (uuid : string) (pdf : option string) (t : Certifications.table)
    : Py.outcome bool * Certifications.table :=
  match Certifications.save
          (with_public (negb (Certifications.is_public self)) self)
          now uuid pdf t with
  | (Py.Return saved, t') => (Py.Return (Certifications.is_public saved), t')
  | (Py.Raise e, t') => (Py.Raise e, t')
  end.

(** [Certificate.get_pending_certificates]: the completed enrollments
    without a certificate.  The queryset carries the model's default
    ordering ([-enrollment_date]); the list here keeps the rows in table
    order, and what is proved of it speaks of membership and of filtering,
    which hold in either order. *)
Definition get_pending_certificates (es : Enrollments.table)
    (t : Certifications.table) : list Enrollments.Enrollment :=
  List.filter (fun e => String.eqb (Enrollments.status e) "COMPLETED"
                        && negb (existsb (Certifications.for_enrollment e) t))
    es.

(** The storage constraints of the certificate table: every row has a key,
    and keys, enrollments, numbers and codes are each distinct. *)
Definition well_formed (t : Certifications.table) : Prop :=
  Forall (fun c => is_Some (Certifications.pk c)) t
  /\ List.NoDup (map Certifications.pk t)
  /\ List.NoDup (map (fun c => Enrollments.pk (Certifications.enrollment c)) t)
  /\ List.NoDup (map Certifications.certificate_number t)
  /\ List.NoDup (map Certifications.verification_code t).

End CertificateOps.

(** ** Sample records used in the worked cases *)

Module Samples.

Definition algebra : Courses.Course :=
  Courses.mkCourse 1 "Algebra" 100000 true.

Definition amal : Accounts.User :=
  Accounts.mkUser (Some 7) "amal" "STUDENT" true false.

Definition registrar : Accounts.User :=
  Accounts.mkUser (Some 2) "rana" "REGISTRAR" true true.

(** The first enrollment of [amal] in [algebra], as submitted and as
    stored; the same row once cancelled; and a new enrollment for the same
    pair. *)
Definition first_enrollment : Enrollments.Enrollment :=
  Enrollments.mkEnrollment None amal algebra (Py.Date 2025 1 10) None
    "IN_PROGRESS" None "".

Definition first_row : Enrollments.Enrollment :=
  Enrollments.mkEnrollment (Some 1) amal algebra (Py.Date 2025 1 10) None
    "IN_PROGRESS" None "".

Definition cancelled_row : Enrollments.Enrollment :=
  Enrollments.mkEnrollment (Some 1) amal algebra (Py.Date 2025 1 10) None
    "CANCELLED" None "".

Definition reenrollment : Enrollments.Enrollment :=
  Enrollments.mkEnrollment None amal algebra (Py.Date 2025 2 1) None
    "IN_PROGRESS" None "".

(** An enrollment in progress since 1 February 2025, and one entered with a
    start date of 1 June 2025, as submitted and as stored. *)
Definition running_row : Enrollments.Enrollment :=
  Enrollments.mkEnrollment (Some 1) amal algebra (Py.Date 2025 2 1) None
    "IN_PROGRESS" None "".

Definition upcoming_enrollment : Enrollments.Enrollment :=
  Enrollments.mkEnrollment None amal algebra (Py.Date 2025 6 1) None
    "IN_PROGRESS" None "".

Definition upcoming_row : Enrollments.Enrollment :=
  Enrollments.mkEnrollment (Some 1) amal algebra (Py.Date 2025 6 1) None
    "IN_PROGRESS" None "".

Definition may_first : Py.date := Py.Date 2025 5 1.

(** A completed enrollment, and one of another student. *)
Definition completed_row : Enrollments.Enrollment :=
  Enrollments.mkEnrollment (Some 2) amal algebra (Py.Date 2025 2 1)
    (Some (Py.Date 2025 4 30)) "COMPLETED" (Some registrar) "".

Definition omar : Accounts.User :=
  Accounts.mkUser (Some 8) "omar" "STUDENT" true false.

Definition omar_completed_row : Enrollments.Enrollment :=
  Enrollments.mkEnrollment (Some 3) omar algebra (Py.Date 2025 2 1)
    (Some (Py.Date 2025 4 30)) "COMPLETED" (Some registrar) "".

(** A certificate about to be issued for the enrollment still in progress. *)
Definition premature_certificate : Certifications.Certificate :=
  Certifications.mkCertificate None running_row "" "" may_first true None
    (Some registrar).

(** Two stored certificates: a public one and one withdrawn from public
    verification. *)
Definition public_certificate : Certifications.Certificate :=
  Certifications.mkCertificate (Some 1) completed_row "CERT-2025-000001"
    "3f2b8c1e-0000-4000-8000-000000000001" may_first true None
    (Some registrar).

Definition private_certificate : Certifications.Certificate :=
  Certifications.mkCertificate (Some 2) omar_completed_row "CERT-2025-000002"
    "3f2b8c1e-0000-4000-8000-000000000002" may_first false None
    (Some registrar).

Definition certificates : Certifications.table :=
  [public_certificate; private_certificate].

(** The ledger of [amal]'s enrollment in "Algebra" (price 1000.00) after a
    first payment of 800.00, and a second payment of 300.00 about to be
    saved on 10 March 2025. *)
Definition first_payment : Payments.Payment :=
  Payments.mkPayment (Some 1) (Some 1) 80000 (Py.Date 2025 2 10) "CASH"
    (Some "RCP-202502-00001") (Some registrar) "".

Definition ledger : Payments.state :=
  Payments.mkState [running_row] [first_payment].


Definition march_tenth : Py.date := Py.Date 2025 3 10.

(** The same enrollment with nothing paid yet; a payment dated 15 February
    2025 and one dated 10 March 2025, both entered on 10 March 2025. *)
Definition empty_ledger : Payments.state :=
  Payments.mkState [running_row] [].



(** A second enrollment attempt while [running_row] is in progress. *)
Definition duplicate_enrollment : Enrollments.Enrollment :=
  Enrollments.mkEnrollment None amal algebra (Py.Date 2025 3 1) None
    "IN_PROGRESS" None "".

(** Three saves on 10 March 2025 against the empty ledger: 800.00, then
    300.00 (refused), then 200.00. *)
Definition march_saves : list (Payments.Payment * Py.date) :=
  [(Payments.mkPayment None (Some 1) 80000 (Py.Date 2025 3 10) "CASH" None
      (Some registrar) "", march_tenth);
   (Payments.mkPayment None (Some 1) 30000 (Py.Date 2025 3 10) "CASH" None
      (Some registrar) "", march_tenth);
   (Payments.mkPayment None (Some 1) 20000 (Py.Date 2025 3 10) "CARD" None
      (Some registrar) "", march_tenth)].

(** A user about to be created with the role ADMIN and the column default
    of [is_staff]. *)
Definition new_admin : Accounts.User :=
  Accounts.mkUser None "huda" "ADMIN" true false.

(** A tutor promoted to the finance office, with the groups as they are
    before the change. *)
Definition promoted : Accounts.User :=
  Accounts.mkUser (Some 5) "lina" "FINANCE" true false.

Definition groups_before : Groups.auth :=
  Groups.mkAuth {["Tutor"]} (<[5 := {["Tutor"]}]> ∅).

(** A small catalog: "Calculus" requires "Algebra"; "Analysis" requires
    nothing yet. *)
Definition calculus : Courses.Course :=
  Courses.mkCourse 2 "Calculus" 120000 true.

Definition analysis : Courses.Course :=
  Courses.mkCourse 3 "Analysis" 150000 true.

Definition catalog : CourseUpdates.catalog :=
  CourseUpdates.mkCatalog [algebra; calculus; analysis] [(2, 1)].

(** [omar] asks for "Calculus" having completed "Algebra"
    ([omar_completed_row]). *)
Definition enrollment_rows : Enrollments.table :=
  [running_row; omar_completed_row].

Definition omar_request : EnrollmentChecks.attrs :=
  EnrollmentChecks.mkAttrs omar calculus (Py.Date 2025 5 2) "".

(** [omar]'s enrollment in "Calculus", completed, and the certificate about
    to be issued for it on 1 May 2025. *)
Definition calculus_completed_row : Enrollments.Enrollment :=
  Enrollments.mkEnrollment (Some 4) omar calculus (Py.Date 2025 2 1)
    (Some (Py.Date 2025 4 30)) "COMPLETED" (Some registrar) "".

Definition calculus_certificate : Certifications.Certificate :=
  Certifications.mkCertificate None calculus_completed_row "" "" may_first
    true None (Some registrar).

(** Payment records for bulk validation: one without [enrollment_id], one
    without [amount], and a complete one. *)
Definition record_without_enrollment : PaymentUtils.payment_data :=
  <["amount" := PaymentUtils.PyMoney 5000]>
    (<["payment_method" := PaymentUtils.PyText "CASH"]> ∅).

Definition record_without_amount : PaymentUtils.payment_data :=
  <["enrollment_id" := PaymentUtils.PyInt 1]>
    (<["payment_method" := PaymentUtils.PyText "CASH"]> ∅).

Definition complete_record : PaymentUtils.payment_data :=
  <["enrollment_id" := PaymentUtils.PyInt 1]>
    (<["amount" := PaymentUtils.PyMoney 5000]>
       (<["payment_method" := PaymentUtils.PyText "CASH"]> ∅)).

(** The price 100.00 as the [Decimal] of a price column. *)
Definition hundred : Decimal.t := Decimal.of_cents 10000.

End Samples.

(* ===================================================================== *)
(** * Properties *)
(* ===================================================================== *)

Module PyFacts.

Example format_d_month : Py.format_d 2 3 = "03".
Proof. reflexivity. Qed.

Example format_d_wide : Py.format_d 5 123456 = "123456".
Proof. reflexivity. Qed.

Example str_int_year : Py.str_int 2025 = "2025".
Proof. reflexivity. Qed.

Example format_d_sequence : Py.format_d 5 1 = "00001".
Proof. reflexivity. Qed.

Example format_d_december : Py.format_d 2 12 = "12".
Proof. reflexivity. Qed.

Example digits_zero : Py.digits 0 = "0".
Proof. reflexivity. Qed.

Example digits_power : String.length (Py.digits (10 ^ 28)) = 29%nat.
Proof. reflexivity. Qed.

Example date_order :
  Py.date_ltb (Py.Date 2025 2 28) (Py.Date 2025 3 1) = true
  /\ Py.date_ltb (Py.Date 2025 3 1) (Py.Date 2025 3 1) = false
  /\ Py.date_ltb (Py.Date 2025 12 31) (Py.Date 2025 3 1) = false.
Proof. repeat split; reflexivity. Qed.

(** The quotients and the rounded total of the decimal context, as Python
    prints them: [Decimal('100.00') / 3], [Decimal('100.00') / 8] and
    [sum([Decimal('100.00') / 3] * 3)]. *)
Example decimal_third :
  Decimal.div (Decimal.of_cents 10000) (Decimal.of_int 3)
  = Decimal.mk 3333333333333333333333333333 (-26).
Proof. vm_compute. reflexivity. Qed.

Example decimal_eighth :
  Decimal.div (Decimal.of_cents 10000) (Decimal.of_int 8)
  = Decimal.mk 1250 (-2).
Proof. vm_compute. reflexivity. Qed.

Example decimal_sum_of_thirds :
  Decimal.sum (repeat (Decimal.mk 3333333333333333333333333333 (-26)) 3)
  = Decimal.mk 9999999999999999999999999999 (-26).
Proof. vm_compute. reflexivity. Qed.

End PyFacts.

(** ** accounts *)

Module AccountsFacts.

Lemma base_save_row (u : Accounts.User) (t : Accounts.table) :
  exists k,
    fst (Accounts.base_save u t) = Accounts.with_pk k u
    /\ snd (Accounts.base_save u t) !! k = Some (Accounts.with_pk k u).
Proof.
  unfold Accounts.base_save.
  exists (match Accounts.pk u with Some k => k | None => Accounts.next_pk t end).
  simpl. split; [reflexivity | apply lookup_insert_eq].
Qed.

(** The instance that was saved keeps the flag it had. *)
Lemma save_leaves_instance_flag (u : Accounts.User) (t : Accounts.table) :
  Accounts.is_staff (fst (Accounts.save u t)) = Accounts.is_staff u.
Proof. reflexivity. Qed.

(** What [set_staff_status] leaves in the row of the instance it is called
    for, when that row holds the instance's columns. *)
Lemma set_staff_status_row (instance : Accounts.User) (t : Accounts.table)
    (k : Z) :
  Accounts.pk instance = Some k ->
  t !! k = Some instance ->
  exists row,
    Accounts.set_staff_status instance t !! k = Some row
    /\ Accounts.role row = Accounts.role instance
    /\ Accounts.is_staff row = Accounts.is_staff_member instance.
Proof.
  intros Hk Hrow.
  unfold Accounts.set_staff_status, Accounts.is_staff_member.
  set (should := bool_decide (Accounts.role instance ∈ Accounts.staff_roles)).
  destruct (Bool.eqb (Accounts.is_staff instance) should) eqn:Hflag; simpl.
  - apply Bool.eqb_prop in Hflag. exists instance. auto.
  - exists (Accounts.with_is_staff should instance).
    rewrite Hk. simpl. rewrite lookup_alter_eq, Hrow. simpl. auto.
Qed.

(** Rows of other users are left as they were. *)
Lemma save_other_rows (u : Accounts.User) (t : Accounts.table) (j : Z) :
  Accounts.pk (fst (Accounts.save u t)) <> Some j ->
  snd (Accounts.save u t) !! j = t !! j.
Proof.
  unfold Accounts.save, Accounts.base_save. simpl. intros Hj.
  apply lookup_insert_ne. congruence.
Qed.

End AccountsFacts.

Module AccountsClaims.

(** C7 on the code.  [User.save] writes [is_staff] as the instance carries
    it, and the signal it sends reaches no receiver: for every user and
    table the stored row has the instance's flag, whatever the role.  A new
    user with the role ADMIN and the column's default [is_staff = False] is
    stored, in any table, with [is_staff] false, though ADMIN is a staff
    role.  The
    function [set_staff_status] does derive the flag from the role: were it
    among the receivers, the stored row would carry the flag of the role. *)
Theorem save_stores_staff_flag_as_given :
  (forall (u : Accounts.User) (t : Accounts.table),
     exists k row,
       Accounts.pk (fst (Accounts.save u t)) = Some k
       /\ snd (Accounts.save u t) !! k = Some row
       /\ Accounts.role row = Accounts.role u
       /\ Accounts.is_staff row = Accounts.is_staff u)
  /\ (forall t : Accounts.table,
        exists k row,
          Accounts.pk (fst (Accounts.save Samples.new_admin t)) = Some k
          /\ snd (Accounts.save Samples.new_admin t) !! k = Some row
          /\ Accounts.role row = "ADMIN"
          /\ Accounts.is_staff_member row = true
          /\ Accounts.is_staff row = false)
  /\ (forall (u : Accounts.User) (t : Accounts.table),
        exists k row,
          Accounts.pk (fst (Accounts.base_save u t)) = Some k
          /\ Accounts.send [Accounts.set_staff_status]
               (fst (Accounts.base_save u t)) (snd (Accounts.base_save u t))
             !! k = Some row
          /\ Accounts.role row = Accounts.role u
          /\ Accounts.is_staff row = Accounts.is_staff_member u).
Proof.
  split; [|split].
  - intros u t. destruct (AccountsFacts.base_save_row u t) as (k & Hu & Hrow).
    unfold Accounts.save.
    destruct (Accounts.base_save u t) as [u' t1]. cbn [fst snd] in *.
    subst u'. exists k, (Accounts.with_pk k u). auto.
  - intros t.
    destruct (AccountsFacts.base_save_row Samples.new_admin t)
      as (k & Hu & Hrow).
    unfold Accounts.save.
    destruct (Accounts.base_save Samples.new_admin t) as [u' t1].
    cbn [fst snd] in *. subst u'.
    exists k, (Accounts.with_pk k Samples.new_admin). repeat split; auto.
  - intros u t. destruct (AccountsFacts.base_save_row u t) as (k & Hu & Hrow).
    destruct (Accounts.base_save u t) as [u' t1]. cbn [fst snd] in *.
    subst u'.
    destruct (AccountsFacts.set_staff_status_row (Accounts.with_pk k u) t1 k
                eq_refl Hrow) as (row & Hlook & Hrole & Hflag).
    exists k, row. auto.
Qed.

End AccountsClaims.


(** ** courses *)

Module CoursesFacts.

Lemma prefix_append (s post : string) : String.prefix s (s +:+ post) = true.
Proof.
  induction s as [|a s IH]; simpl.
  - destruct post; reflexivity.
  - destruct (ascii_dec a a); [exact IH | contradiction].
Qed.

Lemma contains_prefix (s h : string) :
  String.prefix s h = true -> Py.contains s h = true.
Proof. intros H. destruct h; cbn [Py.contains]; rewrite H; reflexivity. Qed.

Lemma contains_append (pre s post : string) :
  Py.contains s (pre +:+ (s +:+ post)) = true.
Proof.
  induction pre as [|a pre IH].
  - apply contains_prefix. exact (prefix_append s post).
  - change (Py.contains s (String a (pre +:+ (s +:+ post))) = true).
    cbn [Py.contains]. rewrite IH. apply orb_true_r.
Qed.

(** The loop stops at the first submitted course that is the course itself
    or lists the course among its prerequisites. *)
Lemma check_each_first (circular : Courses.Course -> Courses.Course -> string)
    (m : Courses.prerequisites) (c : Courses.Course) (value : list Courses.Course) :
  Courses.check_each circular m c value
  = match find (Courses.offending m c) value with
    | None => Py.Return tt
    | Some p => Py.Raise (Courses.rejection circular c p)
    end.
Proof.
  induction value as [|p rest IH]; simpl; [reflexivity|].
  unfold Courses.offending at 1, Courses.rejection.
  destruct (Courses.id p =? Courses.id c) eqn:Hid; simpl;
    [rewrite Hid; reflexivity|].
  destruct (Courses.is_prerequisite_for m c p); simpl; [|exact IH].
  rewrite Hid. reflexivity.
Qed.

Lemma validate_with_first (circular : Courses.Course -> Courses.Course -> string)
    (m : Courses.prerequisites) (c : Courses.Course) (value : list Courses.Course) :
  Courses.validate_with circular m (Some c) value
  = match find (Courses.offending m c) value with
    | None => Py.Return value
    | Some p => Py.Raise (Courses.rejection circular c p)
    end.
Proof.
  unfold Courses.validate_with. rewrite check_each_first.
  destruct (find _ value); reflexivity.
Qed.

Lemma raises_at_first {A : Type} (f : Courses.Course -> bool)
    (err : Courses.Course -> Py.exn) (ok : A) (value : list Courses.Course) :
  Py.raises (match find f value with
             | Some p => Py.Raise (err p)
             | None => Py.Return ok
             end)
  = existsb f value.
Proof.
  induction value as [|p rest IH]; simpl; [reflexivity|].
  destruct (f p); simpl; [reflexivity | exact IH].
Qed.

End CoursesFacts.

Module CoursesClaims.

(** C8, as stated, fails: the error for a course submitted as its own
    prerequisite is a fixed sentence that names no course.  Here the course
    "Algebra" is submitted as a prerequisite of itself to the two
    serializers. *)
Lemma own_prerequisite_error_names_no_course :
  (exists e,
     Courses.CourseSerializer_validate_prerequisites []
       (Some Samples.algebra) [Samples.algebra] = Py.Raise e
     /\ Courses.names_course Samples.algebra e = false)
  /\ (exists e,
        Courses.CourseCreateUpdateSerializer_validate_prerequisites []
          (Some Samples.algebra) [Samples.algebra] = Py.Raise e
        /\ Courses.names_course Samples.algebra e = false).
Proof. split; eexists; split; reflexivity. Qed.

(** C8, amended.  While a course is created ([self.instance] is [None])
    both validators accept every submitted list.  On update they raise a
    validation error exactly when the list holds the course itself or a
    course that already lists this course among its prerequisites, the error
    being that of the first such entry: the fixed sentence
    "A course cannot be its own prerequisite." for the course itself, and a
    message holding the prerequisite's title for a circular entry.  A list
    free of both is returned as it was submitted. *)
Theorem validate_prerequisites_outcome
    (m : Courses.prerequisites) (value : list Courses.Course) :
  (Courses.CourseSerializer_validate_prerequisites m None value
     = Py.Return value
   /\ Courses.CourseCreateUpdateSerializer_validate_prerequisites m None value
     = Py.Return value)
  /\ (forall c : Courses.Course,
        Courses.CourseSerializer_validate_prerequisites m (Some c) value
        = match find (Courses.offending m c) value with
          | None => Py.Return value
          | Some p =>
              Py.Raise (Py.ValidationError None
                (if Courses.id p =? Courses.id c
                 then "A course cannot be its own prerequisite."
                 else Courses.circular_message_full p c))
          end
        /\ Courses.CourseCreateUpdateSerializer_validate_prerequisites m (Some c) value
        = match find (Courses.offending m c) value with
          | None => Py.Return value
          | Some p =>
              Py.Raise (Py.ValidationError None
                (if Courses.id p =? Courses.id c
                 then "A course cannot be its own prerequisite."
                 else Courses.circular_message_short p c))
          end
        /\ Py.raises (Courses.CourseSerializer_validate_prerequisites m (Some c) value)
           = existsb (Courses.offending m c) value
        /\ Py.raises (Courses.CourseCreateUpdateSerializer_validate_prerequisites m (Some c) value)
           = existsb (Courses.offending m c) value)
  /\ (forall p c : Courses.Course,
        Courses.names_course p
          (Py.ValidationError None (Courses.circular_message_full p c)) = true
        /\ Courses.names_course p
          (Py.ValidationError None (Courses.circular_message_short p c)) = true).
Proof.
  split; [split; reflexivity|]. split.
  - intros c.
    unfold Courses.CourseSerializer_validate_prerequisites,
      Courses.CourseCreateUpdateSerializer_validate_prerequisites.
    rewrite !CoursesFacts.validate_with_first.
    repeat split; try reflexivity; apply CoursesFacts.raises_at_first.
  - intros p c. unfold Courses.names_course. split.
    + unfold Courses.circular_message_full.
      apply (CoursesFacts.contains_append "Circular dependency: '").
    + unfold Courses.circular_message_short.
      apply (CoursesFacts.contains_append "Circular dependency detected with '").
Qed.

End CoursesClaims.

(** ** enrollments *)

Module EnrollmentsFacts.

Lemma write_stores (self : Enrollments.Enrollment) (t : Enrollments.table) :
  In (fst (Enrollments.write self t)) (snd (Enrollments.write self t)).
Proof.
  unfold Enrollments.write.
  destruct (Enrollments.pk self) as [k|] eqn:Hpk.
  - destruct (existsb (Enrollments.has_pk k) t) eqn:Hex; simpl.
    + apply existsb_exists in Hex as (r & Hin & Hr).
      apply in_map_iff. exists r. rewrite Hr. auto.
    + apply in_or_app. right. left. reflexivity.
  - simpl. apply in_or_app. right. left. reflexivity.
Qed.

Lemma write_keeps_saved_instance (self : Enrollments.Enrollment)
    (t : Enrollments.table) :
  is_Some (Enrollments.pk self) -> fst (Enrollments.write self t) = self.
Proof.
  intros [k Hk]. unfold Enrollments.write. rewrite Hk.
  destruct (existsb _ t); reflexivity.
Qed.

(** A new enrollment whose pair is held by any stored row is never written:
    [clean] raises, or else the storage constraint does. *)
Lemma save_taken_pair (self r : Enrollments.Enrollment) (t : Enrollments.table) :
  Enrollments.pk self = None ->
  In r t -> is_Some (Enrollments.pk r) -> Enrollments.same_pair r self = true ->
  Py.raises (fst (Enrollments.save self t)) = true
  /\ snd (Enrollments.save self t) = t.
Proof.
  intros Hnew Hin [k Hk] Hpair. unfold Enrollments.save.
  destruct (Enrollments.clean self t); [|split; reflexivity].
  unfold Enrollments.base_save.
  assert (Hv : Enrollments.violates_unique_together self t = true).
  { apply existsb_exists. exists r. split; [exact Hin|].
    rewrite Hpair, Hk, Hnew. reflexivity. }
  rewrite Hv. split; reflexivity.
Qed.

(** With a stored row of the pair that is not cancelled, the refusal is a
    validation error. *)
Lemma save_active_pair (self r : Enrollments.Enrollment) (t : Enrollments.table) :
  Enrollments.pk self = None ->
  In r t -> Enrollments.same_pair r self = true ->
  Enrollments.status r <> "CANCELLED" ->
  Py.is_validation_error (fst (Enrollments.save self t)) = true
  /\ snd (Enrollments.save self t) = t.
Proof.
  intros Hnew Hin Hpair Hstatus. unfold Enrollments.save, Enrollments.clean.
  destruct (negb (String.eqb (Accounts.role (Enrollments.student self)) "STUDENT"));
    [split; reflexivity|].
  assert (Hdup : existsb (fun r0 => Enrollments.same_pair r0 self
                    && negb (String.eqb (Enrollments.status r0) "CANCELLED")) t = true).
  { apply existsb_exists. exists r. split; [exact Hin|].
    rewrite Hpair. simpl. apply negb_true_iff, String.eqb_neq, Hstatus. }
  rewrite Hnew, Hdup. split; reflexivity.
Qed.

(** A [save] that raises leaves the table as it was. *)
Lemma save_raise_keeps_table (self : Enrollments.Enrollment)
    (t : Enrollments.table) :
  Py.raises (fst (Enrollments.save self t)) = true ->
  snd (Enrollments.save self t) = t.
Proof.
  unfold Enrollments.save, Enrollments.base_save.
  destruct (Enrollments.clean self t); [|reflexivity].
  destruct (Enrollments.violates_unique_together self t); [reflexivity|].
  destruct (Enrollments.write self t). discriminate.
Qed.

(** In a table whose rows have keys, a new enrollment that no stored row
    shares its pair with has no active duplicate either. *)
Lemma no_other_pair_no_duplicate (self : Enrollments.Enrollment)
    (t : Enrollments.table) :
  Forall (fun r => is_Some (Enrollments.pk r)) t ->
  Enrollments.pk self = None ->
  Enrollments.violates_unique_together self t = false ->
  existsb (fun r => Enrollments.same_pair r self
                    && negb (String.eqb (Enrollments.status r) "CANCELLED")) t
  = false.
Proof.
  intros Hkeys Hnew Hv. unfold Enrollments.violates_unique_together in Hv.
  induction t as [|r t IH]; [reflexivity|].
  cbn [existsb] in *. apply orb_false_iff in Hv as [Hr Hv].
  inversion Hkeys as [|? ? [k Hk] Hrest]; subst.
  rewrite (IH Hrest Hv), orb_false_r.
  rewrite Hk, Hnew in Hr.
  rewrite (bool_decide_eq_false_2 (Some k = None)) in Hr by discriminate.
  cbn [negb] in Hr. rewrite andb_true_r in Hr. rewrite Hr. reflexivity.
Qed.

End EnrollmentsFacts.

Module EnrollmentsClaims.

(** C3 at a concrete table.  [amal] enrolls in "Algebra" and the enrollment
    is cancelled.  A new enrollment for the same pair passes [clean], whose
    duplicate check leaves cancelled rows out, and is then refused by the
    storage constraint [unique_together], which does not: [save] raises
    [IntegrityError] and the table is as before. *)
Theorem reenrollment_after_cancellation_refused :
  Enrollments.save Samples.first_enrollment []
  = (Py.Return Samples.first_row, [Samples.first_row])
  /\ Enrollments.mark_cancelled Samples.first_row [Samples.first_row]
     = (Py.Return Samples.cancelled_row, [Samples.cancelled_row])
  /\ Enrollments.clean Samples.reenrollment [Samples.cancelled_row]
     = Py.Return tt
  /\ Enrollments.save Samples.reenrollment [Samples.cancelled_row]
     = (Py.Raise (Py.IntegrityError "unique_together (student, course)"),
        [Samples.cancelled_row]).
Proof. repeat split; reflexivity. Qed.

(** C4, as stated, fails: an enrollment entered with the enrollment date
    1 June 2025 is stored and in progress, and on 1 May 2025 it is not
    completed; the [clean] that [save] runs within [mark_completed] raises
    and nothing is stored. *)
Lemma mark_completed_refused_before_start :
  Enrollments.save Samples.upcoming_enrollment []
  = (Py.Return Samples.upcoming_row, [Samples.upcoming_row])
  /\ Enrollments.status Samples.upcoming_row = "IN_PROGRESS"
  /\ Enrollments.mark_completed Samples.upcoming_row (Some Samples.registrar)
       Samples.may_first [Samples.upcoming_row]
     = (Py.Raise (Py.ValidationError (Some "completion_date")
          "Completion date cannot be before enrollment date."),
        [Samples.upcoming_row]).
Proof. repeat split; reflexivity. Qed.

(** C4, amended.  In a table whose rows have keys, for every enrollment:
    [mark_completed] raises "Enrollment is already completed." on a
    COMPLETED enrollment and "Cannot complete a cancelled enrollment." on a
    CANCELLED one, the table unchanged.  On an IN_PROGRESS enrollment it
    sets the status, the completion date and the verifier and saves.  The
    save succeeds when the enrollment passes the validation that [save]
    runs (the student's role is STUDENT, today is not before the enrollment
    date, no other stored row holds the pair): the returned enrollment is
    stored, under its own key or the next key of the table if it had none,
    with status COMPLETED, completion date today, the verifier when one is
    supplied and the previous one otherwise, and its other fields as they
    were.  Otherwise the save raises and nothing is stored. *)
Theorem mark_completed_outcome (self : Enrollments.Enrollment)
    (verifier : option Accounts.User) (today : Py.date)
    (t : Enrollments.table) :
  Forall (fun r => is_Some (Enrollments.pk r)) t ->
  (Enrollments.status self = "COMPLETED" ->
     Enrollments.mark_completed self verifier today t
     = (Py.Raise (Py.ValidationError None "Enrollment is already completed."), t))
  /\ (Enrollments.status self = "CANCELLED" ->
     Enrollments.mark_completed self verifier today t
     = (Py.Raise (Py.ValidationError None
          "Cannot complete a cancelled enrollment."), t))
  /\ (Enrollments.status self = "IN_PROGRESS" ->
      (Accounts.role (Enrollments.student self) = "STUDENT" ->
       Py.date_ltb today (Enrollments.enrollment_date self) = false ->
       Enrollments.violates_unique_together self t = false ->
       exists (done : Enrollments.Enrollment) (t' : Enrollments.table),
         Enrollments.mark_completed self verifier today t = (Py.Return done, t')
         /\ In done t'
         /\ Enrollments.pk done
            = Some (match Enrollments.pk self with
                    | Some k => k
                    | None => Enrollments.next_pk t
                    end)
         /\ Enrollments.status done = "COMPLETED"
         /\ Enrollments.completion_date done = Some today
         /\ Enrollments.verified_by done
            = match verifier with
              | Some v => Some v
              | None => Enrollments.verified_by self
              end
         /\ Enrollments.student done = Enrollments.student self
         /\ Enrollments.course done = Enrollments.course self
         /\ Enrollments.enrollment_date done = Enrollments.enrollment_date self
         /\ Enrollments.notes done = Enrollments.notes self)
      /\ (Accounts.role (Enrollments.student self) <> "STUDENT"
          \/ Py.date_ltb today (Enrollments.enrollment_date self) = true
          \/ Enrollments.violates_unique_together self t = true ->
          Py.raises (fst (Enrollments.mark_completed self verifier today t))
            = true
          /\ snd (Enrollments.mark_completed self verifier today t) = t)).
Proof.
  intros Hkeys. unfold Enrollments.mark_completed. split; [|split].
  - intros ->. reflexivity.
  - intros ->. reflexivity.
  - intros Hst. rewrite Hst. cbn [String.eqb Ascii.eqb Bool.eqb].
    set (done := Enrollments.completed_by verifier today self).
    change (Enrollments.violates_unique_together self t)
      with (Enrollments.violates_unique_together done t).
    split.
    + intros Hrole Hdate Huniq.
      assert (Hclean : Enrollments.clean done t = Py.Return tt).
      { unfold Enrollments.clean.
        cbn [done Enrollments.completed_by Enrollments.student
             Enrollments.pk Enrollments.status Enrollments.completion_date
             Enrollments.enrollment_date].
        rewrite Hrole. cbn [String.eqb Ascii.eqb Bool.eqb negb].
        destruct (Enrollments.pk self) as [k|] eqn:Hpk.
        - rewrite (bool_decide_eq_true_2 (is_Some (Some k))) by eauto.
          rewrite (bool_decide_eq_true_2 (is_Some (Some today))) by eauto.
          cbn [negb andb]. rewrite Hdate. reflexivity.
        - rewrite (EnrollmentsFacts.no_other_pair_no_duplicate done t Hkeys
                     Hpk Huniq).
          rewrite andb_false_r.
          rewrite (bool_decide_eq_true_2 (is_Some (Some today))) by eauto.
          cbn [negb andb]. rewrite Hdate. reflexivity. }
      unfold Enrollments.save. rewrite Hclean. unfold Enrollments.base_save.
      rewrite Huniq.
      pose proof (EnrollmentsFacts.write_stores done t) as Hin.
      unfold Enrollments.write in *.
      change (Enrollments.pk done) with (Enrollments.pk self) in *.
      destruct (Enrollments.pk self) as [k|] eqn:Hpk.
      * destruct (existsb (Enrollments.has_pk k) t); cbn [fst snd] in Hin;
          eexists _, _; (split; [reflexivity|]); repeat split; auto.
      * cbn [fst snd] in Hin. eexists _, _. split; [reflexivity|].
        repeat split; auto.
    + intros Hfail.
      assert (Hraise : Py.raises (fst (Enrollments.save done t)) = true).
      { unfold Enrollments.save.
        destruct (Enrollments.clean done t) as [[]|e] eqn:Hclean;
          [|reflexivity].
        unfold Enrollments.base_save.
        destruct (Enrollments.violates_unique_together done t) eqn:Huniq;
          [reflexivity|].
        exfalso. unfold Enrollments.clean in Hclean.
        cbn [done Enrollments.completed_by Enrollments.student
             Enrollments.pk Enrollments.status Enrollments.completion_date
             Enrollments.enrollment_date] in Hclean.
        destruct (String.eqb (Accounts.role (Enrollments.student self))
                    "STUDENT") eqn:Hrole; [|discriminate].
        apply String.eqb_eq in Hrole. cbn [negb] in Hclean.
        destruct (negb (bool_decide (is_Some (Enrollments.pk self))) && _);
          [discriminate|].
        rewrite (bool_decide_eq_true_2 (is_Some (Some today))) in Hclean
          by eauto.
        cbn [String.eqb Ascii.eqb Bool.eqb negb andb] in Hclean.
        destruct (Py.date_ltb today (Enrollments.enrollment_date self))
          eqn:Hdate; [discriminate|].
        destruct Hfail as [Hf|[Hf|Hf]]; [contradiction|discriminate..]. }
      split; [exact Hraise|].
      apply EnrollmentsFacts.save_raise_keeps_table, Hraise.
Qed.

(** The amended C4 at work: the enrollment of [amal], in progress since
    1 February 2025, completed on 1 May 2025 by the registrar. *)
Lemma mark_completed_outcome_witness :
  exists (done : Enrollments.Enrollment) (t' : Enrollments.table),
    Enrollments.mark_completed Samples.running_row (Some Samples.registrar)
      Samples.may_first [Samples.running_row] = (Py.Return done, t')
    /\ In done t'
    /\ Enrollments.pk done = Some 1
    /\ Enrollments.status done = "COMPLETED"
    /\ Enrollments.completion_date done = Some Samples.may_first
    /\ Enrollments.verified_by done = Some Samples.registrar.
Proof.
  assert (Hkeys : Forall (fun r => is_Some (Enrollments.pk r))
                    [Samples.running_row])
    by (repeat constructor; simpl; eauto).
  destruct (proj1 (proj2 (proj2 (mark_completed_outcome Samples.running_row
                                   (Some Samples.registrar) Samples.may_first
                                   [Samples.running_row] Hkeys)) eq_refl)
              eq_refl eq_refl eq_refl)
    as (done & t' & Hrun & Hin & Hpk & Hst & Hdate & Hby & _).
  exists done, t'.
  exact (conj Hrun (conj Hin (conj Hpk (conj Hst (conj Hdate Hby))))).
Defined.

End EnrollmentsClaims.

(** ** certifications *)

Module CertificationsFacts.

(** [numbered] touches the number and the code only. *)
Lemma numbered_enrollment (now : Py.date) (uuid : string)
    (self : Certifications.Certificate) (t : Certifications.table) :
  Certifications.enrollment (Certifications.numbered now uuid self t)
  = Certifications.enrollment self.
Proof. reflexivity. Qed.

Lemma clean_needs_completion (self : Certifications.Certificate)
    (t : Certifications.table) :
  Enrollments.status (Certifications.enrollment self) <> "COMPLETED"
  \/ Enrollments.completion_date (Certifications.enrollment self) = None ->
  exists message,
    Certifications.clean self t
    = Py.Raise (Py.ValidationError (Some "enrollment") message).
Proof.
  intros H. unfold Certifications.clean.
  destruct (String.eqb (Enrollments.status (Certifications.enrollment self))
              "COMPLETED") eqn:Hst; simpl.
  - apply String.eqb_eq in Hst. destruct H as [H|H]; [contradiction|].
    rewrite H. eauto.
  - eauto.
Qed.

Lemma filter_none (code : string) (t : Certifications.table) :
  (forall c, In c t -> Certifications.matches code c = false) ->
  List.filter (Certifications.matches code) t = [].
Proof.
  induction t as [|c rest IH]; intros H; simpl; [reflexivity|].
  rewrite (H c (or_introl eq_refl)). apply IH.
  intros c' Hc'. apply H. right. exact Hc'.
Qed.

(** Verification codes are unique in the table, so at most one row matches
    a code. *)
Lemma filter_one (code : string) (t : Certifications.table)
    (c : Certifications.Certificate) :
  List.NoDup (map Certifications.verification_code t) ->
  In c t -> Certifications.matches code c = true ->
  List.filter (Certifications.matches code) t = [c].
Proof.
  induction t as [|x rest IH]; intros Hnd Hin Hm; [destruct Hin|].
  simpl in Hnd. apply NoDup_cons_iff in Hnd as [Hx Hnd].
  assert (Hcode : Certifications.verification_code c = code).
  { unfold Certifications.matches in Hm.
    apply andb_true_iff in Hm as [Hm _]. apply String.eqb_eq, Hm. }
  simpl. destruct Hin as [->|Hin].
  - rewrite Hm. f_equal. apply filter_none. intros c' Hc'.
    unfold Certifications.matches.
    destruct (String.eqb (Certifications.verification_code c') code) eqn:E;
      [|reflexivity].
    apply String.eqb_eq in E. exfalso. apply Hx.
    rewrite Hcode, <- E. apply in_map, Hc'.
  - destruct (Certifications.matches code x) eqn:Hmx.
    + exfalso. apply Hx.
      unfold Certifications.matches in Hmx.
      apply andb_true_iff in Hmx as [Hmx _]. apply String.eqb_eq in Hmx.
      rewrite Hmx, <- Hcode. apply in_map, Hin.
    + apply IH; assumption.
Qed.

End CertificationsFacts.

Module CertificationsClaims.

(** C5.  Saving a certificate whose enrollment is not COMPLETED, or has no
    completion date, raises a validation error on the [enrollment] field
    and leaves the certificate table as it was. *)
Theorem save_requires_completed_enrollment
    (self : Certifications.Certificate) (now : Py.date) (uuid : string)
    (pdf : option string) (t : Certifications.table) :
  Enrollments.status (Certifications.enrollment self) <> "COMPLETED"
  \/ Enrollments.completion_date (Certifications.enrollment self) = None ->
  exists message,
    Certifications.save self now uuid pdf t
    = (Py.Raise (Py.ValidationError (Some "enrollment") message), t).
Proof.
  intros H. unfold Certifications.save.
  set (self1 := if negb (bool_decide (is_Some (Certifications.pk self)))
                then Certifications.numbered now uuid self t else self).
  assert (He : Certifications.enrollment self1 = Certifications.enrollment self).
  { unfold self1. destruct (negb _); reflexivity. }
  destruct (CertificationsFacts.clean_needs_completion self1 t) as [message Hc].
  { rewrite He. exact H. }
  rewrite Hc. exists message. reflexivity.
Qed.

(** C5 on an enrollment IN_PROGRESS: issuing raises, nothing is stored. *)
Lemma save_requires_completed_enrollment_witness :
  exists message,
    Certifications.save Samples.premature_certificate Samples.may_first
      "3f2b8c1e-0000-4000-8000-000000000003" (Some "certificates/2025/05/c.pdf")
      Samples.certificates
    = (Py.Raise (Py.ValidationError (Some "enrollment") message),
       Samples.certificates).
Proof.
  apply save_requires_completed_enrollment.
  left. simpl. discriminate.
Defined.

(** C6.  With verification codes unique in the table (the column is
    [unique=True]), [verify_certificate] returns a certificate exactly when
    that certificate is stored, carries the code and is public; it returns
    [None] when no stored certificate carries the code, and the same [None]
    when the certificate carrying it is not public. *)
Theorem verify_certificate_public_only (code : string)
    (t : Certifications.table) :
  List.NoDup (map Certifications.verification_code t) ->
  (forall c,
     Certifications.verify_certificate code t = Py.Return (Some c)
     <-> In c t /\ Certifications.verification_code c = code
         /\ Certifications.is_public c = true)
  /\ ((forall c, In c t -> Certifications.verification_code c <> code) ->
      Certifications.verify_certificate code t = Py.Return None)
  /\ (forall c, In c t -> Certifications.verification_code c = code ->
      Certifications.is_public c = false ->
      Certifications.verify_certificate code t = Py.Return None).
Proof.
  intros Hnd. unfold Certifications.verify_certificate.
  split; [intros c; split | split].
  - destruct (List.filter (Certifications.matches code) t) as [|x [|y rest]] eqn:Hf;
      intros Hret; try discriminate.
    injection Hret as ->.
    assert (Hin : In c (List.filter (Certifications.matches code) t))
      by (rewrite Hf; left; reflexivity).
    apply filter_In in Hin as [Hin Hm]. unfold Certifications.matches in Hm.
    apply andb_true_iff in Hm as [Hcode Hpub]. apply String.eqb_eq in Hcode.
    auto.
  - intros (Hin & Hcode & Hpub).
    rewrite (CertificationsFacts.filter_one code t c Hnd Hin); [reflexivity|].
    unfold Certifications.matches. rewrite Hpub, Hcode, String.eqb_refl.
    reflexivity.
  - intros Hnone. rewrite CertificationsFacts.filter_none; [reflexivity|].
    intros c Hin. unfold Certifications.matches.
    destruct (String.eqb (Certifications.verification_code c) code) eqn:E;
      [|reflexivity].
    apply String.eqb_eq in E. exfalso. exact (Hnone c Hin E).
  - intros c Hin Hcode Hpriv. rewrite CertificationsFacts.filter_none; [reflexivity|].
    intros c' Hin'. unfold Certifications.matches.
    destruct (String.eqb (Certifications.verification_code c') code) eqn:E;
      [|reflexivity].
    apply String.eqb_eq in E. simpl.
    assert (c' = c) as ->; [|exact Hpriv].
    clear -Hnd Hin Hin' Hcode E.
    induction t as [|x rest IH]; [destruct Hin|].
    simpl in Hnd. apply NoDup_cons_iff in Hnd as [Hx Hnd].
    destruct Hin as [->|Hin], Hin' as [->|Hin']; auto.
    + exfalso. apply Hx. rewrite Hcode, <- E. apply in_map, Hin'.
    + exfalso. apply Hx. rewrite E, <- Hcode. apply in_map, Hin.
Qed.

(** C6 on a table with one public and one non-public certificate: the
    public code yields its certificate; the non-public code and a code no
    certificate carries both yield [None]. *)
Lemma verify_certificate_public_only_witness :
  Certifications.verify_certificate "3f2b8c1e-0000-4000-8000-000000000001"
    Samples.certificates = Py.Return (Some Samples.public_certificate)
  /\ Certifications.verify_certificate "3f2b8c1e-0000-4000-8000-000000000002"
       Samples.certificates = Py.Return None
  /\ Certifications.verify_certificate "no-such-code"
       Samples.certificates = Py.Return None.
Proof.
  assert (Hnd : List.NoDup (map Certifications.verification_code Samples.certificates)).
  { simpl. repeat constructor; simpl; intuition discriminate. }
  split; [|split].
  - apply (proj1 (verify_certificate_public_only _ _ Hnd)).
    repeat split. left. reflexivity.
  - apply (proj2 (proj2 (verify_certificate_public_only _ _ Hnd))
             Samples.private_certificate).
    + right. left. reflexivity.
    + reflexivity.
    + reflexivity.
  - apply (proj1 (proj2 (verify_certificate_public_only _ _ Hnd))).
    intros c [<-|[<-|[]]]; simpl; discriminate.
Defined.

End CertificationsClaims.

(** ** payments *)

Module PaymentsFacts.

Lemma total_app (a b : list Payments.Payment) :
  Payments.total (a ++ b) = Payments.total a + Payments.total b.
Proof.
  unfold Payments.total. induction a as [|x a IH]; simpl; [reflexivity|].
  rewrite IH. lia.
Qed.

Lemma filter_filter_comm {A : Type} (f g : A -> bool) (l : list A) :
  List.filter f (List.filter g l) = List.filter g (List.filter f l).
Proof.
  induction l as [|x l IH]; simpl; [reflexivity|].
  destruct (f x) eqn:Hf, (g x) eqn:Hg; simpl; rewrite ?Hf, ?Hg, IH; reflexivity.
Qed.

Lemma filter_all {A : Type} (f : A -> bool) (l : list A) :
  (forall x, In x l -> f x = true) -> List.filter f l = l.
Proof.
  induction l as [|x l IH]; intros H; simpl; [reflexivity|].
  rewrite (H x (or_introl eq_refl)), IH; [reflexivity|].
  intros y Hy. apply H. right. exact Hy.
Qed.

(** The key an instance resolves its enrollment by. *)
Lemma related_enrollment_key (self : Payments.Payment) (st : Payments.state)
    (e : Enrollments.Enrollment) :
  Payments.related_enrollment self st = Py.Return e ->
  exists k, Payments.enrollment_id self = Some k
            /\ Enrollments.pk e = Some k
            /\ find (Enrollments.has_pk k) (Payments.enrollments st) = Some e.
Proof.
  unfold Payments.related_enrollment.
  destruct (Payments.enrollment_id self) as [k|]; [|discriminate].
  destruct (find _ _) as [e'|] eqn:Hfind; [|discriminate].
  intros [= ->]. exists k. repeat split; auto.
  apply find_some in Hfind as [_ Hk]. unfold Enrollments.has_pk in Hk.
  apply bool_decide_eq_true_1 in Hk. exact Hk.
Qed.

(** Keys handed out by [next_pk] are above every stored key. *)
Lemma next_pk_above (rows : list Payments.Payment) (p : Payments.Payment) (k : Z) :
  In p rows -> Payments.pk p = Some k -> k < Payments.next_pk rows.
Proof.
  unfold Payments.next_pk. induction rows as [|x rows IH]; intros Hin Hk;
    [destruct Hin|].
  destruct Hin as [->|Hin].
  - simpl. rewrite Hk. simpl.
    match goal with |- context [Z.max k ?m] => pose proof (Z.le_max_l k m) end.
    lia.
  - specialize (IH Hin Hk). simpl.
    destruct (Payments.pk x) as [j|]; simpl; [|exact IH].
    match goal with |- context [Z.max j ?m] => pose proof (Z.le_max_r j m) end.
    unfold omap in IH. lia.
Qed.

Lemma next_pk_fresh (rows : list Payments.Payment) :
  ~ In (Some (Payments.next_pk rows)) (map Payments.pk rows).
Proof.
  intros Hin. apply in_map_iff in Hin as (p & Hk & Hp).
  pose proof (next_pk_above rows p _ Hp Hk). lia.
Qed.

Lemma absent_key (k : Z) (rows : list Payments.Payment) :
  existsb (Payments.has_pk k) rows = false ->
  ~ In (Some k) (map Payments.pk rows).
Proof.
  intros Hex Hin. apply in_map_iff in Hin as (p & Hk & Hp).
  assert (existsb (Payments.has_pk k) rows = true); [|congruence].
  apply existsb_exists. exists p. split; [exact Hp|].
  unfold Payments.has_pk. apply bool_decide_eq_true_2, Hk.
Qed.

Lemma NoDup_snoc {A : Type} (l : list A) (x : A) :
  List.NoDup l -> ~ In x l -> List.NoDup (l ++ [x]).
Proof.
  intros Hl Hx. apply List.NoDup_app.
  - exact Hl.
  - repeat constructor. intros [].
  - intros y Hy [<-|[]]. exact (Hx Hy).
Qed.

(** What [clean] has checked when it returns. *)
Lemma clean_ok (self : Payments.Payment) (today : Py.date) (st : Payments.state) :
  Payments.clean self today st = Py.Return tt ->
  exists e,
    Payments.related_enrollment self st = Py.Return e
    /\ 0 < Payments.amount self
    /\ Payments.total (Payments.existing_payments self e st)
         + Payments.amount self
       <= Courses.price (Enrollments.course e).
Proof.
  unfold Payments.clean.
  destruct (Payments.related_enrollment self st) as [e|]; [|discriminate].
  simpl. destruct (Payments.amount self <=? 0) eqn:Hpos; [discriminate|].
  destruct (_ <? _) eqn:Hover; [discriminate|].
  intros _. exists e. apply Z.leb_gt in Hpos. apply Z.ltb_ge in Hover. auto.
Qed.


(** The rows other than the one of key [k]. *)
Lemma unkeyed_rows (k : Z) (self : Payments.Payment) (rows : list Payments.Payment) :
  existsb (Payments.has_pk k) rows = false ->
  map (fun r => if Payments.has_pk k r then self else r) rows = rows
  /\ List.filter (fun p => negb (Payments.has_pk k p)) rows = rows.
Proof.
  induction rows as [|r rows IH]; simpl; [auto|].
  intros H. apply orb_false_iff in H as [Hr Hrest].
  destruct (IH Hrest) as [IH1 IH2]. rewrite Hr. simpl.
  rewrite IH1, IH2. auto.
Qed.

Lemma total_filter_cons (g : Payments.Payment -> bool) (p : Payments.Payment)
    (rows : list Payments.Payment) :
  Payments.total (List.filter g (p :: rows))
  = (if g p then Payments.amount p else 0) + Payments.total (List.filter g rows).
Proof. simpl. destruct (g p); reflexivity. Qed.

(** Overwriting the row of key [k]: the total of any selection is that of
    the other rows, plus the new row when it is selected. *)
Lemma total_filter_replace (g : Payments.Payment -> bool) (k : Z)
    (self : Payments.Payment) (rows : list Payments.Payment) :
  List.NoDup (map Payments.pk rows) ->
  existsb (Payments.has_pk k) rows = true ->
  Payments.total (List.filter g
    (map (fun r => if Payments.has_pk k r then self else r) rows))
  = Payments.total (List.filter g
      (List.filter (fun p => negb (Payments.has_pk k p)) rows))
    + (if g self then Payments.amount self else 0).
Proof.
  induction rows as [|r rows IH]; intros Hnd Hex; [discriminate|].
  simpl in Hnd. apply NoDup_cons_iff in Hnd as [Hr Hnd].
  cbn [map]. destruct (Payments.has_pk k r) eqn:Hk.
  - assert (Hrest : existsb (Payments.has_pk k) rows = false).
    { destruct (existsb (Payments.has_pk k) rows) eqn:E; [|reflexivity].
      exfalso. apply Hr. apply existsb_exists in E as (p & Hp & Hpk).
      unfold Payments.has_pk in Hk, Hpk.
      apply bool_decide_eq_true_1 in Hk. apply bool_decide_eq_true_1 in Hpk.
      rewrite Hk, <- Hpk. apply in_map, Hp. }
    destruct (unkeyed_rows k self rows Hrest) as [Hmap Hfil].
    rewrite Hmap, total_filter_cons.
    cbn [List.filter]. rewrite Hk. cbn [negb]. rewrite Hfil. lia.
  - cbn [existsb] in Hex. rewrite Hk in Hex. cbn [orb] in Hex.
    rewrite total_filter_cons, (IH Hnd Hex).
    cbn [List.filter]. rewrite Hk. cbn [negb]. rewrite total_filter_cons. lia.
Qed.

Lemma total_filter_le (g f : Payments.Payment -> bool) (rows : list Payments.Payment) :
  Forall (fun p => 0 < Payments.amount p) rows ->
  Payments.total (List.filter g (List.filter f rows))
  <= Payments.total (List.filter g rows).
Proof.
  induction 1 as [|p rows Hp _ IH]; [reflexivity|].
  simpl. destruct (f p); simpl; destruct (g p);
    unfold Payments.total in *; simpl; lia.
Qed.

Lemma replace_keys (k : Z) (self : Payments.Payment) (rows : list Payments.Payment) :
  Payments.pk self = Some k ->
  map Payments.pk (map (fun r => if Payments.has_pk k r then self else r) rows)
  = map Payments.pk rows.
Proof.
  intros Hk. induction rows as [|r rows IH]; simpl; [reflexivity|].
  rewrite IH. f_equal. destruct (Payments.has_pk k r) eqn:E; [|reflexivity].
  unfold Payments.has_pk in E. apply bool_decide_eq_true_1 in E. congruence.
Qed.

Lemma of_enrollment_key (k : Z) (p : Payments.Payment) :
  Payments.of_enrollment (Some k) p = true <-> Payments.enrollment_id p = Some k.
Proof. unfold Payments.of_enrollment. apply bool_decide_eq_true. Qed.

(** Appending a row with an unused key and a positive amount that fits the
    price keeps the invariant. *)
Lemma within_price_append (st : Payments.state) (p : Payments.Payment) :
  Payments.within_price st ->
  ~ In (Payments.pk p) (map Payments.pk (Payments.payments st)) ->
  0 < Payments.amount p ->
  (forall k e,
     Payments.enrollment_id p = Some k ->
     find (Enrollments.has_pk k) (Payments.enrollments st) = Some e ->
     Payments.paid k (Payments.payments st) + Payments.amount p
     <= Courses.price (Enrollments.course e)) ->
  Payments.within_price
    (Payments.mkState (Payments.enrollments st) (Payments.payments st ++ [p])).
Proof.
  intros (Hnd & Hpos & Hsum) Hkey Hamt Hfit. unfold Payments.within_price.
  cbn [Payments.payments Payments.enrollments]. split; [|split].
  - rewrite map_app. apply NoDup_snoc; assumption.
  - apply Forall_app. split; [exact Hpos|]. repeat constructor. exact Hamt.
  - intros k e Hfind. unfold Payments.paid.
    rewrite List.filter_app, total_app. cbn [List.filter].
    destruct (Payments.of_enrollment (Some k) p) eqn:Hof.
    + apply of_enrollment_key in Hof.
      specialize (Hfit k e Hof Hfind). unfold Payments.paid in Hfit.
      unfold Payments.total at 2. simpl. lia.
    + specialize (Hsum k e Hfind). unfold Payments.paid in Hsum.
      unfold Payments.total at 2. simpl. lia.
Qed.

(** When no stored row shares the key of [self], the payments [clean] adds
    up are all those of the enrollment. *)
Lemma existing_all (self : Payments.Payment) (e : Enrollments.Enrollment)
    (st : Payments.state) :
  (forall p, In p (Payments.payments st) -> Payments.other_than self p = true) ->
  Payments.existing_payments self e st
  = List.filter (Payments.of_enrollment (Enrollments.pk e)) (Payments.payments st).
Proof.
  intros H. unfold Payments.existing_payments. apply filter_all.
  intros p Hp. apply filter_In in Hp as [Hp _]. apply H, Hp.
Qed.

Lemma other_than_keyed (k : Z) (self p : Payments.Payment) :
  Payments.pk self = Some k ->
  Payments.other_than self p = negb (Payments.has_pk k p).
Proof.
  intros Hk. unfold Payments.other_than, Payments.has_pk. rewrite Hk. f_equal.
  apply bool_decide_ext. split; [tauto|]. intros H. split; [eauto|exact H].
Qed.

(** The write that follows a successful [clean] keeps the invariant. *)
Lemma write_within_price (self : Payments.Payment) (today : Py.date)
    (st : Payments.state) :
  Payments.within_price st ->
  Payments.clean self today st = Py.Return tt ->
  Payments.within_price
    (Payments.mkState (Payments.enrollments st)
       (snd (Payments.write self (Payments.payments st)))).
Proof.
  intros Hinv Hclean.
  destruct (clean_ok self today st Hclean) as (e & He & Hamt & Hle).
  destruct (related_enrollment_key self st e He) as (ks & Hid & Hpke & Hfind).
  unfold Payments.write.
  destruct (Payments.pk self) as [k|] eqn:Hpk.
  - destruct (existsb (Payments.has_pk k) (Payments.payments st)) eqn:Hex;
      cbn [snd].
    + destruct Hinv as (Hnd & Hpos & Hsum). unfold Payments.within_price.
      cbn [Payments.payments Payments.enrollments]. split; [|split].
      * rewrite replace_keys; assumption.
      * apply List.Forall_forall. intros p Hp.
        apply in_map_iff in Hp as (r & <- & Hr).
        destruct (Payments.has_pk k r); [exact Hamt|].
        rewrite List.Forall_forall in Hpos. apply Hpos, Hr.
      * intros k' e' Hfind'. unfold Payments.paid.
        rewrite (total_filter_replace _ k self _ Hnd Hex).
        destruct (Payments.of_enrollment (Some k') self) eqn:Hof.
        -- apply of_enrollment_key in Hof.
           assert (k' = ks) as -> by congruence.
           assert (e' = e) as -> by congruence.
           unfold Payments.existing_payments in Hle.
           rewrite filter_filter_comm, Hpke in Hle.
           rewrite (List.filter_ext _ _ (fun p => other_than_keyed k self p Hpk)) in Hle.
           exact Hle.
        -- specialize (Hsum k' e' Hfind'). unfold Payments.paid in Hsum.
           pose proof (total_filter_le (Payments.of_enrollment (Some k'))
                         (fun p => negb (Payments.has_pk k p)) _ Hpos).
           lia.
    + apply within_price_append; try assumption.
      * rewrite Hpk. apply absent_key, Hex.
      * intros k' e' Hk' Hfind'.
        assert (k' = ks) as -> by congruence.
        assert (e' = e) as -> by congruence.
        rewrite existing_all, Hpke in Hle; [exact Hle|].
        intros p Hp. rewrite (other_than_keyed k self p Hpk).
        apply negb_true_iff.
        destruct (Payments.has_pk k p) eqn:E; [|reflexivity].
        assert (existsb (Payments.has_pk k) (Payments.payments st) = true)
          by (apply existsb_exists; eauto).
        congruence.
  - cbn [snd]. apply within_price_append; try assumption.
    + cbn [Payments.with_pk Payments.pk]. apply next_pk_fresh.
    + intros k' e' Hk' Hfind'. cbn [Payments.with_pk Payments.enrollment_id] in Hk'.
      cbn [Payments.with_pk Payments.amount].
      assert (k' = ks) as -> by congruence.
      assert (e' = e) as -> by congruence.
      rewrite existing_all, Hpke in Hle; [exact Hle|].
      intros p _. unfold Payments.other_than. rewrite Hpk.
      apply negb_true_iff, bool_decide_eq_false. intros [[? ?] _]. discriminate.
Qed.

Lemma save_within_price (self : Payments.Payment) (now : Py.date)
    (st : Payments.state) :
  Payments.within_price st ->
  Payments.within_price (snd (Payments.save self now st)).
Proof.
  intros Hinv. unfold Payments.save.
  destruct (Payments.clean _ now st) as [[]|err] eqn:Hclean; [|exact Hinv].
  destruct (Payments.violates_unique _ st); [exact Hinv|].
  pose proof (write_within_price _ now st Hinv Hclean) as H.
  destruct (Payments.write _ (Payments.payments st)) as [self2 rows].
  exact H.
Qed.



(** A database with no payment yet is within price when no price is
    negative. *)
Lemma no_payment_within_price (es : Enrollments.table) :
  (forall e, In e es -> 0 <= Courses.price (Enrollments.course e)) ->
  Payments.within_price (Payments.mkState es []).
Proof.
  intros Hprice. split; [constructor|]. split; [constructor|].
  intros k e Hfind. apply find_some in Hfind as [Hin _].
  apply Hprice, Hin.
Qed.

End PaymentsFacts.

Module PaymentsClaims.






End PaymentsClaims.

(** ** payment utilities *)

Module PaymentUtilsFacts.

(** A record without the key [enrollment_id] ends the whole validation with
    [KeyError], whatever the records after it. *)
Lemma validate_record_missing_enrollment_id (i : Z)
    (payment_data : PaymentUtils.payment_data) (st : Payments.state) :
  payment_data !! "enrollment_id" = None ->
  PaymentUtils.validate_record i payment_data st
  = Py.Raise (Py.KeyError "enrollment_id").
Proof.
  intros H. unfold PaymentUtils.validate_record, PaymentUtils.subscript.
  rewrite H. reflexivity.
Qed.

Lemma bulk_missing_enrollment_id (payment_data : PaymentUtils.payment_data)
    (rest : list PaymentUtils.payment_data) (st : Payments.state) :
  payment_data !! "enrollment_id" = None ->
  PaymentUtils.bulk_payment_validation (payment_data :: rest) st
  = Py.Raise (Py.KeyError "enrollment_id").
Proof.
  intros H. unfold PaymentUtils.bulk_payment_validation. simpl.
  rewrite (validate_record_missing_enrollment_id 0 _ st H). reflexivity.
Qed.

(** When the validation returns, the flag says whether the list of errors
    is empty. *)
Lemma bulk_flag (l : list PaymentUtils.payment_data) (st : Payments.state)
    (flag : bool) (errors : list PaymentUtils.error_entry) :
  PaymentUtils.bulk_payment_validation l st = Py.Return (flag, errors) ->
  (flag = true <-> errors = []).
Proof.
  unfold PaymentUtils.bulk_payment_validation.
  destruct (PaymentUtils.validate_from 0 l st []) as [es|]; [|discriminate].
  simpl. intros [= <- <-]. destruct es; simpl; split; congruence.
Qed.

(** The shape of a payment plan. *)
Lemma add_to_last_length (d : Decimal.t) (l : list Decimal.t) :
  length (PaymentUtils.add_to_last d l) = length l.
Proof.
  induction l as [|x [|y l] IH]; simpl in *; congruence.
Qed.

Lemma calculate_payment_plan_length (price : Decimal.t) (n : Z) :
  length (PaymentUtils.calculate_payment_plan price n) = Z.to_nat n.
Proof.
  unfold PaymentUtils.calculate_payment_plan.
  destruct (n <=? 0) eqn:Hn.
  - apply Z.leb_le in Hn. simpl. lia.
  - destruct (negb _); rewrite ?add_to_last_length; apply repeat_length.
Qed.

Lemma add_to_last_earlier (d : Decimal.t) (l : list Decimal.t) (i : nat) :
  (S i < length l)%nat ->
  nth_error (PaymentUtils.add_to_last d l) i = nth_error l i.
Proof.
  revert i. induction l as [|x [|y l] IH]; intros i Hi; simpl in Hi; try lia.
  destruct i as [|i]; [reflexivity|].
  change (nth_error (PaymentUtils.add_to_last d (y :: l)) i
          = nth_error (y :: l) i).
  apply IH. simpl. lia.
Qed.

(** Every installment but the last is the rounded quotient. *)
Lemma calculate_payment_plan_earlier (price : Decimal.t) (n : Z) (i : nat) :
  (S i < Z.to_nat n)%nat ->
  nth_error (PaymentUtils.calculate_payment_plan price n) i
  = Some (Decimal.div price (Decimal.of_int n)).
Proof.
  intros Hi. unfold PaymentUtils.calculate_payment_plan.
  destruct (n <=? 0) eqn:Hn; [apply Z.leb_le in Hn; lia|].
  assert (Hnth : nth_error (repeat (Decimal.div price (Decimal.of_int n))
                              (Z.to_nat n)) i
                 = Some (Decimal.div price (Decimal.of_int n))).
  { apply nth_error_repeat. lia. }
  destruct (negb _); [|exact Hnth].
  rewrite add_to_last_earlier; [exact Hnth|]. rewrite repeat_length. exact Hi.
Qed.

End PaymentUtilsFacts.

Module PaymentUtilsClaims.

(** C9 at concrete records.  A record without [enrollment_id], and one
    without [amount], each make [bulk_payment_validation] raise [KeyError]:
    the missing field is noted, the [continue] after the note resumes the
    loop over the field names, and the record is then subscripted with the
    missing key.  No pair of a flag and errors is returned. *)
Theorem bulk_payment_validation_raises_key_error :
  PaymentUtils.bulk_payment_validation
    [Samples.record_without_enrollment] Samples.ledger
  = Py.Raise (Py.KeyError "enrollment_id")
  /\ PaymentUtils.bulk_payment_validation
       [Samples.complete_record; Samples.record_without_amount] Samples.ledger
     = Py.Raise (Py.KeyError "amount")
  /\ PaymentUtils.bulk_payment_validation
       [Samples.complete_record] Samples.ledger
     = Py.Return (true, []).
Proof. split; [|split]; vm_compute; reflexivity. Qed.

(** C10 at the price 100.00.  In 18 installments the quotient
    5.555555555555555555555555556 is rounded up, the running total of its
    copies, rounded at each step, comes out as 100.0000000000000000000000001,
    and the last installment is lowered by that difference.  The plan then
    adds up to 99.999999999999999999999999908, and to
    99.99999999999999999999999997 when added the way Python's [sum] adds;
    neither is the price.  In 7 installments the running total rounds to
    100 exactly, nothing is adjusted, and the seven equal installments add
    up to 100.00000000000000000000000003. *)
Theorem payment_plan_misses_price :
  Decimal.exact_sum (PaymentUtils.calculate_payment_plan Samples.hundred 18)
  = Decimal.mk 99999999999999999999999999908 (-27)
  /\ Decimal.sum (PaymentUtils.calculate_payment_plan Samples.hundred 18)
     = Decimal.mk 9999999999999999999999999997 (-26)
  /\ Decimal.eqb
       (Decimal.exact_sum (PaymentUtils.calculate_payment_plan Samples.hundred 18))
       Samples.hundred = false
  /\ Decimal.eqb
       (Decimal.sum (PaymentUtils.calculate_payment_plan Samples.hundred 18))
       Samples.hundred = false
  /\ PaymentUtils.calculate_payment_plan Samples.hundred 7
     = repeat (Decimal.mk 1428571428571428571428571429 (-26)) 7
  /\ Decimal.exact_sum (PaymentUtils.calculate_payment_plan Samples.hundred 7)
     = Decimal.mk 10000000000000000000000000003 (-26)
  /\ Decimal.eqb
       (Decimal.exact_sum (PaymentUtils.calculate_payment_plan Samples.hundred 7))
       Samples.hundred = false.
Proof. repeat split; vm_compute; reflexivity. Qed.

End PaymentUtilsClaims.

(** ** Further properties of the same operations *)

Module Further.

(** X1.  Starting from a database without payments, in which no course has
    a negative price, any run of [Payment.save] calls leaves every
    enrollment's payments within the price of its course. *)
Theorem saves_stay_within_price (ops : list (Payments.Payment * Py.date))
    (es : Enrollments.table) :
  (forall e, In e es -> 0 <= Courses.price (Enrollments.course e)) ->
  Payments.within_price (Payments.save_all ops (Payments.mkState es [])).
Proof.
  intros Hprice.
  pose proof (PaymentsFacts.no_payment_within_price es Hprice) as Hinv.
  generalize dependent (Payments.mkState es []).
  induction ops as [|[self now] ops IH]; intros st Hinv; simpl.
  - exact Hinv.
  - apply IH, PaymentsFacts.save_within_price, Hinv.
Qed.

(** X1 on the sample run: 800.00 and 200.00 are stored, the 300.00 in
    between is refused, and 1000.00 is paid of 1000.00. *)
Lemma saves_stay_within_price_witness :
  Payments.within_price
    (Payments.save_all Samples.march_saves
       (Payments.mkState [Samples.running_row] []))
  /\ Payments.paid 1
       (Payments.payments
          (Payments.save_all Samples.march_saves
             (Payments.mkState [Samples.running_row] []))) = 100000.
Proof.
  split; [|reflexivity].
  apply saves_stay_within_price.
  intros e [<-|[]]. vm_compute. discriminate.
Defined.

(** X2.  [calculate_payment_plan] returns as many installments as asked
    for, none when that number is zero or negative, and every installment
    but the last is the quotient of the price by the number of installments
    as the decimal context rounds it. *)
Theorem payment_plan_shape (price : Decimal.t) (n : Z) :
  length (PaymentUtils.calculate_payment_plan price n) = Z.to_nat n
  /\ (n <= 0 -> PaymentUtils.calculate_payment_plan price n = [])
  /\ (forall i : nat,
        (S i < Z.to_nat n)%nat ->
        nth_error (PaymentUtils.calculate_payment_plan price n) i
        = Some (Decimal.div price (Decimal.of_int n))).
Proof.
  split; [apply PaymentUtilsFacts.calculate_payment_plan_length|]. split.
  - intros Hn. unfold PaymentUtils.calculate_payment_plan.
    apply Z.leb_le in Hn. rewrite Hn. reflexivity.
  - intros i. apply PaymentUtilsFacts.calculate_payment_plan_earlier.
Qed.

(** X4.  Creating an enrollment for a (student, course) pair that a stored
    enrollment holds with a status other than CANCELLED raises a validation
    error and stores nothing. *)
Theorem save_refuses_active_duplicate (self r : Enrollments.Enrollment)
    (t : Enrollments.table) :
  Enrollments.pk self = None ->
  In r t -> Enrollments.same_pair r self = true ->
  Enrollments.status r <> "CANCELLED" ->
  Py.is_validation_error (fst (Enrollments.save self t)) = true
  /\ snd (Enrollments.save self t) = t.
Proof. apply EnrollmentsFacts.save_active_pair. Qed.

(** X4 on the sample: [amal] is enrolled in "Algebra" and in progress. *)
Lemma save_refuses_active_duplicate_witness :
  Py.is_validation_error
    (fst (Enrollments.save Samples.duplicate_enrollment [Samples.running_row]))
  = true
  /\ snd (Enrollments.save Samples.duplicate_enrollment [Samples.running_row])
     = [Samples.running_row].
Proof.
  apply (save_refuses_active_duplicate Samples.duplicate_enrollment
           Samples.running_row).
  - reflexivity.
  - left. reflexivity.
  - reflexivity.
  - simpl. discriminate.
Defined.

End Further.

(** ** accounts: permissions and groups *)

Module AccountsCoverage.

Lemma staff_role_cases (r : string) :
  r ∈ Accounts.staff_roles ->
  r = "ADMIN" \/ r = "REGISTRAR" \/ r = "ACADEMIC" \/ r = "FINANCE".
Proof.
  intros H. apply list_elem_of_In in H. simpl in H.
  intuition.
Qed.

Lemma has_role_staff (roles : list string) (u : Accounts.User) :
  (forall r, In r roles -> In r Accounts.staff_roles) ->
  Permissions.has_role roles u = true -> Accounts.is_staff_member u = true.
Proof.
  intros Hsub H. unfold Permissions.has_role in H.
  apply bool_decide_eq_true_1 in H. apply list_elem_of_In in H.
  unfold Accounts.is_staff_member. apply bool_decide_eq_true_2.
  apply list_elem_of_In, Hsub, H.
Qed.

(** X5.  Every permission helper of [User] answers true for staff roles
    only: a user who may create users, manage courses, verify completions,
    issue certificates, record payments or view financial reports is a staff
    member, and is neither a student nor a tutor. *)
Theorem permission_needs_staff_role (u : Accounts.User) :
  Permissions.can_create_users u
  || Permissions.can_manage_courses u
  || Permissions.can_verify_completion u
  || Permissions.can_issue_certificates u
  || Permissions.can_record_payments u
  || Permissions.can_view_financial_reports u = true ->
  Accounts.is_staff_member u = true
  /\ Permissions.is_student u = false
  /\ Permissions.is_tutor u = false.
Proof.
  intros H.
  assert (Hstaff : Accounts.is_staff_member u = true).
  { repeat (apply orb_true_iff in H as [H|H]);
      (eapply has_role_staff; [|exact H]);
      unfold Accounts.staff_roles; simpl; intuition. }
  split; [exact Hstaff|].
  unfold Accounts.is_staff_member in Hstaff.
  apply bool_decide_eq_true_1, staff_role_cases in Hstaff.
  unfold Permissions.is_student, Permissions.is_tutor.
  destruct Hstaff as [ -> | [ -> | [ -> | -> ] ] ]; split; reflexivity.
Qed.

(** X5 for a registrar, who may create users. *)
Lemma permission_needs_staff_role_witness :
  Accounts.is_staff_member Samples.registrar = true
  /\ Permissions.is_student Samples.registrar = false
  /\ Permissions.is_tutor Samples.registrar = false.
Proof. apply permission_needs_staff_role. reflexivity. Defined.

(** X6.  The function [add_user_to_group], called for a user with a key
    that was created or has a role, leaves the user in the group of that
    role and in no other group, whatever groups the user was in before, and
    that group exists; a role that maps to no group leaves the user in no
    group at all.  The groups of other users are as before.  Called for a
    user that was not created and has an empty role, it changes nothing. *)
Theorem add_user_to_group_sets_role_group (instance : Accounts.User)
    (created : bool) (a : Groups.auth) (k : Z) :
  Accounts.pk instance = Some k ->
  (created = false -> Accounts.role instance = "" ->
   Groups.add_user_to_group instance created a = Py.Return a)
  /\ (created = true \/ Accounts.role instance <> "" ->
      exists a',
        Groups.add_user_to_group instance created a = Py.Return a'
        /\ (forall g,
              Groups.mapping_get (Accounts.role instance)
                Groups.role_group_mapping = Some g ->
              Groups.groups_of k a' = {[g]} /\ g ∈ Groups.groups a')
        /\ (Groups.mapping_get (Accounts.role instance)
              Groups.role_group_mapping = None ->
            Groups.groups_of k a' = ∅ /\ Groups.groups a' = Groups.groups a)
        /\ (forall j, j <> k ->
              Groups.membership a' !! j = Groups.membership a !! j)).
Proof.
  intros Hk. unfold Groups.add_user_to_group. split.
  - intros -> ->. reflexivity.
  - intros Hcalled.
    assert (Hrun : created || negb (String.eqb (Accounts.role instance) "")
                   = true).
    { destruct Hcalled as [Hcreated|Hrole]; [rewrite Hcreated; reflexivity|].
      apply String.eqb_neq in Hrole. rewrite Hrole. apply orb_true_r. }
    rewrite Hrun, Hk. unfold Groups.groups_of.
    destruct (Groups.mapping_get (Accounts.role instance)
                Groups.role_group_mapping) as [group_name|];
      eexists; (split; [reflexivity|]); cbn [Groups.membership Groups.groups].
    + split; [|split].
      * intros g [= <-]. rewrite lookup_insert_eq. split; [reflexivity|].
        apply elem_of_union. left. apply elem_of_singleton. reflexivity.
      * discriminate.
      * intros j Hj. rewrite !lookup_insert_ne by congruence. reflexivity.
    + split; [|split].
      * discriminate.
      * intros _. rewrite lookup_insert_eq. split; reflexivity.
      * intros j Hj. rewrite lookup_insert_ne by congruence. reflexivity.
Qed.

(** X6 on the sample: a tutor whose role has become FINANCE ends in the
    group "Finance Staff" alone. *)
Lemma add_user_to_group_sets_role_group_witness :
  exists a',
    Groups.add_user_to_group Samples.promoted false Samples.groups_before
    = Py.Return a'
    /\ Groups.groups_of 5 a' = {["Finance Staff"]}
    /\ "Finance Staff" ∈ Groups.groups a'.
Proof.
  destruct (add_user_to_group_sets_role_group Samples.promoted false
              Samples.groups_before 5 eq_refl) as [_ Hcalled].
  destruct Hcalled as (a' & Hrun & Hgroup & _); [right; discriminate|].
  exists a'. split; [exact Hrun|]. apply Hgroup. reflexivity.
Defined.

End AccountsCoverage.

(** ** courses: updates of the prerequisite relation *)

Module CoursesCoverage.

(** The rows of the through-table after [set]. *)
Lemma set_prerequisites_rows (c : Z) (objs : list Courses.Course)
    (m : Courses.prerequisites) (a b : Z) :
  In (a, b) (CourseUpdates.set_prerequisites c objs m)
  <-> (a <> c /\ In (a, b) m) \/ (a = c /\ In b (CourseUpdates.ids objs)).
Proof.
  unfold CourseUpdates.set_prerequisites. rewrite in_app_iff, filter_In.
  rewrite in_map_iff. split.
  - intros [[Hin Hkeep]|(t & Heq & Ht)].
    + simpl in Hkeep. destruct (a =? c) eqn:Hac.
      * apply Z.eqb_eq in Hac. simpl in Hkeep.
        apply bool_decide_eq_true_1, list_elem_of_In in Hkeep. auto.
      * apply Z.eqb_neq in Hac. auto.
    + injection Heq as <- <-. apply filter_In in Ht as [Ht _].
      apply nodup_In in Ht. auto.
  - intros [[Hac Hin]|[-> Hb]].
    + left. split; [exact Hin|]. simpl.
      apply Z.eqb_neq in Hac. rewrite Hac. reflexivity.
    + destruct (decide ((c, b) ∈ m)) as [Hin|Hout];
        rewrite list_elem_of_In in *.
      * left. split; [exact Hin|]. simpl. apply orb_true_iff. right.
        apply bool_decide_eq_true_2, list_elem_of_In, Hb.
      * right. exists b. split; [reflexivity|]. apply filter_In.
        split; [apply nodup_In, Hb|].
        apply negb_true_iff, bool_decide_eq_false. intros Hold.
        apply list_elem_of_In, in_map_iff in Hold as ([a' b'] & Hb' & Hrow).
        simpl in Hb'. subst b'. apply filter_In in Hrow as [Hrow Ha'].
        simpl in Ha'. apply Z.eqb_eq in Ha'. subst a'. exact (Hout Hrow).
Qed.

(** What an accepted list of prerequisites is free of. *)
Lemma accepted_prerequisites (m : Courses.prerequisites) (c : Courses.Course)
    (value validated : list Courses.Course) :
  Courses.CourseCreateUpdateSerializer_validate_prerequisites m (Some c) value
  = Py.Return validated ->
  validated = value
  /\ forall p, In p value ->
       Courses.id p <> Courses.id c
       /\ ~ In (Courses.id p, Courses.id c) m.
Proof.
  unfold Courses.CourseCreateUpdateSerializer_validate_prerequisites.
  rewrite CoursesFacts.validate_with_first.
  destruct (find (Courses.offending m c) value) eqn:Hfind; [discriminate|].
  intros [= <-]. split; [reflexivity|]. intros p Hp.
  pose proof (find_none _ _ Hfind p Hp) as Hoff.
  unfold Courses.offending in Hoff. apply orb_false_iff in Hoff as [Hid Hpre].
  apply Z.eqb_neq in Hid. split; [exact Hid|]. intros Hin.
  assert (Courses.is_prerequisite_for m c p = true); [|congruence].
  unfold Courses.is_prerequisite_for. apply existsb_exists.
  exists (Courses.id p, Courses.id c). split; [exact Hin|]. simpl.
  rewrite !Z.eqb_refl. reflexivity.
Qed.

End CoursesCoverage.

Module CoursesProperties.

(** X7.  An update of a course through [CourseCreateUpdateSerializer] that
    is accepted keeps the prerequisite relation free of courses requiring
    themselves and of pairs of courses requiring each other; afterwards the
    course requires exactly the submitted courses, and the prerequisites of
    every other course are as before. *)
Theorem update_keeps_no_short_cycle (instance data : Courses.Course)
    (value : list Courses.Course) (cat cat' : CourseUpdates.catalog) :
  CourseUpdates.no_short_cycle (CourseUpdates.links cat) ->
  CourseUpdates.update instance data (Some value) cat = Py.Return cat' ->
  CourseUpdates.no_short_cycle (CourseUpdates.links cat')
  /\ (forall b, In (Courses.id instance, b) (CourseUpdates.links cat')
                <-> In b (CourseUpdates.ids value))
  /\ (forall a b, a <> Courses.id instance ->
        (In (a, b) (CourseUpdates.links cat')
         <-> In (a, b) (CourseUpdates.links cat))).
Proof.
  intros Hinv. unfold CourseUpdates.update.
  destruct (Courses.CourseCreateUpdateSerializer_validate_prerequisites _ _ value)
    as [validated|err] eqn:Hval; [|discriminate].
  destruct (CoursesCoverage.accepted_prerequisites _ _ _ _ Hval) as [-> Hfree].
  simpl. intros [= <-]. cbn [CourseUpdates.links].
  set (c := Courses.id instance) in *.
  assert (Hrows := CoursesCoverage.set_prerequisites_rows c value
                     (CourseUpdates.links cat)).
  split; [|split].
  - intros a b Hab. apply Hrows in Hab. split.
    + destruct Hab as [[Hac Hin]|[-> Hb]].
      * apply (Hinv a b Hin).
      * apply in_map_iff in Hb as (p & <- & Hp).
        intros Heq. apply (proj1 (Hfree p Hp)). symmetry. exact Heq.
    + intros Hba. apply Hrows in Hba.
      destruct Hab as [[Hac Hin]|[-> Hb]], Hba as [[Hbc Hin']|[-> Ha]].
      * apply (proj2 (Hinv a b Hin)). exact Hin'.
      * apply in_map_iff in Ha as (p & <- & Hp).
        apply (proj2 (Hfree p Hp)). exact Hin.
      * apply in_map_iff in Hb as (p & <- & Hp).
        apply (proj2 (Hfree p Hp)). exact Hin'.
      * apply in_map_iff in Hb as (p & Hpc & Hp).
        apply (proj1 (Hfree p Hp)). exact Hpc.
  - intros b. rewrite Hrows. split.
    + intros [[Hne _]|[_ Hb]]; [contradiction | exact Hb].
    + intros Hb. right. auto.
  - intros a b Ha. rewrite Hrows. split.
    + intros [[_ Hin]|[Heq _]]; [exact Hin | contradiction].
    + intros Hin. left. auto.
Qed.

(** X7 on the sample catalog: "Analysis" is updated to require "Algebra"
    and "Calculus". *)
Lemma update_keeps_no_short_cycle_witness :
  exists cat',
    CourseUpdates.update Samples.analysis Samples.analysis
      (Some [Samples.algebra; Samples.calculus]) Samples.catalog
    = Py.Return cat'
    /\ CourseUpdates.no_short_cycle (CourseUpdates.links cat')
    /\ (forall b, In (3, b) (CourseUpdates.links cat') <-> In b [1; 2]).
Proof.
  eexists. split; [reflexivity|].
  assert (Hinv : CourseUpdates.no_short_cycle
                   (CourseUpdates.links Samples.catalog)).
  { intros a b [[= <- <-]|[]]. split; [discriminate|].
    intros [[=]|[]]. }
  destruct (update_keeps_no_short_cycle Samples.analysis Samples.analysis
              [Samples.algebra; Samples.calculus] Samples.catalog _
              Hinv eq_refl) as (H1 & H2 & _).
  split; [exact H1 | exact H2].
Defined.

End CoursesProperties.

(** ** enrollments: prerequisites and the create serializer *)

Module EnrollmentChecksFacts.

Lemma completed_courses_spec (u : Accounts.User) (t : Enrollments.table)
    (p : Courses.Course) :
  In (Courses.id p) (EnrollmentChecks.completed_courses u t)
  <-> EnrollmentChecks.completed u t p.
Proof.
  unfold EnrollmentChecks.completed_courses, EnrollmentChecks.completed.
  rewrite in_map_iff. split.
  - intros (r & Hid & Hr). apply filter_In in Hr as [Hin Hr].
    apply andb_true_iff in Hr as [Hs Hst].
    apply bool_decide_eq_true_1 in Hs. apply String.eqb_eq in Hst. eauto.
  - intros (r & Hin & Hs & Hst & Hid). exists r. split; [exact Hid|].
    apply filter_In. split; [exact Hin|].
    unfold EnrollmentChecks.same_student.
    rewrite (bool_decide_eq_true_2 _ Hs), Hst. reflexivity.
Qed.

Lemma missing_among_spec (u : Accounts.User) (t : Enrollments.table)
    (prerequisites : list Courses.Course) (p : Courses.Course) :
  In p (EnrollmentChecks.missing_among
          (EnrollmentChecks.completed_courses u t) prerequisites)
  <-> In p prerequisites /\ ~ EnrollmentChecks.completed u t p.
Proof.
  unfold EnrollmentChecks.missing_among. rewrite filter_In.
  rewrite negb_true_iff, bool_decide_eq_false, list_elem_of_In.
  rewrite completed_courses_spec. reflexivity.
Qed.

Lemma check_prerequisites_missing (self : Enrollments.Enrollment)
    (cat : CourseUpdates.catalog) (t : Enrollments.table) :
  snd (EnrollmentChecks.check_prerequisites self cat t)
  = EnrollmentChecks.missing_among
      (EnrollmentChecks.completed_courses (Enrollments.student self) t)
      (CourseUpdates.prerequisites_of (Enrollments.course self) cat)
  /\ fst (EnrollmentChecks.check_prerequisites self cat t)
     = Nat.eqb (length (snd (EnrollmentChecks.check_prerequisites self cat t))) 0.
Proof.
  unfold EnrollmentChecks.check_prerequisites.
  destruct (CourseUpdates.prerequisites_of _ cat); split; reflexivity.
Qed.

Lemma length_zero {A : Type} (l : list A) : Nat.eqb (length l) 0 = true <-> l = [].
Proof. destruct l; simpl; split; congruence. Qed.

End EnrollmentChecksFacts.

Module EnrollmentProperties.

(** X8.  [check_prerequisites] answers "met" exactly when the student has a
    COMPLETED enrollment in every prerequisite of the course; the courses
    it lists as missing are exactly the prerequisites without one; and it
    answers "met" exactly when that list is empty. *)
Theorem check_prerequisites_meaning (self : Enrollments.Enrollment)
    (cat : CourseUpdates.catalog) (t : Enrollments.table) :
  (fst (EnrollmentChecks.check_prerequisites self cat t) = true
   <-> forall p,
         In p (CourseUpdates.prerequisites_of (Enrollments.course self) cat) ->
         EnrollmentChecks.completed (Enrollments.student self) t p)
  /\ (forall p,
        In p (snd (EnrollmentChecks.check_prerequisites self cat t))
        <-> In p (CourseUpdates.prerequisites_of (Enrollments.course self) cat)
            /\ ~ EnrollmentChecks.completed (Enrollments.student self) t p)
  /\ (fst (EnrollmentChecks.check_prerequisites self cat t) = true
      <-> snd (EnrollmentChecks.check_prerequisites self cat t) = []).
Proof.
  destruct (EnrollmentChecksFacts.check_prerequisites_missing self cat t)
    as [Hsnd Hfst].
  assert (Hmiss : forall p,
            In p (snd (EnrollmentChecks.check_prerequisites self cat t))
            <-> In p (CourseUpdates.prerequisites_of (Enrollments.course self) cat)
                /\ ~ EnrollmentChecks.completed (Enrollments.student self) t p).
  { intros p. rewrite Hsnd. apply EnrollmentChecksFacts.missing_among_spec. }
  assert (Hempty : fst (EnrollmentChecks.check_prerequisites self cat t) = true
                   <-> snd (EnrollmentChecks.check_prerequisites self cat t) = []).
  { rewrite Hfst. apply EnrollmentChecksFacts.length_zero. }
  split; [|split; assumption].
  rewrite Hempty. split.
  - intros Hnil p Hp.
    destruct (decide (Courses.id p ∈
                EnrollmentChecks.completed_courses (Enrollments.student self) t))
      as [Hc|Hc];
      rewrite list_elem_of_In, EnrollmentChecksFacts.completed_courses_spec in Hc;
      [exact Hc|].
    exfalso. assert (Hin := proj2 (Hmiss p) (conj Hp Hc)).
    rewrite Hnil in Hin. destruct Hin.
  - intros Hall.
    destruct (snd (EnrollmentChecks.check_prerequisites self cat t))
      as [|p rest] eqn:E; [reflexivity|].
    exfalso. destruct (proj1 (Hmiss p) (or_introl eq_refl)) as [Hp Hc].
    exact (Hc (Hall p Hp)).
Qed.

(** X9.  [EnrollmentCreateSerializer.validate] raises exactly when the
    student holds a non-cancelled enrollment in the course or
    [check_prerequisites] of the enrollment to be created does not answer
    "met"; otherwise it returns the fields it was given. *)
Theorem validate_agrees_with_check_prerequisites (a : EnrollmentChecks.attrs)
    (cat : CourseUpdates.catalog) (t : Enrollments.table) :
  Py.raises (EnrollmentChecks.validate a cat t)
  = EnrollmentChecks.active_duplicate a t
    || negb (fst (EnrollmentChecks.check_prerequisites
                    (EnrollmentChecks.to_enrollment a) cat t))
  /\ (Py.raises (EnrollmentChecks.validate a cat t) = false ->
      EnrollmentChecks.validate a cat t = Py.Return a)
  /\ Py.raises (EnrollmentChecks.validate a cat t)
     = Py.is_validation_error (EnrollmentChecks.validate a cat t).
Proof.
  unfold EnrollmentChecks.validate, EnrollmentChecks.check_prerequisites.
  cbn [EnrollmentChecks.to_enrollment Enrollments.course Enrollments.student].
  destruct (EnrollmentChecks.active_duplicate a t); [repeat split; discriminate|].
  destruct (CourseUpdates.prerequisites_of (EnrollmentChecks.course a) cat)
    as [|p ps]; [repeat split|].
  cbn [fst orb].
  destruct (EnrollmentChecks.missing_among _ (p :: ps)); repeat split;
    discriminate.
Qed.

End EnrollmentProperties.

Module EnrollmentCreation.

(** X10.  An enrollment whose student passed [validate_student] and whose
    fields passed [validate] of the create serializer passes
    [Enrollment.clean] as well.  [save] then stores it as IN_PROGRESS under
    the next key, unless a stored row holds the same (student, course) pair,
    in which case the storage constraint raises; such a row is always a
    cancelled one. *)
Theorem accepted_enrollment_is_saved (a a' : EnrollmentChecks.attrs)
    (s : Accounts.User) (cat : CourseUpdates.catalog)
    (t : Enrollments.table) :
  EnrollmentChecks.validate_student (EnrollmentChecks.student a) = Py.Return s ->
  EnrollmentChecks.validate a cat t = Py.Return a' ->
  Enrollments.clean (EnrollmentChecks.to_enrollment a) t = Py.Return tt
  /\ Enrollments.save (EnrollmentChecks.to_enrollment a) t
     = (if Enrollments.violates_unique_together
             (EnrollmentChecks.to_enrollment a) t
        then (Py.Raise (Py.IntegrityError "unique_together (student, course)"), t)
        else (Py.Return (Enrollments.with_pk (Enrollments.next_pk t)
                           (EnrollmentChecks.to_enrollment a)),
              (t ++ [Enrollments.with_pk (Enrollments.next_pk t)
                       (EnrollmentChecks.to_enrollment a)])%list))
  /\ (forall r, In r t ->
        Enrollments.same_pair r (EnrollmentChecks.to_enrollment a) = true ->
        Enrollments.status r = "CANCELLED").
Proof.
  intros Hstudent Hvalid.
  assert (Hrole : String.eqb (Accounts.role (EnrollmentChecks.student a))
                    "STUDENT" = true).
  { unfold EnrollmentChecks.validate_student in Hstudent.
    destruct (String.eqb _ "STUDENT"); [reflexivity | discriminate]. }
  assert (Hdup : EnrollmentChecks.active_duplicate a t = false).
  { unfold EnrollmentChecks.validate in Hvalid.
    destruct (EnrollmentChecks.active_duplicate a t);
      [discriminate | reflexivity]. }
  assert (Hclean : Enrollments.clean (EnrollmentChecks.to_enrollment a) t
                   = Py.Return tt).
  { unfold Enrollments.clean. cbn. rewrite Hrole. cbn.
    unfold EnrollmentChecks.active_duplicate in Hdup.
    unfold Enrollments.same_pair. cbn.
    unfold EnrollmentChecks.same_student in Hdup. rewrite Hdup. reflexivity. }
  split; [exact Hclean|]. split.
  - unfold Enrollments.save. rewrite Hclean. unfold Enrollments.base_save.
    destruct (Enrollments.violates_unique_together _ t); reflexivity.
  - intros r Hin Hpair.
    destruct (String.eqb (Enrollments.status r) "CANCELLED") eqn:Hst;
      [apply String.eqb_eq, Hst|].
    exfalso. unfold EnrollmentChecks.active_duplicate in Hdup.
    assert (Hex : existsb (fun r0 =>
               EnrollmentChecks.same_student (EnrollmentChecks.student a) r0
               && (Courses.id (Enrollments.course r0)
                   =? Courses.id (EnrollmentChecks.course a))
               && negb (String.eqb (Enrollments.status r0) "CANCELLED")) t
             = true); [|congruence].
    apply existsb_exists. exists r. split; [exact Hin|].
    unfold Enrollments.same_pair in Hpair. cbn in Hpair.
    unfold EnrollmentChecks.same_student. rewrite Hpair, Hst. reflexivity.
Qed.

(** X10 on the sample: [omar], who completed "Algebra", is enrolled in
    "Calculus". *)
Lemma accepted_enrollment_is_saved_witness :
  Enrollments.clean (EnrollmentChecks.to_enrollment Samples.omar_request)
    Samples.enrollment_rows = Py.Return tt
  /\ exists stored,
       Enrollments.save (EnrollmentChecks.to_enrollment Samples.omar_request)
         Samples.enrollment_rows
       = (Py.Return stored, (Samples.enrollment_rows ++ [stored])%list)
       /\ Enrollments.pk stored = Some 4
       /\ Enrollments.status stored = "IN_PROGRESS".
Proof.
  destruct (accepted_enrollment_is_saved Samples.omar_request
              Samples.omar_request Samples.omar Samples.catalog
              Samples.enrollment_rows eq_refl eq_refl) as (Hclean & Hsave & _).
  split; [exact Hclean|].
  eexists. split; [exact Hsave|]. split; reflexivity.
Defined.

End EnrollmentCreation.

(** ** payments: balances and summaries *)

Module PaymentQueriesFacts.

Lemma total_positive (rows : list Payments.Payment) :
  Forall (fun p => 0 < Payments.amount p) rows -> 0 <= Payments.total rows.
Proof.
  unfold Payments.total. induction 1 as [|x rows Hx _ IH]; simpl; lia.
Qed.

Lemma filter_positive (f : Payments.Payment -> bool)
    (rows : list Payments.Payment) :
  Forall (fun p => 0 < Payments.amount p) rows ->
  Forall (fun p => 0 < Payments.amount p) (List.filter f rows).
Proof.
  rewrite !List.Forall_forall. intros H p Hp.
  apply filter_In in Hp as [Hp _]. apply H, Hp.
Qed.

Lemma filter_andb {A : Type} (f g : A -> bool) (l : list A) :
  List.filter (fun x => f x && g x) l = List.filter g (List.filter f l).
Proof.
  induction l as [|x l IH]; simpl; [reflexivity|].
  destruct (f x); simpl; [destruct (g x)|]; rewrite IH; reflexivity.
Qed.

Lemma filter_nothing {A : Type} (f : A -> bool) (l : list A) :
  (forall x, In x l -> f x = false) -> List.filter f l = [].
Proof.
  induction l as [|x l IH]; intros H; simpl; [reflexivity|].
  rewrite (H x (or_introl eq_refl)). apply IH.
  intros y Hy. apply H. right. exact Hy.
Qed.

(** The key under which a stored enrollment is found is its own. *)
Lemma found_key (k : Z) (es : Enrollments.table) (e : Enrollments.Enrollment) :
  find (Enrollments.has_pk k) es = Some e -> Enrollments.pk e = Some k.
Proof.
  intros H. apply find_some in H as [_ H].
  unfold Enrollments.has_pk in H. apply bool_decide_eq_true_1 in H. exact H.
Qed.

Lemma total_paid_bounds (k : Z) (e : Enrollments.Enrollment)
    (st : Payments.state) :
  Payments.within_price st ->
  find (Enrollments.has_pk k) (Payments.enrollments st) = Some e ->
  0 <= Payments.get_total_paid_for_enrollment e st
       <= Courses.price (Enrollments.course e).
Proof.
  intros (_ & Hpos & Hsum) Hfind.
  unfold Payments.get_total_paid_for_enrollment.
  rewrite (found_key k _ e Hfind). split.
  - apply total_positive, filter_positive, Hpos.
  - apply (Hsum k e Hfind).
Qed.

(** For a new payment nothing is excluded from the existing payments. *)
Lemma existing_of_new (self : Payments.Payment) (e : Enrollments.Enrollment)
    (st : Payments.state) :
  Payments.pk self = None ->
  Payments.total (Payments.existing_payments self e st)
  = Payments.get_total_paid_for_enrollment e st.
Proof.
  intros Hpk. unfold Payments.get_total_paid_for_enrollment.
  rewrite PaymentsFacts.existing_all; [reflexivity|].
  intros p _. unfold Payments.other_than. rewrite Hpk.
  apply negb_true_iff, bool_decide_eq_false. intros [[? ?] _]. discriminate.
Qed.

(** The totals by method over a list of choices with distinct codes. *)
Lemma method_totals_sum (choices : list (string * string))
    (q : list Payments.Payment) :
  List.NoDup (map fst choices) ->
  Forall (fun p => 0 < Payments.amount p) q ->
  PaymentQueries.sum_values (PaymentQueries.method_totals choices q)
  = Payments.total
      (List.filter (fun p => bool_decide
                      (Payments.payment_method p ∈ map fst choices)) q).
Proof.
  intros Hnd Hpos. induction choices as [|[code label] rest IH].
  - simpl. rewrite filter_nothing; reflexivity.
  - simpl in Hnd. apply NoDup_cons_iff in Hnd as [Hcode Hnd].
    specialize (IH Hnd). cbn [PaymentQueries.method_totals].
    assert (Hsplit :
      Payments.total
        (List.filter (fun p => bool_decide
           (Payments.payment_method p ∈ map fst ((code, label) :: rest))) q)
      = Payments.total (List.filter (PaymentQueries.has_method code) q)
        + Payments.total
            (List.filter (fun p => bool_decide
               (Payments.payment_method p ∈ map fst rest)) q)).
    { clear IH Hpos. cbn [map fst].
      induction q as [|p q IHq]; [reflexivity|].
      cbn [List.filter].
      unfold PaymentQueries.has_method at 1.
      destruct (String.eqb (Payments.payment_method p) code) eqn:Hm.
      - apply String.eqb_eq in Hm.
        assert (H1 : bool_decide (Payments.payment_method p ∈ code :: map fst rest)
                     = true)
          by (apply bool_decide_eq_true_2; rewrite Hm; apply list_elem_of_here).
        assert (H2 : bool_decide (Payments.payment_method p ∈ map fst rest)
                     = false).
        { apply bool_decide_eq_false. rewrite Hm, list_elem_of_In. exact Hcode. }
        rewrite H1, H2. unfold Payments.total in *. simpl. lia.
      - apply String.eqb_neq in Hm.
        assert (H1 : bool_decide (Payments.payment_method p ∈ code :: map fst rest)
                     = bool_decide (Payments.payment_method p ∈ map fst rest)).
        { apply bool_decide_ext. rewrite elem_of_cons. intuition. }
        rewrite H1.
        destruct (bool_decide (Payments.payment_method p ∈ map fst rest));
          [|exact IHq].
        unfold Payments.total in *. simpl. lia. }
    rewrite Hsplit, <- IH.
    pose proof (total_positive _
                  (filter_positive (PaymentQueries.has_method code) q Hpos)) as H0.
    destruct (0 <? Payments.total (List.filter (PaymentQueries.has_method code) q))
      eqn:Hgt.
    + unfold PaymentQueries.sum_values. simpl. reflexivity.
    + apply Z.ltb_ge in Hgt. lia.
Qed.

Lemma method_totals_positive (choices : list (string * string))
    (q : list Payments.Payment) (method : string) (amount : Z) :
  In (method, amount) (PaymentQueries.method_totals choices q) ->
  0 < amount
  /\ In method (map fst choices)
  /\ amount = Payments.total (List.filter (PaymentQueries.has_method method) q).
Proof.
  induction choices as [|[code label] rest IH]; [intros []|].
  cbn [PaymentQueries.method_totals].
  destruct (0 <? _) eqn:Hgt.
  - intros [[= <- <-]|Hin].
    + apply Z.ltb_lt in Hgt. simpl. auto.
    + destruct (IH Hin) as (? & ? & ?). simpl. auto.
  - intros Hin. destruct (IH Hin) as (? & ? & ?). simpl. auto.
Qed.

Lemma total_filter_below (f : Payments.Payment -> bool)
    (rows : list Payments.Payment) :
  Forall (fun p => 0 < Payments.amount p) rows ->
  Payments.total (List.filter f rows) <= Payments.total rows.
Proof.
  unfold Payments.total.
  induction 1 as [|x rows Hx _ IH]; simpl; [lia|].
  destruct (f x); simpl; lia.
Qed.

End PaymentQueriesFacts.

Module PaymentQueriesProperties.

(** X11.  In a database within price, the outstanding balance of a stored
    enrollment lies between zero and the course price, the enrollment is
    fully paid exactly when the payments add up to the price, and
    [Enrollment.get_payment_summary] reports the same outstanding balance
    and the same fully-paid flag as the [Payment] class methods. *)
Theorem balances_within_price (k : Z) (e : Enrollments.Enrollment)
    (st : Payments.state) :
  Payments.within_price st ->
  find (Enrollments.has_pk k) (Payments.enrollments st) = Some e ->
  0 <= Payments.get_outstanding_balance e st
       <= Courses.price (Enrollments.course e)
  /\ (PaymentQueries.is_enrollment_fully_paid e st = true
      <-> Payments.get_total_paid_for_enrollment e st
          = Courses.price (Enrollments.course e))
  /\ PaymentQueries.outstanding_balance (PaymentQueries.get_payment_summary e st)
     = Payments.get_outstanding_balance e st
  /\ PaymentQueries.is_fully_paid (PaymentQueries.get_payment_summary e st)
     = PaymentQueries.is_enrollment_fully_paid e st
  /\ PaymentQueries.total_paid (PaymentQueries.get_payment_summary e st)
     = Payments.get_total_paid_for_enrollment e st.
Proof.
  intros Hinv Hfind.
  pose proof (PaymentQueriesFacts.total_paid_bounds k e st Hinv Hfind) as Hb.
  unfold PaymentQueries.is_enrollment_fully_paid,
    PaymentQueries.get_payment_summary, Payments.get_outstanding_balance in *.
  cbn [PaymentQueries.outstanding_balance PaymentQueries.is_fully_paid
       PaymentQueries.total_paid].
  unfold Payments.get_total_paid_for_enrollment in *.
  split; [lia|]. split; [rewrite Z.leb_le; lia|].
  split; [lia|]. split; reflexivity.
Qed.

(** X11 on the sample ledger: 800.00 paid of 1000.00. *)
Lemma balances_within_price_witness :
  0 <= Payments.get_outstanding_balance Samples.running_row Samples.ledger
       <= 100000
  /\ Payments.get_outstanding_balance Samples.running_row Samples.ledger = 20000
  /\ PaymentQueries.is_enrollment_fully_paid Samples.running_row Samples.ledger
     = false.
Proof.
  assert (Hinv : Payments.within_price Samples.ledger).
  { split; [|split].
    - simpl. repeat constructor. intros [].
    - repeat constructor.
    - intros k e. simpl. unfold Enrollments.has_pk. simpl.
      case_bool_decide as Hk; [|discriminate].
      injection Hk as <-. intros [= <-]. vm_compute. discriminate. }
  destruct (balances_within_price 1 Samples.running_row Samples.ledger
              Hinv eq_refl) as (Hb & _).
  split; [exact Hb|]. split; reflexivity.
Defined.

(** X12.  In a database within price, the remaining balance shown with a
    payment (the price less what was paid up to the date of that payment)
    is at least the outstanding balance of the enrollment and at most the
    course price. *)
Theorem remaining_balance_bounds (self : Payments.Payment)
    (e : Enrollments.Enrollment) (st : Payments.state) :
  Payments.within_price st ->
  Payments.related_enrollment self st = Py.Return e ->
  exists remaining,
    PaymentQueries.get_remaining_balance self st = Py.Return remaining
    /\ Payments.get_outstanding_balance e st <= remaining
       <= Courses.price (Enrollments.course e).
Proof.
  intros Hinv He.
  destruct (PaymentsFacts.related_enrollment_key self st e He)
    as (k & _ & _ & Hfind).
  destruct Hinv as (Hnd & Hpos & Hsum).
  unfold PaymentQueries.get_remaining_balance. rewrite He. simpl.
  eexists. split; [reflexivity|].
  rewrite PaymentQueriesFacts.filter_andb.
  unfold Payments.get_outstanding_balance, Payments.get_total_paid_for_enrollment.
  pose proof (PaymentQueriesFacts.total_filter_below
                (fun p => PaymentQueries.date_leb (Payments.payment_date p)
                            (Payments.payment_date self)) _
                (PaymentQueriesFacts.filter_positive
                   (Payments.of_enrollment (Enrollments.pk e)) _ Hpos)) as Hle.
  pose proof (PaymentQueriesFacts.total_positive _
                (PaymentQueriesFacts.filter_positive
                   (fun p => PaymentQueries.date_leb (Payments.payment_date p)
                               (Payments.payment_date self)) _
                   (PaymentQueriesFacts.filter_positive
                      (Payments.of_enrollment (Enrollments.pk e)) _ Hpos))) as H0.
  lia.
Qed.

(** X12 on the sample ledger, for the stored payment of 800.00. *)
Lemma remaining_balance_bounds_witness :
  exists remaining,
    PaymentQueries.get_remaining_balance Samples.first_payment Samples.ledger
    = Py.Return remaining
    /\ 20000 <= remaining <= 100000.
Proof.
  assert (Hinv : Payments.within_price Samples.ledger).
  { split; [|split].
    - simpl. repeat constructor. intros [].
    - repeat constructor.
    - intros k e. simpl. unfold Enrollments.has_pk. simpl.
      case_bool_decide as Hk; [|discriminate].
      injection Hk as <-. intros [= <-]. vm_compute. discriminate. }
  exact (remaining_balance_bounds Samples.first_payment Samples.running_row
           Samples.ledger Hinv eq_refl).
Defined.

End PaymentQueriesProperties.

(** ** payments: revenue and student summaries *)

Module RevenueFacts.

Lemma choices_distinct :
  List.NoDup (map fst PaymentQueries.PAYMENT_METHOD_CHOICES).
Proof.
  simpl. repeat constructor; simpl; intuition discriminate.
Qed.

(** The loop of [get_student_payment_summary], from any accumulators. *)
Lemma tally_spec (es : list Enrollments.Enrollment) (st : Payments.state)
    (fees paid : Z) (full partial unpaid : nat) :
  let '(fees', paid', full', partial', unpaid') :=
    PaymentQueries.tally es st fees paid full partial unpaid in
  fees' = fees + PaymentQueries.sum_over
                   (fun e => Courses.price (Enrollments.course e)) es
  /\ paid' = paid + PaymentQueries.sum_over
                      (fun e => Payments.get_total_paid_for_enrollment e st) es
  /\ (full' + partial' + unpaid' = full + partial + unpaid + length es)%nat
  /\ full' = (full + length (List.filter
                (fun e => PaymentQueries.is_enrollment_fully_paid e st) es))%nat
  /\ (full <= full')%nat /\ (partial <= partial')%nat /\ (unpaid <= unpaid')%nat.
Proof.
  revert fees paid full partial unpaid.
  induction es as [|e es IH]; intros fees paid full partial unpaid.
  - simpl. unfold PaymentQueries.sum_over. simpl. repeat split; lia.
  - cbn [PaymentQueries.tally List.filter].
    unfold PaymentQueries.is_enrollment_fully_paid at 1.
    unfold Payments.get_outstanding_balance.
    assert (Hsame :
      (Courses.price (Enrollments.course e)
         - Payments.get_total_paid_for_enrollment e st <=? 0)
      = (Courses.price (Enrollments.course e)
         <=? Payments.get_total_paid_for_enrollment e st)).
    { destruct (_ <=? Payments.get_total_paid_for_enrollment e st) eqn:E.
      - apply Z.leb_le in E. apply Z.leb_le. lia.
      - apply Z.leb_gt in E. apply Z.leb_gt. lia. }
    rewrite Hsame.
    destruct (_ <=? Payments.get_total_paid_for_enrollment e st);
      [|destruct (0 <? _)].
    all: match goal with
         | |- context [PaymentQueries.tally ?l ?s ?f ?p ?a ?b ?c] =>
             specialize (IH f p a b c);
             destruct (PaymentQueries.tally l s f p a b c)
               as [[[[fees' paid'] full'] partial'] unpaid']
         end.
    all: destruct IH as (H1 & H2 & H3 & H4 & H5 & H6 & H7).
    all: unfold PaymentQueries.sum_over in *; cbn [map fold_right length].
    all: repeat split; lia.
Qed.

Lemma sum_over_minus (f g : Enrollments.Enrollment -> Z)
    (es : list Enrollments.Enrollment) :
  PaymentQueries.sum_over f es - PaymentQueries.sum_over g es
  = PaymentQueries.sum_over (fun e => f e - g e) es.
Proof.
  unfold PaymentQueries.sum_over.
  induction es as [|e es IH]; simpl; lia.
Qed.

End RevenueFacts.

Module RevenueProperties.

(** X14.  When every stored amount is positive, the entries of [by_method]
    in [Payment.get_revenue_summary] are positive totals of listed methods
    and add up to at most [total_revenue]; they add up to exactly
    [total_revenue] when every payment of the date range has one of the six
    listed methods.  (A payment saved with another method counts towards
    [total_revenue] and towards no entry of [by_method].) *)
Theorem revenue_by_method_adds_up (start_date end_date : option Py.date)
    (st : Payments.state) :
  Forall (fun p => 0 < Payments.amount p) (Payments.payments st) ->
  let r := PaymentQueries.get_revenue_summary start_date end_date st in
  PaymentQueries.sum_values (PaymentQueries.by_method r)
    <= PaymentQueries.total_revenue r
  /\ ((forall p, In p (Payments.payments st) ->
         PaymentQueries.in_range start_date end_date p = true ->
         In (Payments.payment_method p)
            (map fst PaymentQueries.PAYMENT_METHOD_CHOICES)) ->
      PaymentQueries.sum_values (PaymentQueries.by_method r)
      = PaymentQueries.total_revenue r)
  /\ (forall method amount,
        In (method, amount) (PaymentQueries.by_method r) ->
        0 < amount <= PaymentQueries.total_revenue r
        /\ In method (map fst PaymentQueries.PAYMENT_METHOD_CHOICES)).
Proof.
  intros Hpos r. subst r. unfold PaymentQueries.get_revenue_summary.
  cbn [PaymentQueries.by_method PaymentQueries.total_revenue].
  set (q := List.filter (PaymentQueries.in_range start_date end_date)
              (Payments.payments st)).
  assert (Hq : Forall (fun p => 0 < Payments.amount p) q)
    by apply PaymentQueriesFacts.filter_positive, Hpos.
  rewrite (PaymentQueriesFacts.method_totals_sum _ q
             RevenueFacts.choices_distinct Hq).
  split; [apply PaymentQueriesFacts.total_filter_below, Hq|].
  split.
  - intros Hall. f_equal. apply PaymentsFacts.filter_all.
    intros p Hp. apply bool_decide_eq_true_2. rewrite list_elem_of_In.
    subst q. apply filter_In in Hp as [Hp Hr]. apply Hall; assumption.
  - intros method amount Hin.
    destruct (PaymentQueriesFacts.method_totals_positive _ _ _ _ Hin)
      as (H0 & Hm & ->).
    split; [split; [exact H0|]|exact Hm].
    apply PaymentQueriesFacts.total_filter_below, Hq.
Qed.

(** X14 on the sample ledger: one cash payment of 800.00. *)
Lemma revenue_by_method_adds_up_witness :
  PaymentQueries.sum_values
    (PaymentQueries.by_method
       (PaymentQueries.get_revenue_summary None None Samples.ledger))
  <= PaymentQueries.total_revenue
       (PaymentQueries.get_revenue_summary None None Samples.ledger).
Proof.
  assert (Hpos : Forall (fun p => 0 < Payments.amount p)
                   (Payments.payments Samples.ledger))
    by (repeat constructor).
  exact (proj1 (revenue_by_method_adds_up None None Samples.ledger Hpos)).
Defined.

(** X15.  In [get_student_payment_summary] the three counts (fully paid,
    partially paid, unpaid) add up to the number of the student's
    enrollments, the fully paid count is the number of enrollments for
    which [Payment.is_enrollment_fully_paid] holds, and
    [total_outstanding] is the sum of the outstanding balances of those
    enrollments. *)
Theorem student_summary_adds_up (student : Accounts.User)
    (st : Payments.state) :
  let s := PaymentQueries.get_student_payment_summary student st in
  let es := List.filter (EnrollmentChecks.same_student student)
              (Payments.enrollments st) in
  (PaymentQueries.fully_paid_enrollments s
   + PaymentQueries.partially_paid_enrollments s
   + PaymentQueries.unpaid_enrollments s
   = PaymentQueries.total_enrollments s)%nat
  /\ PaymentQueries.fully_paid_enrollments s
     = length (List.filter
                 (fun e => PaymentQueries.is_enrollment_fully_paid e st) es)
  /\ PaymentQueries.total_outstanding s
     = PaymentQueries.sum_over
         (fun e => Payments.get_outstanding_balance e st) es.
Proof.
  intros s es. subst s. unfold PaymentQueries.get_student_payment_summary.
  fold es.
  pose proof (RevenueFacts.tally_spec es st 0 0 0%nat 0%nat 0%nat) as H.
  destruct (PaymentQueries.tally es st 0 0 0%nat 0%nat 0%nat)
    as [[[[fees paid] full] partial] unpaid].
  destruct H as (H1 & H2 & H3 & H4 & _).
  cbn [PaymentQueries.fully_paid_enrollments
       PaymentQueries.partially_paid_enrollments
       PaymentQueries.unpaid_enrollments PaymentQueries.total_enrollments
       PaymentQueries.total_outstanding].
  split; [lia|]. split; [lia|].
  unfold Payments.get_outstanding_balance.
  rewrite <- RevenueFacts.sum_over_minus. lia.
Qed.

End RevenueProperties.

(** ** payments: reconciliation *)

Module PaymentReportsFacts.

Lemma insert_by_date_total (p : Payments.Payment) (l : list Payments.Payment) :
  Payments.total (PaymentReports.insert_by_date p l)
  = Payments.amount p + Payments.total l.
Proof.
  unfold Payments.total. induction l as [|q l IH]; simpl; [reflexivity|].
  destruct (Py.date_ltb _ _); simpl; lia.
Qed.

Lemma insert_by_date_length (p : Payments.Payment) (l : list Payments.Payment) :
  length (PaymentReports.insert_by_date p l) = S (length l).
Proof.
  induction l as [|q l IH]; simpl; [reflexivity|].
  destruct (Py.date_ltb _ _); simpl; [reflexivity|]. rewrite IH. reflexivity.
Qed.

Lemma insert_by_date_In (x p : Payments.Payment) (l : list Payments.Payment) :
  In x (PaymentReports.insert_by_date p l) <-> x = p \/ In x l.
Proof.
  induction l as [|q l IH]; simpl; [intuition|].
  destruct (Py.date_ltb _ _); simpl; [intuition|]. rewrite IH. intuition.
Qed.

(** Ordering keeps the sum, the number and the members of the rows. *)
Lemma order_by_payment_date_spec (rows : list Payments.Payment) :
  Payments.total (PaymentReports.order_by_payment_date rows)
  = Payments.total rows
  /\ length (PaymentReports.order_by_payment_date rows) = length rows
  /\ forall x, In x (PaymentReports.order_by_payment_date rows) <-> In x rows.
Proof.
  unfold PaymentReports.order_by_payment_date.
  assert (H : forall acc,
    Payments.total (fold_left (fun sorted p => PaymentReports.insert_by_date p sorted)
                      rows acc)
    = Payments.total acc + Payments.total rows
    /\ length (fold_left (fun sorted p => PaymentReports.insert_by_date p sorted)
                 rows acc)
       = (length acc + length rows)%nat
    /\ forall x,
         In x (fold_left (fun sorted p => PaymentReports.insert_by_date p sorted)
                 rows acc)
         <-> In x acc \/ In x rows).
  { induction rows as [|p rows IH]; intros acc.
    - simpl. unfold Payments.total at 3. simpl.
      repeat split; try lia; intuition.
    - cbn [fold_left]. destruct (IH (PaymentReports.insert_by_date p acc))
        as (H1 & H2 & H3).
      rewrite H1, H2, insert_by_date_total, insert_by_date_length.
      split; [unfold Payments.total; simpl; lia|].
      split; [simpl; lia|].
      intros x. rewrite H3, insert_by_date_In. simpl. intuition. }
  destruct (H []) as (H1 & H2 & H3).
  split; [rewrite H1; unfold Payments.total; simpl; lia|].
  split; [exact H2|]. intros x. rewrite H3. simpl. intuition.
Qed.

Lemma last_cons {A : Type} (x : A) (l : list A) (d : A) :
  List.last (x :: l) d = List.last l x.
Proof.
  revert x d. induction l as [|y l IH]; intros x d; [reflexivity|].
  change (List.last (y :: l) d = List.last (y :: l) x).
  rewrite (IH y d), (IH y x). reflexivity.
Qed.

(** The loop of the report: one detail per payment, each balance the one
    before less the amount, ending at the starting balance less the sum. *)
Lemma replay_spec (payments : list Payments.Payment) (balance : Z) :
  snd (PaymentReports.replay payments balance)
  = balance - Payments.total payments
  /\ length (fst (PaymentReports.replay payments balance)) = length payments
  /\ List.last (map PaymentReports.balance_after
                  (fst (PaymentReports.replay payments balance))) balance
     = balance - Payments.total payments
  /\ (Forall (fun p => 0 < Payments.amount p) payments ->
      Forall (fun d => balance - Payments.total payments
                       <= PaymentReports.balance_after d < balance)
        (fst (PaymentReports.replay payments balance))).
Proof.
  revert balance. induction payments as [|p payments IH]; intros balance.
  - unfold Payments.total. simpl. repeat split; try lia. intros _. constructor.
  - cbn [PaymentReports.replay].
    specialize (IH (balance - Payments.amount p)).
    destruct (PaymentReports.replay payments (balance - Payments.amount p))
      as [details final].
    cbn [fst snd] in *. destruct IH as (H1 & H2 & H3 & H4).
    assert (Ht : Payments.total (p :: payments)
                 = Payments.amount p + Payments.total payments)
      by reflexivity.
    rewrite Ht. split; [lia|]. split; [simpl; lia|]. split.
    + cbn [map PaymentReports.balance_after]. rewrite last_cons, H3. lia.
    + intros Hpos. inversion Hpos as [|? ? Hp Hrest]; subst.
      pose proof (PaymentQueriesFacts.total_positive _ Hrest) as H0.
      constructor.
      * cbn [PaymentReports.balance_after]. lia.
      * specialize (H4 Hrest). rewrite List.Forall_forall in *.
        intros d Hd. specialize (H4 d Hd). lia.
Qed.

End PaymentReportsFacts.

Module PaymentReportsProperties.

(** X16.  [reconcile_enrollment_payments] never reports a discrepancy:
    [is_reconciled] is always true and [discrepancy] zero, whatever the
    payments.  The report's total and outstanding amounts are those of
    [Payment.get_total_paid_for_enrollment] and
    [Payment.get_outstanding_balance], it lists one detail per payment, and
    the balance after the last payment is the outstanding amount. *)
Theorem reconciliation_never_fails (enrollment : Enrollments.Enrollment)
    (st : Payments.state) :
  let r := PaymentReports.reconcile_enrollment_payments enrollment st in
  PaymentReports.is_reconciled r = true
  /\ PaymentReports.discrepancy r = 0
  /\ PaymentReports.report_total_paid r
     = Payments.get_total_paid_for_enrollment enrollment st
  /\ PaymentReports.report_outstanding r
     = Payments.get_outstanding_balance enrollment st
  /\ length (PaymentReports.report_payments r)
     = PaymentReports.report_payment_count r
  /\ List.last (map PaymentReports.balance_after
                  (PaymentReports.report_payments r))
       (PaymentReports.report_course_price r)
     = PaymentReports.report_outstanding r.
Proof.
  intros r. subst r. unfold PaymentReports.reconcile_enrollment_payments.
  set (rows := List.filter
                 (Payments.of_enrollment (Enrollments.pk enrollment))
                 (Payments.payments st)).
  destruct (PaymentReportsFacts.order_by_payment_date_spec rows)
    as (Htotal & Hlen & _).
  destruct (PaymentReportsFacts.replay_spec
              (PaymentReports.order_by_payment_date rows)
              (Courses.price (Enrollments.course enrollment)))
    as (Hfinal & Hdetails & Hlast & _).
  destruct (PaymentReports.replay _ _) as [details final].
  cbn [fst snd] in *.
  cbn [PaymentReports.is_reconciled PaymentReports.discrepancy
       PaymentReports.report_total_paid PaymentReports.report_outstanding
       PaymentReports.report_payments PaymentReports.report_payment_count
       PaymentReports.report_course_price].
  unfold Payments.get_outstanding_balance,
    Payments.get_total_paid_for_enrollment. fold rows.
  assert (Hrec : (Z.abs (Courses.price (Enrollments.course enrollment)
                         - Payments.total
                             (PaymentReports.order_by_payment_date rows)
                         - final) <? 1) = true)
    by (apply Z.ltb_lt; lia).
  rewrite Hrec.
  repeat split; try reflexivity; try lia.
Qed.

End PaymentReportsProperties.

(** ** payments: the create serializer *)

Module BulkProperties.

(** X18.  For a new payment of a stored enrollment, the amount, date and
    cross-field checks of [PaymentCreateSerializer] accept exactly the
    fields for which [Payment.clean] accepts the payment [create] builds;
    so [Payment.save] after a successful validation either stores the
    payment or raises [IntegrityError] for a receipt number already in
    use. *)
Theorem create_serializer_agrees_with_clean (a : Payments.attrs)
    (payment_method notes : string) (received_by : option Accounts.User)
    (today : Py.date) (st : Payments.state) (k : Z) :
  find (Enrollments.has_pk k) (Payments.enrollments st)
    = Some (Payments.attrs_enrollment a) ->
  let payment := PaymentReports.to_payment a payment_method notes received_by in
  ((PaymentReports.validate_amount (Payments.attrs_amount a)
      = Py.Return (Payments.attrs_amount a)
    /\ PaymentReports.validate_payment_date (Payments.attrs_payment_date a)
         today = Py.Return (Payments.attrs_payment_date a)
    /\ Payments.PaymentCreateSerializer_validate a st = Py.Return a)
   <-> Payments.clean payment today st = Py.Return tt)
  /\ (Payments.clean payment today st = Py.Return tt ->
      (exists saved, fst (Payments.save payment today st) = Py.Return saved)
      \/ fst (Payments.save payment today st)
         = Py.Raise (Py.IntegrityError "payments_payment.receipt_number")).
Proof.
  intros Hfind payment.
  assert (Hrel : forall r,
    Payments.related_enrollment
      (Payments.mkPayment None (Enrollments.pk (Payments.attrs_enrollment a))
         (Payments.attrs_amount a) (Payments.attrs_payment_date a)
         payment_method r received_by notes) st
    = Py.Return (Payments.attrs_enrollment a)).
  { intros r. unfold Payments.related_enrollment. cbn [Payments.enrollment_id].
    rewrite (PaymentQueriesFacts.found_key k _ _ Hfind), Hfind. reflexivity. }
  assert (Hclean : forall r,
    Payments.clean
      (Payments.mkPayment None (Enrollments.pk (Payments.attrs_enrollment a))
         (Payments.attrs_amount a) (Payments.attrs_payment_date a)
         payment_method r received_by notes) today st
    = Payments.clean payment today st).
  { intros r. unfold Payments.clean. rewrite Hrel.
    subst payment. unfold PaymentReports.to_payment. rewrite Hrel.
    cbn [Py.bind Payments.amount Payments.payment_date].
    rewrite !PaymentQueriesFacts.existing_of_new by reflexivity.
    reflexivity. }
  split.
  - unfold Payments.clean. subst payment. unfold PaymentReports.to_payment.
    rewrite Hrel. cbn [Py.bind Payments.amount Payments.payment_date].
    rewrite PaymentQueriesFacts.existing_of_new by reflexivity.
    unfold PaymentReports.validate_amount,
      PaymentReports.validate_payment_date,
      Payments.PaymentCreateSerializer_validate.
    destruct (Payments.attrs_amount a <=? 0);
      [split; [intros (? & _); discriminate|discriminate]|].
    destruct (Courses.price _ <? _);
      [destruct (Py.date_ltb (Payments.attrs_payment_date a) _);
       split; [intros (_ & _ & ?); discriminate|discriminate
              |intros (_ & _ & ?); discriminate|discriminate]|].
    destruct (Py.date_ltb (Payments.attrs_payment_date a) _);
      [split; [intros (_ & _ & ?); discriminate|discriminate]|].
    destruct (Py.date_ltb today _);
      [split; [intros (_ & ? & _); discriminate|discriminate]|].
    split; auto.
  - intros Hok. unfold Payments.save.
    assert (Hnew :
      negb (bool_decide (is_Some (Payments.pk payment)))
      && Payments.lacks_receipt_number payment = true).
    { apply andb_true_iff. split; [|reflexivity].
      apply negb_true_iff, bool_decide_eq_false. intros [? ?]. discriminate. }
    rewrite Hnew.
    change (Payments.with_receipt_number
              (Payments.generate_receipt_number today st) payment)
      with (Payments.mkPayment None
              (Enrollments.pk (Payments.attrs_enrollment a))
              (Payments.attrs_amount a) (Payments.attrs_payment_date a)
              payment_method
              (Some (Payments.generate_receipt_number today st))
              received_by notes).
    rewrite Hclean, Hok.
    destruct (Payments.violates_unique _ st); [right; reflexivity|].
    left. destruct (Payments.write _ _) as [self2 rows]. eauto.
Qed.

(** X18 on the empty ledger: 200.00 paid on 10 March 2025. *)
Lemma create_serializer_agrees_with_clean_witness :
  Payments.clean
    (PaymentReports.to_payment
       (Payments.mkAttrs Samples.running_row 20000 Samples.march_tenth)
       "CASH" "" (Some Samples.registrar))
    Samples.march_tenth Samples.empty_ledger = Py.Return tt.
Proof.
  apply (proj1 (create_serializer_agrees_with_clean
                  (Payments.mkAttrs Samples.running_row 20000
                     Samples.march_tenth)
                  "CASH" "" (Some Samples.registrar) Samples.march_tenth
                  Samples.empty_ledger 1 eq_refl)).
  repeat split.
Defined.

End BulkProperties.

(** ** certifications: the table under [save] and [toggle_public] *)

Module CertificateFacts.

Lemma certificate_next_pk_above (t : Certifications.table)
    (c : Certifications.Certificate)
    (k : Z) :
  In c t -> Certifications.pk c = Some k -> k < Certifications.next_pk t.
Proof.
  unfold Certifications.next_pk. induction t as [|x t IH]; intros Hin Hk;
    [destruct Hin|].
  destruct Hin as [->|Hin].
  - simpl. rewrite Hk. simpl.
    match goal with |- context [Z.max k ?m] => pose proof (Z.le_max_l k m) end.
    lia.
  - specialize (IH Hin Hk). simpl.
    destruct (Certifications.pk x) as [j|]; simpl; [|exact IH].
    match goal with |- context [Z.max j ?m] => pose proof (Z.le_max_r j m) end.
    unfold omap in IH. lia.
Qed.

Lemma certificate_next_pk_fresh (t : Certifications.table)
    (c : Certifications.Certificate) :
  In c t -> Certifications.pk c <> Some (Certifications.next_pk t).
Proof.
  intros Hin Hk. pose proof (certificate_next_pk_above t c _ Hin Hk). lia.
Qed.

Lemma has_pk_true (k : Z) (c : Certifications.Certificate) :
  Certifications.has_pk k c = true <-> Certifications.pk c = Some k.
Proof. unfold Certifications.has_pk. apply bool_decide_eq_true. Qed.

Lemma has_pk_false (k : Z) (c : Certifications.Certificate) :
  Certifications.has_pk k c = false <-> Certifications.pk c <> Some k.
Proof. unfold Certifications.has_pk. apply bool_decide_eq_false. Qed.

Lemma certificate_absent_key (k : Z) (t : Certifications.table)
    (c : Certifications.Certificate) :
  existsb (Certifications.has_pk k) t = false ->
  In c t -> Certifications.pk c <> Some k.
Proof.
  intros Hex Hin Hk.
  assert (existsb (Certifications.has_pk k) t = true); [|congruence].
  apply existsb_exists. exists c. split; [exact Hin|]. apply has_pk_true, Hk.
Qed.

(** Overwriting the row of key [k]. *)
Lemma replace_absent (k : Z) (self : Certifications.Certificate)
    (t : Certifications.table) :
  (forall r, In r t -> Certifications.pk r <> Some k) ->
  map (fun r => if Certifications.has_pk k r then self else r) t = t.
Proof.
  induction t as [|r t IH]; intros H; simpl; [reflexivity|].
  rewrite (proj2 (has_pk_false k r) (H r (or_introl eq_refl))), IH;
    [reflexivity|].
  intros r' Hr'. apply H. right. exact Hr'.
Qed.

Lemma certificate_replace_keys (k : Z) (self : Certifications.Certificate)
    (t : Certifications.table) :
  Certifications.pk self = Some k ->
  map Certifications.pk
    (map (fun r => if Certifications.has_pk k r then self else r) t)
  = map Certifications.pk t.
Proof.
  intros Hk. induction t as [|r t IH]; simpl; [reflexivity|].
  rewrite IH. f_equal. destruct (Certifications.has_pk k r) eqn:E;
    [|reflexivity].
  apply has_pk_true in E. congruence.
Qed.

Lemma replace_members (k : Z) (self x : Certifications.Certificate)
    (t : Certifications.table) :
  In x (map (fun r => if Certifications.has_pk k r then self else r) t) ->
  x = self \/ (In x t /\ Certifications.pk x <> Some k).
Proof.
  intros Hin. apply in_map_iff in Hin as (r & Hr & Hin).
  destruct (Certifications.has_pk k r) eqn:E; [left; auto|].
  right. subst x. split; [exact Hin|]. apply has_pk_false, E.
Qed.

Lemma replace_distinct {B : Type} (f : Certifications.Certificate -> B)
    (k : Z) (self : Certifications.Certificate) (t : Certifications.table) :
  List.NoDup (map Certifications.pk t) ->
  List.NoDup (map f t) ->
  (forall r, In r t -> Certifications.pk r <> Some k -> f r <> f self) ->
  List.NoDup (map f (map (fun r => if Certifications.has_pk k r then self else r) t)).
Proof.
  induction t as [|r t IH]; intros Hkeys Hf Hother; [constructor|].
  simpl in Hkeys, Hf. apply NoDup_cons_iff in Hkeys as [Hk Hkeys].
  apply NoDup_cons_iff in Hf as [Hr Hf].
  cbn [map]. destruct (Certifications.has_pk k r) eqn:E.
  - apply has_pk_true in E.
    assert (Hrest : forall r', In r' t -> Certifications.pk r' <> Some k).
    { intros r' Hr' Hk'. apply Hk. rewrite E, <- Hk'. apply in_map, Hr'. }
    rewrite (replace_absent k self t Hrest). constructor; [|exact Hf].
    intros Hin. apply in_map_iff in Hin as (r' & Heq & Hr').
    apply (Hother r' (or_intror Hr') (Hrest r' Hr')). exact Heq.
  - apply has_pk_false in E. constructor.
    + intros Hin. apply in_map_iff in Hin as (x & Heq & Hx).
      apply replace_members in Hx as [->|[Hx _]].
      * apply (Hother r (or_introl eq_refl) E). symmetry. exact Heq.
      * apply Hr. rewrite <- Heq. apply in_map, Hx.
    + apply IH; [exact Hkeys|exact Hf|].
      intros r' Hr'. apply Hother. right. exact Hr'.
Qed.

Lemma snoc_distinct {B : Type} (f : Certifications.Certificate -> B)
    (c : Certifications.Certificate) (t : Certifications.table) :
  List.NoDup (map f t) ->
  (forall r, In r t -> f r <> f c) ->
  List.NoDup (map f (t ++ [c])).
Proof.
  intros Hf Hother. rewrite map_app. apply PaymentsFacts.NoDup_snoc; [exact Hf|].
  intros Hin. apply in_map_iff in Hin as (r & Heq & Hr).
  exact (Hother r Hr Heq).
Qed.

(** What the storage constraints have checked when they let a row pass. *)
Lemma violates_unique_false (self : Certifications.Certificate)
    (t : Certifications.table) :
  Certifications.violates_unique self t = false ->
  forall r, In r t -> Certifications.pk r <> Certifications.pk self ->
    Enrollments.pk (Certifications.enrollment r)
      <> Enrollments.pk (Certifications.enrollment self)
    /\ Certifications.certificate_number r
       <> Certifications.certificate_number self
    /\ Certifications.verification_code r
       <> Certifications.verification_code self.
Proof.
  intros Hv r Hin Hpk. unfold Certifications.violates_unique in Hv.
  assert (Hr : (negb (bool_decide (Certifications.pk r = Certifications.pk self))
                && (Certifications.for_enrollment (Certifications.enrollment self) r
                    || String.eqb (Certifications.certificate_number r)
                         (Certifications.certificate_number self)
                    || String.eqb (Certifications.verification_code r)
                         (Certifications.verification_code self))) = false).
  { destruct (_ && _) eqn:E; [|reflexivity].
    assert (existsb (fun r =>
      negb (bool_decide (Certifications.pk r = Certifications.pk self))
      && (Certifications.for_enrollment (Certifications.enrollment self) r
          || String.eqb (Certifications.certificate_number r)
               (Certifications.certificate_number self)
          || String.eqb (Certifications.verification_code r)
               (Certifications.verification_code self))) t = true);
      [|congruence].
    apply existsb_exists. exists r. auto. }
  rewrite (bool_decide_eq_false_2 _ Hpk) in Hr. cbn [negb andb] in Hr.
  apply orb_false_iff in Hr as [Hr Hcode].
  apply orb_false_iff in Hr as [Henr Hnum].
  unfold Certifications.for_enrollment in Henr.
  apply bool_decide_eq_false in Henr.
  apply String.eqb_neq in Hnum, Hcode. auto.
Qed.

(** Appending a row with a new key that shares no enrollment, number or
    code with a stored row keeps the table well formed. *)
Lemma append_well_formed (c : Certifications.Certificate)
    (t : Certifications.table) :
  CertificateOps.well_formed t ->
  is_Some (Certifications.pk c) ->
  (forall r, In r t ->
     Certifications.pk r <> Certifications.pk c
     /\ Enrollments.pk (Certifications.enrollment r)
        <> Enrollments.pk (Certifications.enrollment c)
     /\ Certifications.certificate_number r
        <> Certifications.certificate_number c
     /\ Certifications.verification_code r
        <> Certifications.verification_code c) ->
  CertificateOps.well_formed (t ++ [c]).
Proof.
  intros (Hsome & Hkeys & Henr & Hnum & Hcode) Hc Hother.
  split; [|split; [|split; [|split]]].
  - apply Forall_app. split; [exact Hsome|]. repeat constructor. exact Hc.
  - apply snoc_distinct; [exact Hkeys|]. intros r Hr. apply (Hother r Hr).
  - apply (snoc_distinct
             (fun c => Enrollments.pk (Certifications.enrollment c)));
      [exact Henr|]. intros r Hr. apply (Hother r Hr).
  - apply snoc_distinct; [exact Hnum|]. intros r Hr. apply (Hother r Hr).
  - apply snoc_distinct; [exact Hcode|]. intros r Hr. apply (Hother r Hr).
Qed.

(** Overwriting the row of the instance's key likewise. *)
Lemma replace_well_formed (k : Z) (self : Certifications.Certificate)
    (t : Certifications.table) :
  CertificateOps.well_formed t ->
  Certifications.pk self = Some k ->
  Certifications.violates_unique self t = false ->
  CertificateOps.well_formed
    (map (fun r => if Certifications.has_pk k r then self else r) t).
Proof.
  intros (Hsome & Hkeys & Henr & Hnum & Hcode) Hk Hv.
  pose proof (violates_unique_false self t Hv) as Hother.
  rewrite Hk in Hother.
  split; [|split; [|split; [|split]]].
  - rewrite List.Forall_forall in *. intros x Hx.
    apply replace_members in Hx as [->|[Hx _]];
      [rewrite Hk; eauto|apply Hsome, Hx].
  - rewrite certificate_replace_keys by exact Hk. exact Hkeys.
  - apply (replace_distinct
             (fun c => Enrollments.pk (Certifications.enrollment c)));
      [exact Hkeys|exact Henr|]. intros r Hr Hpk. apply (Hother r Hr Hpk).
  - apply replace_distinct; [exact Hkeys|exact Hnum|].
    intros r Hr Hpk. apply (Hother r Hr Hpk).
  - apply replace_distinct; [exact Hkeys|exact Hcode|].
    intros r Hr Hpk. apply (Hother r Hr Hpk).
Qed.

End CertificateFacts.

Module CertificateSaves.

Lemma not_new_key : bool_decide (is_Some (@None Z)) = false.
Proof. apply bool_decide_eq_false. intros [? ?]. discriminate. Qed.

Lemma with_file_same (c : Certifications.Certificate) :
  Certifications.with_file (Certifications.certificate_file c) c = c.
Proof. destruct c. reflexivity. Qed.

(** The second write of [save], which attaches the file to the row just
    inserted. *)
Lemma write_file (f : option string) (c : Certifications.Certificate)
    (t : Certifications.table) :
  Certifications.pk c = Some (Certifications.next_pk t) ->
  Certifications.write (Certifications.with_file f c) (t ++ [c])
  = (Certifications.with_file f c, (t ++ [Certifications.with_file f c])%list).
Proof.
  intros Hk. unfold Certifications.write.
  cbn [Certifications.with_file Certifications.pk]. rewrite Hk.
  assert (Hex : existsb (Certifications.has_pk (Certifications.next_pk t))
                  (t ++ [c]) = true).
  { apply existsb_exists. exists c. split.
    - apply in_or_app. right. left. reflexivity.
    - apply CertificateFacts.has_pk_true, Hk. }
  rewrite Hex, map_app. f_equal. f_equal.
  - apply CertificateFacts.replace_absent.
    intros r Hr. apply CertificateFacts.certificate_next_pk_fresh, Hr.
  - cbn [map]. rewrite (proj2 (CertificateFacts.has_pk_true _ c) Hk).
    reflexivity.
Qed.

(** A new certificate that [save] accepts: the row appended and the
    instance returned. *)
Lemma save_new (self : Certifications.Certificate) (now : Py.date)
    (uuid : string) (pdf : option string) (t : Certifications.table)
    (saved : Certifications.Certificate) :
  Certifications.pk self = None ->
  fst (Certifications.save self now uuid pdf t) = Py.Return saved ->
  Certifications.clean (Certifications.numbered now uuid self t) t
    = Py.Return tt
  /\ Certifications.violates_unique
       (Certifications.numbered now uuid self t) t = false
  /\ snd (Certifications.save self now uuid pdf t) = (t ++ [saved])%list
  /\ exists file,
       saved = Certifications.with_file file
                 (Certifications.with_pk (Certifications.next_pk t)
                    (Certifications.numbered now uuid self t)).
Proof.
  intros Hpk.
  destruct (Certifications.save self now uuid pdf t) as [out t'] eqn:Hs.
  cbn [fst snd]. intros ->.
  unfold Certifications.save in Hs. rewrite Hpk, not_new_key in Hs.
  cbn [negb andb] in Hs.
  destruct (Certifications.clean _ t) as [[]|]; [|discriminate].
  destruct (Certifications.violates_unique _ t); [discriminate|].
  unfold Certifications.write at 1 in Hs.
  change (Certifications.pk (Certifications.numbered now uuid self t))
    with (Certifications.pk self) in Hs.
  rewrite Hpk in Hs.
  set (self2 := Certifications.with_pk (Certifications.next_pk t)
                  (Certifications.numbered now uuid self t)) in *.
  destruct (negb (bool_decide (is_Some (Certifications.certificate_file self2)))).
  - destruct pdf as [f|].
    + rewrite (write_file (Some f) self2 t eq_refl) in Hs.
      injection Hs as <- <-. repeat split. eauto.
    + injection Hs as <- <-. repeat split.
      exists (Certifications.certificate_file self2).
      symmetry. apply with_file_same.
  - injection Hs as <- <-. repeat split.
    exists (Certifications.certificate_file self2).
    symmetry. apply with_file_same.
Qed.

(** A certificate with a key that [save] accepts: one write of the
    instance as it is. *)
Lemma save_stored (self : Certifications.Certificate) (now : Py.date)
    (uuid : string) (pdf : option string) (t : Certifications.table)
    (k : Z) (saved : Certifications.Certificate) :
  Certifications.pk self = Some k ->
  fst (Certifications.save self now uuid pdf t) = Py.Return saved ->
  Certifications.clean self t = Py.Return tt
  /\ Certifications.violates_unique self t = false
  /\ saved = self
  /\ snd (Certifications.save self now uuid pdf t)
     = (if existsb (Certifications.has_pk k) t
        then map (fun r => if Certifications.has_pk k r then self else r) t
        else t ++ [self])%list.
Proof.
  intros Hpk.
  destruct (Certifications.save self now uuid pdf t) as [out t'] eqn:Hs.
  cbn [fst snd]. intros ->.
  unfold Certifications.save in Hs. rewrite Hpk in Hs.
  assert (Hkey : bool_decide (is_Some (Some k)) = true)
    by (apply bool_decide_eq_true_2; eauto).
  rewrite Hkey in Hs. cbn [negb andb] in Hs.
  destruct (Certifications.clean self t) as [[]|]; [|discriminate].
  destruct (Certifications.violates_unique self t); [discriminate|].
  unfold Certifications.write in Hs. rewrite Hpk in Hs.
  destruct (existsb (Certifications.has_pk k) t);
    injection Hs as <- <-; repeat split.
Qed.

(** A save that raises leaves the table as it was. *)
Lemma save_raise (self : Certifications.Certificate) (now : Py.date)
    (uuid : string) (pdf : option string) (t : Certifications.table) :
  Py.raises (fst (Certifications.save self now uuid pdf t)) = true ->
  snd (Certifications.save self now uuid pdf t) = t.
Proof.
  unfold Certifications.save.
  destruct (Certifications.clean _ t); [|reflexivity].
  destruct (Certifications.violates_unique _ t); [reflexivity|].
  destruct (Certifications.write _ t) as [self2 t2].
  destruct (_ && _); [destruct pdf|]; try discriminate.
  destruct (Certifications.write _ t2). discriminate.
Qed.

Lemma save_well_formed (self : Certifications.Certificate) (now : Py.date)
    (uuid : string) (pdf : option string) (t : Certifications.table) :
  CertificateOps.well_formed t ->
  CertificateOps.well_formed (snd (Certifications.save self now uuid pdf t)).
Proof.
  intros Hwf.
  destruct (fst (Certifications.save self now uuid pdf t)) as [saved|x] eqn:Hs.
  - destruct (Certifications.pk self) as [k|] eqn:Hpk.
    + destruct (save_stored self now uuid pdf t k saved Hpk Hs)
        as (_ & Hv & _ & ->).
      destruct (existsb (Certifications.has_pk k) t) eqn:Hex.
      * apply CertificateFacts.replace_well_formed; assumption.
      * apply CertificateFacts.append_well_formed;
          [exact Hwf|rewrite Hpk; eauto|].
        intros r Hr.
        assert (Hk : Certifications.pk r <> Certifications.pk self)
          by (rewrite Hpk;
              apply (CertificateFacts.certificate_absent_key k t r Hex Hr)).
        split; [exact Hk|].
        apply (CertificateFacts.violates_unique_false self t Hv r Hr Hk).
    + destruct (save_new self now uuid pdf t saved Hpk Hs)
        as (_ & Hv & -> & file & ->).
      apply CertificateFacts.append_well_formed; [exact Hwf|simpl; eauto|].
      intros r Hr.
      assert (Hk : Certifications.pk r
                   <> Certifications.pk (Certifications.numbered now uuid self t)).
      { change (Certifications.pk (Certifications.numbered now uuid self t))
          with (Certifications.pk self). rewrite Hpk.
        destruct Hwf as (Hsome & _). rewrite List.Forall_forall in Hsome.
        destruct (Hsome r Hr) as [j Hj]. rewrite Hj. discriminate. }
      split; [apply CertificateFacts.certificate_next_pk_fresh, Hr|].
      apply (CertificateFacts.violates_unique_false _ t Hv r Hr Hk).
  - rewrite save_raise; [exact Hwf|]. rewrite Hs. reflexivity.
Qed.

(** With distinct codes, looking up the code of a stored certificate gives
    that certificate when it is public and nothing otherwise. *)
Lemma verify_member (c : Certifications.Certificate)
    (t : Certifications.table) :
  List.NoDup (map Certifications.verification_code t) ->
  In c t ->
  Certifications.verify_certificate (Certifications.verification_code c) t
  = Py.Return (if Certifications.is_public c then Some c else None).
Proof.
  intros Hnd Hin. unfold Certifications.verify_certificate.
  destruct (Certifications.is_public c) eqn:Hpub.
  - rewrite (CertificationsFacts.filter_one _ t c Hnd Hin); [reflexivity|].
    unfold Certifications.matches. rewrite String.eqb_refl, Hpub. reflexivity.
  - rewrite CertificationsFacts.filter_none; [reflexivity|].
    intros c' Hc'. unfold Certifications.matches.
    destruct (String.eqb (Certifications.verification_code c')
                (Certifications.verification_code c)) eqn:E; [|reflexivity].
    apply String.eqb_eq in E. cbn [andb].
    assert (c' = c) as ->; [|exact Hpub].
    clear -Hnd Hin Hc' E.
    induction t as [|x rest IH]; [destruct Hin|].
    simpl in Hnd. apply NoDup_cons_iff in Hnd as [Hx Hnd].
    destruct Hin as [->|Hin], Hc' as [->|Hc']; auto.
    + exfalso. apply Hx. rewrite <- E. apply in_map, Hc'.
    + exfalso. apply Hx. rewrite E. apply in_map, Hin.
Qed.

End CertificateSaves.

Module CertificateToggles.

(** [clean] of a certificate with a key reads neither the flag nor the
    table. *)
Lemma clean_stored (b : bool) (c : Certifications.Certificate)
    (t t' : Certifications.table) :
  is_Some (Certifications.pk c) ->
  Certifications.clean (CertificateOps.with_public b c) t
  = Certifications.clean c t'.
Proof.
  intros Hk. unfold Certifications.clean.
  cbn [CertificateOps.with_public Certifications.enrollment
       Certifications.issue_date Certifications.pk].
  rewrite (bool_decide_eq_true_2 _ Hk). reflexivity.
Qed.

(** The storage constraints pass over the row of the instance's own key. *)
Lemma violates_unique_replace (k : Z) (b : bool)
    (c : Certifications.Certificate) (t : Certifications.table) :
  Certifications.pk c = Some k ->
  Certifications.violates_unique c
    (map (fun r => if Certifications.has_pk k r
                   then CertificateOps.with_public b c else r) t)
  = Certifications.violates_unique (CertificateOps.with_public b c) t.
Proof.
  intros Hk. unfold Certifications.violates_unique.
  cbn [CertificateOps.with_public Certifications.enrollment
       Certifications.certificate_number Certifications.verification_code
       Certifications.pk].
  induction t as [|r t IH]; [reflexivity|].
  cbn [map existsb]. rewrite IH. f_equal.
  destruct (Certifications.has_pk k r) eqn:E; [|reflexivity].
  apply CertificateFacts.has_pk_true in E.
  cbn [CertificateOps.with_public Certifications.pk].
  rewrite (bool_decide_eq_true_2 (Certifications.pk c = Certifications.pk c)
             eq_refl).
  rewrite (bool_decide_eq_true_2 (Certifications.pk r = Certifications.pk c))
    by congruence.
  reflexivity.
Qed.

(** Writing the stored row back over its replacement restores the table. *)
Lemma replace_restore (k : Z) (self c : Certifications.Certificate)
    (t : Certifications.table) :
  List.NoDup (map Certifications.pk t) ->
  In self t -> Certifications.pk self = Some k ->
  Certifications.pk c = Some k ->
  map (fun r => if Certifications.has_pk k r then self else r)
    (map (fun r => if Certifications.has_pk k r then c else r) t) = t.
Proof.
  intros Hnd Hin Hself Hc. induction t as [|r t IH]; [reflexivity|].
  simpl in Hnd. apply NoDup_cons_iff in Hnd as [Hr Hnd].
  cbn [map]. destruct (Certifications.has_pk k r) eqn:E.
  - apply CertificateFacts.has_pk_true in E.
    assert (Hrest : forall r', In r' t -> Certifications.pk r' <> Some k).
    { intros r' Hr' Hk'. apply Hr. rewrite E, <- Hk'. apply in_map, Hr'. }
    rewrite (proj2 (CertificateFacts.has_pk_true k c) Hc).
    rewrite !(CertificateFacts.replace_absent k _ t Hrest).
    f_equal. destruct Hin as [->|Hin]; [reflexivity|].
    exfalso. exact (Hrest self Hin Hself).
  - rewrite E. f_equal. apply IH; [exact Hnd|].
    destruct Hin as [->|Hin]; [|exact Hin].
    apply CertificateFacts.has_pk_false in E. contradiction.
Qed.

End CertificateToggles.

Module CertificateProperties.

(** X19.  [Certificate.save] keeps the certificate table well formed (every
    row keyed; keys, enrollments, numbers and verification codes each
    distinct), whether it stores or raises.  When it returns, the returned
    certificate is stored, and [verify_certificate] with its verification
    code gives that certificate if it is public and [None] if it is not. *)
Theorem save_then_verify (self : Certifications.Certificate) (now : Py.date)
    (uuid : string) (pdf : option string) (t : Certifications.table) :
  CertificateOps.well_formed t ->
  CertificateOps.well_formed (snd (Certifications.save self now uuid pdf t))
  /\ forall saved,
       fst (Certifications.save self now uuid pdf t) = Py.Return saved ->
       In saved (snd (Certifications.save self now uuid pdf t))
       /\ Certifications.verify_certificate
            (Certifications.verification_code saved)
            (snd (Certifications.save self now uuid pdf t))
          = Py.Return (if Certifications.is_public saved
                       then Some saved else None).
Proof.
  intros Hwf.
  pose proof (CertificateSaves.save_well_formed self now uuid pdf t Hwf) as Hwf'.
  split; [exact Hwf'|]. intros saved Hs.
  assert (Hin : In saved (snd (Certifications.save self now uuid pdf t))).
  { destruct (Certifications.pk self) as [k|] eqn:Hpk.
    - destruct (CertificateSaves.save_stored self now uuid pdf t k saved Hpk Hs)
        as (_ & _ & -> & ->).
      destruct (existsb (Certifications.has_pk k) t) eqn:Hex.
      + apply existsb_exists in Hex as (r & Hr & Hk).
        apply in_map_iff. exists r. rewrite Hk. auto.
      + apply in_or_app. right. left. reflexivity.
    - destruct (CertificateSaves.save_new self now uuid pdf t saved Hpk Hs)
        as (_ & _ & -> & _).
      apply in_or_app. right. left. reflexivity. }
  split; [exact Hin|].
  apply CertificateSaves.verify_member; [|exact Hin].
  apply Hwf'.
Qed.

(** X19 on the sample table: the certificate issued for [omar]'s
    "Calculus" is stored and its new code verifies. *)
Lemma save_then_verify_witness :
  CertificateOps.well_formed
    (snd (Certifications.save Samples.calculus_certificate Samples.may_first
            "3f2b8c1e-0000-4000-8000-000000000003" None
            Samples.certificates))
  /\ exists saved,
       Certifications.verify_certificate
         "3f2b8c1e-0000-4000-8000-000000000003"
         (snd (Certifications.save Samples.calculus_certificate
                 Samples.may_first "3f2b8c1e-0000-4000-8000-000000000003"
                 None Samples.certificates))
       = Py.Return (Some saved)
       /\ Certifications.certificate_number saved = "CERT-2025-000003".
Proof.
  assert (Hwf : CertificateOps.well_formed Samples.certificates).
  { split; [|split; [|split; [|split]]].
    - repeat constructor; simpl; eauto.
    - simpl. repeat constructor; simpl; intuition discriminate.
    - simpl. repeat constructor; simpl; intuition discriminate.
    - simpl. repeat constructor; simpl; intuition discriminate.
    - simpl. repeat constructor; simpl; intuition discriminate. }
  destruct (save_then_verify Samples.calculus_certificate Samples.may_first
              "3f2b8c1e-0000-4000-8000-000000000003" None
              Samples.certificates Hwf) as [Hwf' Hsaved].
  split; [exact Hwf'|].
  eexists. split; [exact (proj2 (Hsaved _ eq_refl))|reflexivity].
Defined.

(** X20.  For a stored certificate of a well-formed table, a
    [toggle_public] that returns gives the negated flag;
    [verify_certificate] with the certificate's code then follows the new
    flag; and a second [toggle_public] of the toggled certificate returns
    the first flag and restores the table. *)
Theorem toggle_public_round_trip (self : Certifications.Certificate)
    (now now' : Py.date) (uuid uuid' : string) (pdf pdf' : option string)
    (t t' : Certifications.table) (b : bool) :
  CertificateOps.well_formed t ->
  In self t ->
  CertificateOps.toggle_public self now uuid pdf t = (Py.Return b, t') ->
  b = negb (Certifications.is_public self)
  /\ Certifications.verify_certificate
       (Certifications.verification_code self) t'
     = Py.Return (if b then Some (CertificateOps.with_public b self) else None)
  /\ CertificateOps.toggle_public (CertificateOps.with_public b self)
       now' uuid' pdf' t'
     = (Py.Return (Certifications.is_public self), t).
Proof.
  intros Hwf Hin Htoggle.
  assert (Hkey : is_Some (Certifications.pk self)).
  { destruct Hwf as (Hsome & _). rewrite List.Forall_forall in Hsome.
    apply Hsome, Hin. }
  destruct Hkey as [k Hk].
  set (flipped := CertificateOps.with_public
                    (negb (Certifications.is_public self)) self) in *.
  assert (Hkf : Certifications.pk flipped = Some k) by exact Hk.
  unfold CertificateOps.toggle_public in Htoggle. fold flipped in Htoggle.
  destruct (Certifications.save flipped now uuid pdf t) as [out t1] eqn:Hs.
  destruct out as [saved|x]; [|discriminate].
  injection Htoggle as <- <-.
  pose proof (CertificateSaves.save_stored flipped now uuid pdf t k saved Hkf)
    as Hshape.
  pose proof (CertificateSaves.save_well_formed flipped now uuid pdf t Hwf)
    as Hwf1.
  rewrite Hs in Hshape, Hwf1. cbn [fst snd] in Hshape, Hwf1.
  destruct (Hshape eq_refl) as (Hclean & Hv & -> & ->).
  assert (Hex : existsb (Certifications.has_pk k) t = true).
  { apply existsb_exists. exists self. split; [exact Hin|].
    apply CertificateFacts.has_pk_true, Hk. }
  rewrite Hex in *.
  assert (Hin1 : In flipped
                   (map (fun r => if Certifications.has_pk k r
                                  then flipped else r) t)).
  { apply in_map_iff. exists self.
    rewrite (proj2 (CertificateFacts.has_pk_true k self) Hk). auto. }
  split; [reflexivity|]. split.
  - change (Certifications.verification_code self)
      with (Certifications.verification_code flipped).
    rewrite (CertificateSaves.verify_member flipped _
               (proj2 (proj2 (proj2 (proj2 Hwf1)))) Hin1).
    reflexivity.
  - unfold CertificateOps.toggle_public.
    assert (Hself :
      CertificateOps.with_public
        (negb (Certifications.is_public
                 (CertificateOps.with_public
                    (Certifications.is_public flipped) self)))
        (CertificateOps.with_public (Certifications.is_public flipped) self)
      = self).
    { cbn [CertificateOps.with_public Certifications.is_public flipped].
      rewrite negb_involutive. destruct self. reflexivity. }
    rewrite Hself. unfold Certifications.save. rewrite Hk.
    rewrite (bool_decide_eq_true_2 (is_Some (Some k)) (ltac:(eauto))).
    cbn [negb andb].
    rewrite <- (CertificateToggles.clean_stored
                  (negb (Certifications.is_public self)) self t)
      by (rewrite Hk; eauto).
    fold flipped. rewrite Hclean.
    unfold flipped at 1.
    rewrite (CertificateToggles.violates_unique_replace k _ self t Hk).
    fold flipped. rewrite Hv.
    unfold Certifications.write. rewrite Hk.
    assert (Hex1 : existsb (Certifications.has_pk k)
                     (map (fun r => if Certifications.has_pk k r
                                    then flipped else r) t) = true).
    { apply existsb_exists. exists flipped. split; [exact Hin1|].
      apply CertificateFacts.has_pk_true, Hkf. }
    rewrite Hex1.
    rewrite (CertificateToggles.replace_restore k self flipped t
               (proj1 (proj2 Hwf)) Hin Hk Hkf).
    reflexivity.
Qed.

(** X20 on the sample table: the public certificate withdrawn and
    published again. *)
Lemma toggle_public_round_trip_witness :
  Certifications.verify_certificate "3f2b8c1e-0000-4000-8000-000000000001"
    (snd (CertificateOps.toggle_public Samples.public_certificate
            Samples.may_first "" None Samples.certificates))
  = Py.Return None
  /\ CertificateOps.toggle_public
       (CertificateOps.with_public false Samples.public_certificate)
       Samples.may_first "" None
       (snd (CertificateOps.toggle_public Samples.public_certificate
               Samples.may_first "" None Samples.certificates))
     = (Py.Return true, Samples.certificates).
Proof.
  assert (Hwf : CertificateOps.well_formed Samples.certificates).
  { split; [|split; [|split; [|split]]].
    - repeat constructor; simpl; eauto.
    - simpl. repeat constructor; simpl; intuition discriminate.
    - simpl. repeat constructor; simpl; intuition discriminate.
    - simpl. repeat constructor; simpl; intuition discriminate.
    - simpl. repeat constructor; simpl; intuition discriminate. }
  destruct (toggle_public_round_trip Samples.public_certificate
              Samples.may_first Samples.may_first "" "" None None
              Samples.certificates
              (snd (CertificateOps.toggle_public Samples.public_certificate
                      Samples.may_first "" None Samples.certificates))
              false Hwf (or_introl eq_refl) eq_refl) as (_ & Hverify & Hback).
  split; [exact Hverify|exact Hback].
Defined.

End CertificateProperties.

(** ** enrollments and certificates: completion, cancellation, issuance *)

Module LifecycleFacts.

Lemma date_ltb_irrefl (d : Py.date) : Py.date_ltb d d = false.
Proof.
  unfold Py.date_ltb. rewrite !Z.ltb_irrefl, !Z.eqb_refl. reflexivity.
Qed.

(** What [save] returns is the instance, with its key filled in if it had
    none. *)
Lemma save_returns (self saved : Enrollments.Enrollment)
    (t t' : Enrollments.table) :
  Enrollments.save self t = (Py.Return saved, t') ->
  In saved t'
  /\ Enrollments.status saved = Enrollments.status self
  /\ Enrollments.completion_date saved = Enrollments.completion_date self
  /\ Enrollments.enrollment_date saved = Enrollments.enrollment_date self
  /\ (is_Some (Enrollments.pk self) -> saved = self).
Proof.
  unfold Enrollments.save, Enrollments.base_save.
  destruct (Enrollments.clean self t); [|discriminate].
  destruct (Enrollments.violates_unique_together self t); [discriminate|].
  pose proof (EnrollmentsFacts.write_stores self t) as Hin.
  pose proof (EnrollmentsFacts.write_keeps_saved_instance self t) as Hkeep.
  assert (Hfields :
    Enrollments.status (fst (Enrollments.write self t))
      = Enrollments.status self
    /\ Enrollments.completion_date (fst (Enrollments.write self t))
       = Enrollments.completion_date self
    /\ Enrollments.enrollment_date (fst (Enrollments.write self t))
       = Enrollments.enrollment_date self).
  { unfold Enrollments.write. destruct (Enrollments.pk self);
      [destruct (existsb _ t)|]; repeat split. }
  destruct (Enrollments.write self t) as [self' t1]. cbn [fst snd] in *.
  intros [= <- <-]. destruct Hfields as (? & ? & ?). auto.
Qed.

Lemma exists_append (f : Certifications.Certificate -> bool)
    (t : Certifications.table) (c : Certifications.Certificate) :
  existsb f (t ++ [c]) = existsb f t || f c.
Proof. rewrite existsb_app. simpl. rewrite orb_false_r. reflexivity. Qed.

End LifecycleFacts.

Module LifecycleProperties.

(** X21.  When [Certificate.save] stores a new certificate, the pending
    list of [get_pending_certificates] loses the enrollments of the
    certificate's key and nothing else; if the certified enrollment is
    among the enrollment rows, it was pending before and is not after. *)
Theorem issuing_clears_pending (self : Certifications.Certificate)
    (now : Py.date) (uuid : string) (pdf : option string)
    (t : Certifications.table) (es : Enrollments.table)
    (saved : Certifications.Certificate) :
  Certifications.pk self = None ->
  fst (Certifications.save self now uuid pdf t) = Py.Return saved ->
  CertificateOps.get_pending_certificates es
    (snd (Certifications.save self now uuid pdf t))
  = List.filter
      (fun e => negb (bool_decide
                        (Enrollments.pk e
                         = Enrollments.pk (Certifications.enrollment self))))
      (CertificateOps.get_pending_certificates es t)
  /\ (In (Certifications.enrollment self) es ->
      In (Certifications.enrollment self)
        (CertificateOps.get_pending_certificates es t)
      /\ ~ In (Certifications.enrollment self)
             (CertificateOps.get_pending_certificates es
                (snd (Certifications.save self now uuid pdf t)))).
Proof.
  intros Hpk Hs.
  destruct (CertificateSaves.save_new self now uuid pdf t saved Hpk Hs)
    as (Hclean & _ & Ht' & file & Hsaved).
  rewrite Ht'.
  assert (Hfirst :
    CertificateOps.get_pending_certificates es (t ++ [saved])
    = List.filter
        (fun e => negb (bool_decide
                          (Enrollments.pk e
                           = Enrollments.pk (Certifications.enrollment self))))
        (CertificateOps.get_pending_certificates es t)).
  { unfold CertificateOps.get_pending_certificates.
    rewrite <- PaymentQueriesFacts.filter_andb.
    apply List.filter_ext. intros e.
    rewrite LifecycleFacts.exists_append, negb_orb, andb_assoc.
    f_equal. subst saved. unfold Certifications.for_enrollment.
    cbn [Certifications.with_file Certifications.with_pk
         Certifications.numbered Certifications.with_numbers
         Certifications.enrollment].
    f_equal. apply bool_decide_ext. split; congruence. }
  split; [exact Hfirst|]. intros Hin.
  unfold Certifications.clean in Hclean.
  change (Certifications.enrollment (Certifications.numbered now uuid self t))
    with (Certifications.enrollment self) in Hclean.
  change (Certifications.pk (Certifications.numbered now uuid self t))
    with (Certifications.pk self) in Hclean.
  destruct (String.eqb (Enrollments.status (Certifications.enrollment self))
              "COMPLETED") eqn:Hst; [|discriminate].
  cbn [negb] in Hclean.
  destruct (Enrollments.completion_date (Certifications.enrollment self));
    [|discriminate].
  destruct (Py.date_ltb _ _); [discriminate|].
  rewrite Hpk, CertificateSaves.not_new_key in Hclean. cbn [negb andb] in Hclean.
  destruct (existsb (Certifications.for_enrollment
                       (Certifications.enrollment self)) t) eqn:Hex;
    [discriminate|].
  split.
  - unfold CertificateOps.get_pending_certificates. apply filter_In.
    split; [exact Hin|]. rewrite Hst, Hex. reflexivity.
  - rewrite Hfirst. intros Hafter. apply filter_In in Hafter as [_ Hafter].
    rewrite (bool_decide_eq_true_2 _ eq_refl) in Hafter. discriminate.
Qed.

(** X21 on the sample table: the certificate for [omar]'s "Calculus". *)
Lemma issuing_clears_pending_witness :
  In Samples.calculus_completed_row
    (CertificateOps.get_pending_certificates [Samples.calculus_completed_row]
       Samples.certificates)
  /\ ~ In Samples.calculus_completed_row
         (CertificateOps.get_pending_certificates
            [Samples.calculus_completed_row]
            (snd (Certifications.save Samples.calculus_certificate
                    Samples.may_first "3f2b8c1e-0000-4000-8000-000000000003"
                    None Samples.certificates))).
Proof.
  exact (proj2 (issuing_clears_pending Samples.calculus_certificate
                  Samples.may_first "3f2b8c1e-0000-4000-8000-000000000003"
                  None Samples.certificates [Samples.calculus_completed_row]
                  _ eq_refl eq_refl)
           (or_introl eq_refl)).
Defined.

(** X22.  An enrollment that [mark_completed] has completed is stored as
    COMPLETED with today's completion date and is final: completing it
    again and cancelling it both raise and change nothing.  It is pending
    for a certificate as long as none exists for it, and
    [Certificate.clean] accepts a new certificate for it issued that day. *)
Theorem completed_enrollment_is_final (self : Enrollments.Enrollment)
    (verifier : option Accounts.User) (today : Py.date)
    (t t' : Enrollments.table) (done : Enrollments.Enrollment) :
  Enrollments.mark_completed self verifier today t = (Py.Return done, t') ->
  In done t'
  /\ Enrollments.status done = "COMPLETED"
  /\ Enrollments.completion_date done = Some today
  /\ (forall v d t2,
        Enrollments.mark_completed done v d t2
        = (Py.Raise (Py.ValidationError None
             "Enrollment is already completed."), t2))
  /\ (forall t2,
        Enrollments.mark_cancelled done t2
        = (Py.Raise (Py.ValidationError None
             "Cannot cancel a completed enrollment."), t2))
  /\ (forall certificates,
        existsb (Certifications.for_enrollment done) certificates = false ->
        In done (CertificateOps.get_pending_certificates t' certificates)
        /\ forall number code is_public file issued_by,
             Certifications.clean
               (Certifications.mkCertificate None done number code today
                  is_public file issued_by) certificates
             = Py.Return tt).
Proof.
  unfold Enrollments.mark_completed.
  destruct (String.eqb (Enrollments.status self) "COMPLETED");
    [discriminate|].
  destruct (String.eqb (Enrollments.status self) "CANCELLED");
    [discriminate|].
  intros Hsave.
  destruct (LifecycleFacts.save_returns _ _ _ _ Hsave)
    as (Hin & Hst & Hdate & _ & _).
  cbn [Enrollments.completed_by Enrollments.status
       Enrollments.completion_date] in Hst, Hdate.
  split; [exact Hin|]. split; [exact Hst|]. split; [exact Hdate|].
  split; [intros v d t2; rewrite Hst; reflexivity|].
  split; [intros t2; unfold Enrollments.mark_cancelled; rewrite Hst;
          reflexivity|].
  intros certificates Hnone. split.
  - unfold CertificateOps.get_pending_certificates. apply filter_In.
    split; [exact Hin|]. rewrite Hst, Hnone. reflexivity.
  - intros number code is_public file issued_by.
    unfold Certifications.clean.
    cbn [Certifications.enrollment Certifications.issue_date
         Certifications.pk].
    rewrite Hst, Hdate. cbn [String.eqb negb].
    rewrite LifecycleFacts.date_ltb_irrefl, Hnone, andb_false_r.
    reflexivity.
Qed.

(** X22 for the enrollment of [amal], completed on 1 May 2025. *)
Lemma completed_enrollment_is_final_witness :
  Enrollments.mark_cancelled
    (Enrollments.completed_by (Some Samples.registrar) Samples.may_first
       Samples.running_row) []
  = (Py.Raise (Py.ValidationError None
       "Cannot cancel a completed enrollment."), []).
Proof.
  apply (completed_enrollment_is_final Samples.running_row
           (Some Samples.registrar) Samples.may_first [Samples.running_row]
           [Enrollments.completed_by (Some Samples.registrar)
              Samples.may_first Samples.running_row]
           _ eq_refl).
Defined.

(** X23.  [mark_cancelled] refuses a COMPLETED enrollment and changes
    nothing.  An enrollment it has cancelled is stored as CANCELLED with
    its dates as they were, can no longer be completed, and is not pending
    for a certificate. *)
Theorem cancelled_enrollment_cannot_complete (self : Enrollments.Enrollment)
    (t : Enrollments.table) :
  (Enrollments.status self = "COMPLETED" ->
   Enrollments.mark_cancelled self t
   = (Py.Raise (Py.ValidationError None
        "Cannot cancel a completed enrollment."), t))
  /\ forall cancelled t',
       Enrollments.mark_cancelled self t = (Py.Return cancelled, t') ->
       In cancelled t'
       /\ Enrollments.status cancelled = "CANCELLED"
       /\ Enrollments.enrollment_date cancelled
          = Enrollments.enrollment_date self
       /\ Enrollments.completion_date cancelled
          = Enrollments.completion_date self
       /\ (forall v d t2,
             Enrollments.mark_completed cancelled v d t2
             = (Py.Raise (Py.ValidationError None
                  "Cannot complete a cancelled enrollment."), t2))
       /\ (forall es certificates,
             ~ In cancelled
                 (CertificateOps.get_pending_certificates es certificates)).
Proof.
  unfold Enrollments.mark_cancelled. split.
  - intros ->. reflexivity.
  - intros cancelled t'.
    destruct (String.eqb (Enrollments.status self) "COMPLETED");
      [discriminate|].
    intros Hsave.
    destruct (LifecycleFacts.save_returns _ _ _ _ Hsave)
      as (Hin & Hst & Hdone & Hdate & _).
    cbn [Enrollments.status Enrollments.completion_date
         Enrollments.enrollment_date] in Hst, Hdone, Hdate.
    repeat split; auto.
    + intros v d t2. unfold Enrollments.mark_completed. rewrite Hst.
      reflexivity.
    + intros es certificates Hpending.
      unfold CertificateOps.get_pending_certificates in Hpending.
      apply filter_In in Hpending as [_ Hpending].
      rewrite Hst in Hpending. discriminate.
Qed.

End LifecycleProperties.
